(** * fetch-to-node: the outgoing-message adapter

    A shallow embedding of [src/fetch-to-node-broken/http-server.ts]: the
    class [FetchServerResponse] (its constructor, [dataFromDataWrittenEvent],
    [writeContinue], [writeProcessing], [writeEarlyHints], [_implicitHeader],
    [writeHead], [_toFetchResponse]) and the entry points [toReqRes] and
    [toFetchResponse].

    JavaScript objects are mutable, so every method is a state transformer
    on the record [State]; a method that can throw returns the state it
    leaves behind together with the exception.  Closure variables of the
    constructor and of [_toFetchResponse] (the two [finished] flags, the
    [initialDataChunks] array, the stream controllers) live in [Bridge].

    The superclass [FetchOutgoingMessage] ([./http-outgoing.js]) is not
    part of these sources: what the class inherits is modelled from the
    specification, and every such definition says so.  The methods that
    need a socket ([assignSocket], [detachSocket]) do nothing but throw,
    [_finish] does nothing but call the superclass: they are left out.

    Conventions.
    - A JavaScript string is a [string]: one [ascii] per UTF-16 code unit,
      so the strings covered are those whose code units are below 256.
    - A JavaScript number that is used as a status code is a [Z]
      (integer-valued numbers); [ToInt32] is the coercion done by [| 0].
    - [console.error] is not observable here and is left out. *)

From Stdlib Require Import ZArith List String Ascii Bool Lia Arith.
From Stdlib.Strings Require Import Byte.
From Stdlib Require Import DecimalString.
Import ListNotations.

Local Open Scope string_scope.
Local Open Scope list_scope.

(** ** JavaScript values, exceptions, results *)

Definition bytes := list byte.

(** What a write-buffer entry may hold at run time.  The TypeScript type
    is [string | Buffer | Uint8Array]; a caller can still pass anything. *)
Inductive JsValue : Type :=
| VUndefined
| VNull
| VString (s : string)
| VBytes (b : bytes)
| VNumber (n : Z).

(** [encoding?: BufferEncoding | null] *)
Inductive Encoding : Type :=
| EncUndefined
| EncNull
| EncName (name : string).

(** The errors of [../utils/errors.js] that the file throws, and the
    TypeError/RangeError a host API (Buffer, Headers, Response, a stream
    controller) may throw. *)
Inductive Error : Type :=
| ERR_HTTP_HEADERS_SENT (op : string)
| ERR_HTTP_INVALID_STATUS_CODE (originalStatusCode : Z)
| ERR_INVALID_ARG_TYPE (name : string) (received : JsValue)
| ERR_INVALID_ARG_VALUE (name : string)
| ERR_INVALID_CHAR (field : string)
| ERR_METHOD_NOT_IMPLEMENTED (methodName : string)
| HostError (api : string).

(** The result of an expression that may throw. *)
Inductive Result (A : Type) : Type :=
| Ok (a : A)
| Throw (e : Error).
Arguments Ok {A} a.
Arguments Throw {A} e.

(** How a statement (a method call, an [emit]) ends. *)
Inductive Outcome : Type :=
| Returned
| Thrown (e : Error).

(** ** Strings and numbers *)

Definition CR : ascii := ascii_of_nat 13.
Definition LF : ascii := ascii_of_nat 10.
Definition CRLF : string := String CR (String LF EmptyString).

(** [s.slice(n)] for a non-negative integer [n]. *)
Fixpoint slice (n : nat) (s : string) : string :=
  match n, s with
  | O, _ => s
  | S n', EmptyString => EmptyString
  | S n', String _ rest => slice n' rest
  end.

(** Truthiness of a string-valued property that may be unset. *)
Definition truthy (o : option string) : bool :=
  match o with
  | Some (String _ _) => true
  | _ => false
  end.

(** [x | 0]: reduction modulo 2^32 into the signed 32-bit range. *)
Definition ToInt32 (x : Z) : Z :=
  let m := (x mod 4294967296)%Z in
  if (2147483648 <=? m)%Z then (m - 4294967296)%Z else m.

(** Decimal rendering of an integer inside a template literal. *)
Definition Number_toString (x : Z) : string :=
  NilZero.string_of_int (Z.to_int x).

(** [TextEncoder.prototype.encode] on the strings covered: a code unit
    below 128 is one byte, one in 128..255 is two. *)
Definition utf8_of_unit (c : ascii) : bytes :=
  let n := N_of_ascii c in
  if (n <? 128)%N then [byte_of_ascii c]
  else [byte_of_ascii (ascii_of_N (192 + n / 64));
        byte_of_ascii (ascii_of_N (128 + n mod 64))].

Fixpoint TextEncoder_encode (s : string) : bytes :=
  match s with
  | EmptyString => []
  | String c rest => utf8_of_unit c ++ TextEncoder_encode rest
  end.

(** ** Items copied from Node.js: [headerCharRegex], [STATUS_CODES] *)

(** A code unit matched by the class [\t\x20-\x7e\x80-\xff]. *)
Definition field_vchar (c : ascii) : bool :=
  let n := nat_of_ascii c in
  ((n =? 9) || ((32 <=? n) && (n <=? 126)) || ((128 <=? n) && (n <=? 255)))%nat.

(** [headerCharRegex.test(val)]: some code unit is outside the class. *)
Fixpoint checkInvalidHeaderChar (val : string) : bool :=
  match val with
  | EmptyString => false
  | String c rest => negb (field_vchar c) || checkInvalidHeaderChar rest
  end.

Definition STATUS_CODES (code : Z) : option string :=
  match code with
  | 100 => Some "Continue"
  | 101 => Some "Switching Protocols"
  | 102 => Some "Processing"
  | 103 => Some "Early Hints"
  | 200 => Some "OK"
  | 201 => Some "Created"
  | 202 => Some "Accepted"
  | 203 => Some "Non-Authoritative Information"
  | 204 => Some "No Content"
  | 205 => Some "Reset Content"
  | 206 => Some "Partial Content"
  | 207 => Some "Multi-Status"
  | 208 => Some "Already Reported"
  | 226 => Some "IM Used"
  | 300 => Some "Multiple Choices"
  | 301 => Some "Moved Permanently"
  | 302 => Some "Found"
  | 303 => Some "See Other"
  | 304 => Some "Not Modified"
  | 305 => Some "Use Proxy"
  | 307 => Some "Temporary Redirect"
  | 308 => Some "Permanent Redirect"
  | 400 => Some "Bad Request"
  | 401 => Some "Unauthorized"
  | 402 => Some "Payment Required"
  | 403 => Some "Forbidden"
  | 404 => Some "Not Found"
  | 405 => Some "Method Not Allowed"
  | 406 => Some "Not Acceptable"
  | 407 => Some "Proxy Authentication Required"
  | 408 => Some "Request Timeout"
  | 409 => Some "Conflict"
  | 410 => Some "Gone"
  | 411 => Some "Length Required"
  | 412 => Some "Precondition Failed"
  | 413 => Some "Payload Too Large"
  | 414 => Some "URI Too Long"
  | 415 => Some "Unsupported Media Type"
  | 416 => Some "Range Not Satisfiable"
  | 417 => Some "Expectation Failed"
  | 418 => Some "I'm a Teapot"
  | 421 => Some "Misdirected Request"
  | 422 => Some "Unprocessable Entity"
  | 423 => Some "Locked"
  | 424 => Some "Failed Dependency"
  | 425 => Some "Too Early"
  | 426 => Some "Upgrade Required"
  | 428 => Some "Precondition Required"
  | 429 => Some "Too Many Requests"
  | 431 => Some "Request Header Fields Too Large"
  | 451 => Some "Unavailable For Legal Reasons"
  | 500 => Some "Internal Server Error"
  | 501 => Some "Not Implemented"
  | 502 => Some "Bad Gateway"
  | 503 => Some "Service Unavailable"
  | 504 => Some "Gateway Timeout"
  | 505 => Some "HTTP Version Not Supported"
  | 506 => Some "Variant Also Negotiates"
  | 507 => Some "Insufficient Storage"
  | 508 => Some "Loop Detected"
  | 509 => Some "Bandwidth Limit Exceeded"
  | 510 => Some "Not Extended"
  | 511 => Some "Network Authentication Required"
  | _ => None
  end%Z.

(** [STATUS_CODES[statusCode] || "unknown"] (every entry is non-empty). *)
Definition defaultStatusMessage (code : Z) : string :=
  match STATUS_CODES code with
  | Some phrase => phrase
  | None => "unknown"
  end.

(** ** The objects *)

(** [DataWrittenEvent]: the index of an entry of the written-data buffer
    and the entry (its completion callback plays no part here). *)
Record WrittenDataBufferEntry : Type := {
  data : JsValue;
  encoding : Encoding
}.

Record DataWrittenEvent : Type := {
  index : nat;
  entry : WrittenDataBufferEntry
}.

(** [HeadersSentEvent]: [{ statusCode, statusMessage, headers }]. *)
Record HeadersSentEvent : Type := {
  e_statusCode : Z;
  e_statusMessage : string;
  e_headers : list (string * string)
}.

(** The second and third argument of [writeHead]: a header object (its
    own keys in [Object.keys] order, string values), a flat array
    [[name, value, ...]], or nothing. *)
Inductive HeadersArg : Type :=
| HUndefined
| HObject (entries : list (string * string))
| HArray (items : list string).

Inductive ReasonArg : Type :=
| ReasonString (reason : string)
| ReasonHeaders (h : HeadersArg).

(** [this[kOutHeaders]]: lower-cased name to [[name, values]], in
    insertion order. *)
Definition OutHeaders := list (string * (string * list string)).

(** What [writeHead] hands to [_storeHeader]. *)
Inductive StoredHeaders : Type :=
| SNull
| SOutHeaders (h : OutHeaders)
| SObject (entries : list (string * string))
| SArray (items : list string).

(** The part of [IncomingMessage] that this file reads or writes. *)
Record IncomingMessage : Type := {
  method : option string;
  url : string;
  httpVersionMajor : option Z;
  httpVersionMinor : option Z;
  httpVersion : option string;
  upgrade : bool;
  incomingHeaders : list (string * string);
  _stream : option bytes
}.

(** A [ReadableStream] built by [_toFetchResponse], seen through its
    controller: the enqueued chunks, whether [close()] was called, the
    [finished] variable its two listeners share, and whether those
    listeners were registered. *)
Record Stream : Type := {
  queue : list JsValue;
  closed : bool;
  s_finished : bool;
  listening : bool
}.

(** A [Response]; its body is [null] or one of the streams, by position
    in [streams]. *)
Record Response : Type := {
  status : Z;
  statusText : string;
  headers : list (string * string);
  body : option nat
}.

Inductive PromiseState : Type :=
| Pending
| Fulfilled (r : Response)
| Rejected (e : Error).

(** The promise [fetchResponse] and what its executor's closures hold:
    [finished], [initialDataChunks], whether [initialDataWrittenHandler]
    is still subscribed, and the streams created so far. *)
Record Bridge : Type := {
  finished : bool;
  initialDataChunks : list JsValue;
  listening_initial : bool;
  fetchResponse : PromiseState;
  streams : list Stream
}.

(** A [FetchServerResponse].  [statusCode] to [kOutHeaders] are declared
    in the class; [sendDate] to [writableEnded] belong to the superclass
    [FetchOutgoingMessage]. *)
Record State : Type := {
  req : IncomingMessage;
  statusCode : Z;
  statusMessage : option string;
  _sent100 : bool;
  _expect_continue : bool;
  kOutHeaders : option OutHeaders;
  sendDate : bool;
  shouldKeepAlive : bool;
  useChunkedEncodingByDefault : bool;
  _hasBody : bool;
  _header : option string;
  _headerSent : bool;
  _headerFields : option HeadersSentEvent;
  writtenHeaderBytes : nat;
  writtenEntries : nat;
  writableEnded : bool;
  bridge : Bridge
}.

(** Field updates. *)

Definition set_finished (v : bool) (b : Bridge) : Bridge :=
  Build_Bridge v (initialDataChunks b) (listening_initial b) (fetchResponse b)
    (streams b).

Definition set_initialDataChunks (v : list JsValue) (b : Bridge) : Bridge :=
  Build_Bridge (finished b) v (listening_initial b) (fetchResponse b)
    (streams b).

Definition set_listening_initial (v : bool) (b : Bridge) : Bridge :=
  Build_Bridge (finished b) (initialDataChunks b) v (fetchResponse b) (streams b).

Definition set_fetchResponse (v : PromiseState) (b : Bridge) : Bridge :=
  Build_Bridge (finished b) (initialDataChunks b) (listening_initial b) v
    (streams b).

Definition set_streams (v : list Stream) (b : Bridge) : Bridge :=
  Build_Bridge (finished b) (initialDataChunks b) (listening_initial b)
    (fetchResponse b) v.

Definition set_statusCode (v : Z) (s : State) : State :=
  Build_State (req s) v (statusMessage s) (_sent100 s) (_expect_continue s)
    (kOutHeaders s) (sendDate s) (shouldKeepAlive s) (useChunkedEncodingByDefault s)
    (_hasBody s) (_header s) (_headerSent s) (_headerFields s) (writtenHeaderBytes s)
    (writtenEntries s) (writableEnded s) (bridge s).

Definition set_statusMessage (v : option string) (s : State) : State :=
  Build_State (req s) (statusCode s) v (_sent100 s) (_expect_continue s)
    (kOutHeaders s) (sendDate s) (shouldKeepAlive s) (useChunkedEncodingByDefault s)
    (_hasBody s) (_header s) (_headerSent s) (_headerFields s) (writtenHeaderBytes s)
    (writtenEntries s) (writableEnded s) (bridge s).

Definition set_sent100 (v : bool) (s : State) : State :=
  Build_State (req s) (statusCode s) (statusMessage s) v (_expect_continue s)
    (kOutHeaders s) (sendDate s) (shouldKeepAlive s) (useChunkedEncodingByDefault s)
    (_hasBody s) (_header s) (_headerSent s) (_headerFields s) (writtenHeaderBytes s)
    (writtenEntries s) (writableEnded s) (bridge s).

Definition set_kOutHeaders (v : option OutHeaders) (s : State) : State :=
  Build_State (req s) (statusCode s) (statusMessage s) (_sent100 s)
    (_expect_continue s) v (sendDate s) (shouldKeepAlive s)
    (useChunkedEncodingByDefault s) (_hasBody s) (_header s) (_headerSent s)
    (_headerFields s) (writtenHeaderBytes s) (writtenEntries s) (writableEnded s)
    (bridge s).

Definition set_shouldKeepAlive (v : bool) (s : State) : State :=
  Build_State (req s) (statusCode s) (statusMessage s) (_sent100 s)
    (_expect_continue s) (kOutHeaders s) (sendDate s) v
    (useChunkedEncodingByDefault s) (_hasBody s) (_header s) (_headerSent s)
    (_headerFields s) (writtenHeaderBytes s) (writtenEntries s) (writableEnded s)
    (bridge s).

Definition set_useChunkedEncodingByDefault (v : bool) (s : State) : State :=
  Build_State (req s) (statusCode s) (statusMessage s) (_sent100 s)
    (_expect_continue s) (kOutHeaders s) (sendDate s) (shouldKeepAlive s) v
    (_hasBody s) (_header s) (_headerSent s) (_headerFields s) (writtenHeaderBytes s)
    (writtenEntries s) (writableEnded s) (bridge s).

Definition set_hasBody (v : bool) (s : State) : State :=
  Build_State (req s) (statusCode s) (statusMessage s) (_sent100 s)
    (_expect_continue s) (kOutHeaders s) (sendDate s) (shouldKeepAlive s)
    (useChunkedEncodingByDefault s) v (_header s) (_headerSent s) (_headerFields s)
    (writtenHeaderBytes s) (writtenEntries s) (writableEnded s) (bridge s).

Definition set_header (v : option string) (s : State) : State :=
  Build_State (req s) (statusCode s) (statusMessage s) (_sent100 s)
    (_expect_continue s) (kOutHeaders s) (sendDate s) (shouldKeepAlive s)
    (useChunkedEncodingByDefault s) (_hasBody s) v (_headerSent s) (_headerFields s)
    (writtenHeaderBytes s) (writtenEntries s) (writableEnded s) (bridge s).

Definition set_headerSent (v : bool) (s : State) : State :=
  Build_State (req s) (statusCode s) (statusMessage s) (_sent100 s)
    (_expect_continue s) (kOutHeaders s) (sendDate s) (shouldKeepAlive s)
    (useChunkedEncodingByDefault s) (_hasBody s) (_header s) v (_headerFields s)
    (writtenHeaderBytes s) (writtenEntries s) (writableEnded s) (bridge s).

Definition set_headerFields (v : option HeadersSentEvent) (s : State) : State :=
  Build_State (req s) (statusCode s) (statusMessage s) (_sent100 s)
    (_expect_continue s) (kOutHeaders s) (sendDate s) (shouldKeepAlive s)
    (useChunkedEncodingByDefault s) (_hasBody s) (_header s) (_headerSent s) v
    (writtenHeaderBytes s) (writtenEntries s) (writableEnded s) (bridge s).

Definition set_writtenHeaderBytes (v : nat) (s : State) : State :=
  Build_State (req s) (statusCode s) (statusMessage s) (_sent100 s)
    (_expect_continue s) (kOutHeaders s) (sendDate s) (shouldKeepAlive s)
    (useChunkedEncodingByDefault s) (_hasBody s) (_header s) (_headerSent s)
    (_headerFields s) v (writtenEntries s) (writableEnded s) (bridge s).

Definition set_writtenEntries (v : nat) (s : State) : State :=
  Build_State (req s) (statusCode s) (statusMessage s) (_sent100 s)
    (_expect_continue s) (kOutHeaders s) (sendDate s) (shouldKeepAlive s)
    (useChunkedEncodingByDefault s) (_hasBody s) (_header s) (_headerSent s)
    (_headerFields s) (writtenHeaderBytes s) v (writableEnded s) (bridge s).

Definition set_writableEnded (v : bool) (s : State) : State :=
  Build_State (req s) (statusCode s) (statusMessage s) (_sent100 s)
    (_expect_continue s) (kOutHeaders s) (sendDate s) (shouldKeepAlive s)
    (useChunkedEncodingByDefault s) (_hasBody s) (_header s) (_headerSent s)
    (_headerFields s) (writtenHeaderBytes s) (writtenEntries s) v (bridge s).

Definition set_bridge (v : Bridge) (s : State) : State :=
  Build_State (req s) (statusCode s) (statusMessage s) (_sent100 s)
    (_expect_continue s) (kOutHeaders s) (sendDate s) (shouldKeepAlive s)
    (useChunkedEncodingByDefault s) (_hasBody s) (_header s) (_headerSent s)
    (_headerFields s) (writtenHeaderBytes s) (writtenEntries s) (writableEnded s) v.

Definition set_req (v : IncomingMessage) (s : State) : State :=
  Build_State v (statusCode s) (statusMessage s) (_sent100 s) (_expect_continue s)
    (kOutHeaders s) (sendDate s) (shouldKeepAlive s) (useChunkedEncodingByDefault s)
    (_hasBody s) (_header s) (_headerSent s) (_headerFields s) (writtenHeaderBytes s)
    (writtenEntries s) (writableEnded s) (bridge s).

Definition set_expect_continue (v : bool) (s : State) : State :=
  Build_State (req s) (statusCode s) (statusMessage s) (_sent100 s) v (kOutHeaders s)
    (sendDate s) (shouldKeepAlive s) (useChunkedEncodingByDefault s) (_hasBody s)
    (_header s) (_headerSent s) (_headerFields s) (writtenHeaderBytes s)
    (writtenEntries s) (writableEnded s) (bridge s).

Definition set_sendDate (v : bool) (s : State) : State :=
  Build_State (req s) (statusCode s) (statusMessage s) (_sent100 s)
    (_expect_continue s) (kOutHeaders s) v (shouldKeepAlive s)
    (useChunkedEncodingByDefault s) (_hasBody s) (_header s) (_headerSent s)
    (_headerFields s) (writtenHeaderBytes s) (writtenEntries s) (writableEnded s)
    (bridge s).

Definition upd_bridge (f : Bridge -> Bridge) (s : State) : State :=
  set_bridge (f (bridge s)) s.

(** ** The host runtime

    The platform functions the file calls and whose results it does not
    control.  [Buffer_from d enc] is [Buffer.from(d, enc)] for a string
    ([None]: the call throws, as for an unknown encoding);
    [Headers_append_ok] and [Response_init_ok] say whether
    [headers.append(name, value)] and [new Response(body, init)] accept
    their arguments (they throw a TypeError or RangeError otherwise);
    [chunkExpression_test] is [chunkExpression.exec(s) !== null] for the
    regular expression imported from [./http-common.js]. *)
Record Host : Type := {
  Buffer_from : string -> option string -> option bytes;
  Headers_append_ok : string -> string -> bool;
  Response_init_ok : bool -> Z -> string -> bool;
  chunkExpression_test : string -> bool
}.

(** Statements: state transformers that may throw. *)
Definition Action := State -> Outcome * State.

Definition ret : Action := fun s => (Returned, s).

Definition throw (e : Error) : Action := fun s => (Thrown e, s).

Definition seq (a b : Action) : Action :=
  fun s =>
    match a s with
    | (Returned, s1) => b s1
    | (Thrown e, s1) => (Thrown e, s1)
    end.

Notation "a ;; b" := (seq a b) (at level 61, right associativity).

(** [a[i] = v] on a JavaScript array: past the end the array grows and
    the skipped positions are holes, which read as [undefined]. *)
Fixpoint array_set (a : list JsValue) (i : nat) (v : JsValue) : list JsValue :=
  match i, a with
  | O, [] => [v]
  | O, _ :: rest => v :: rest
  | S i', [] => VUndefined :: array_set [] i' v
  | S i', x :: rest => x :: array_set rest i' v
  end.

(** Resolving a promise settles it at most once. *)
Definition resolve (r : Response) (p : PromiseState) : PromiseState :=
  match p with
  | Pending => Fulfilled r
  | settled => settled
  end.

(** Calls the listeners of one event that belong to the streams, in the
    order the streams were created; a throwing listener ends the [emit]. *)
Fixpoint each_stream (f : Stream -> Outcome * Stream) (l : list Stream)
  : Outcome * list Stream :=
  match l with
  | [] => (Returned, [])
  | st :: rest =>
      match f st with
      | (Thrown e, st') => (Thrown e, st' :: rest)
      | (Returned, st') =>
          let (o, rest') := each_stream f rest in (o, st' :: rest')
      end
  end.

Definition is_utf8 (name : string) : bool :=
  String.eqb name "utf8" || String.eqb name "utf-8".

Section Adapter.

Variable host : Host.

(** ** [FetchServerResponse]: the response bridge *)

(** [dataFromDataWrittenEvent(e)] (lines 198-228). *)
Definition dataFromDataWrittenEvent (e : DataWrittenEvent) (s : State)
  : Result JsValue :=
  let sliced :=
    if (index e =? 0)%nat then
      match data (entry e) with
      | VString d => Ok (VString (slice (writtenHeaderBytes s) d))
      | other => Throw (ERR_INVALID_ARG_TYPE "packet.data" other)
      end
    else Ok (data (entry e)) in
  match sliced with
  | Throw err => Throw err
  | Ok (VString d) =>
      match encoding (entry e) with
      | EncUndefined => Ok (VBytes (TextEncoder_encode d))
      | EncName name =>
          if is_utf8 name then Ok (VBytes (TextEncoder_encode d))
          else match Buffer_from host d (Some name) with
               | Some b => Ok (VBytes b)
               | None => Throw (HostError "Buffer.from")
               end
      | EncNull =>
          match Buffer_from host d None with
          | Some b => Ok (VBytes b)
          | None => Throw (HostError "Buffer.from")
          end
      end
  | Ok VUndefined | Ok VNull => Ok (VBytes [])
  | Ok other => Ok other
  end.

(** The constructor's listener on ["finish"] (lines 170-172). *)
Definition finishHandler : Action :=
  fun s => (Returned, upd_bridge (set_finished true) s).

(** [initialDataWrittenHandler] (lines 174-179). *)
Definition initialDataWrittenHandler (e : DataWrittenEvent) : Action :=
  fun s =>
    if finished (bridge s) then (Returned, s)
    else
      match dataFromDataWrittenEvent e s with
      | Throw err => (Thrown err, s)
      | Ok chunk =>
          (Returned,
           upd_bridge
             (fun b =>
                set_initialDataChunks
                  (array_set (initialDataChunks b) (index e) chunk) b) s)
      end.

(** The stream [start(controller)] builds (lines 422-442): every initial
    chunk is enqueued; then the stream is closed, or the two listeners
    are registered. *)
Definition new_stream (initial : list JsValue) (finished : bool) : Stream :=
  if finished then
    {| queue := initial; closed := true; s_finished := true; listening := false |}
  else
    {| queue := initial; closed := false; s_finished := false; listening := true |}.

(** [_toFetchResponse] (lines 407-451). *)
Definition _toFetchResponse (status : Z) (statusText : string)
    (sentHeaders : list (string * string))
    (initialDataChunks : list JsValue) (finished : bool) (s : State)
  : Result Response * State :=
  if negb (forallb (fun hv => Headers_append_ok host (fst hv) (snd hv)) sentHeaders)
  then (Throw (HostError "Headers.append"), s)
  else
    let '(body, s1) :=
      if _hasBody s then
        (Some (List.length (streams (bridge s))),
         upd_bridge
           (fun b => set_streams (streams b ++ [new_stream initialDataChunks finished]) b)
           s)
      else (None, s) in
    if Response_init_ok host (match body with Some _ => true | None => false end)
         status statusText
    then (Ok {| status := status; statusText := statusText;
                headers := sentHeaders; body := body |}, s1)
    else (Throw (HostError "Response"), s1).

(** The constructor's listener on ["_headersSent"] (lines 181-194). *)
Definition headersSentHandler (e : HeadersSentEvent) : Action :=
  fun s =>
    let s1 := upd_bridge (set_listening_initial false) s in
    match _toFetchResponse (e_statusCode e) (e_statusMessage e) (e_headers e)
            (initialDataChunks (bridge s1)) (finished (bridge s1)) s1 with
    | (Throw err, s2) => (Thrown err, s2)
    | (Ok r, s2) =>
        (Returned,
         upd_bridge (fun b => set_fetchResponse (resolve r (fetchResponse b)) b) s2)
    end.

(** A stream's listener on ["finish"] (lines 430-433); [controller.close()]
    throws on a stream that is closed already. *)
Definition streamFinishHandler (st : Stream) : Outcome * Stream :=
  if listening st then
    if closed st then
      (Thrown (HostError "ReadableStreamDefaultController.close"),
       {| queue := queue st; closed := true; s_finished := true; listening := true |})
    else
      (Returned,
       {| queue := queue st; closed := true; s_finished := true; listening := true |})
  else (Returned, st).

(** A stream's listener on ["_dataWritten"] (lines 434-440). *)
Definition streamDataWrittenHandler (e : DataWrittenEvent) (s : State) (st : Stream)
  : Outcome * Stream :=
  if listening st then
    if s_finished st then (Returned, st)
    else
      match dataFromDataWrittenEvent e s with
      | Throw err => (Thrown err, st)
      | Ok chunk =>
          if closed st then
            (Thrown (HostError "ReadableStreamDefaultController.enqueue"), st)
          else
            (Returned,
             {| queue := queue st ++ [chunk]; closed := false;
                s_finished := false; listening := true |})
      end
  else (Returned, st).

(** The three events of the emitter.  [emit] calls the listeners of an
    event synchronously, in the order of their registration; what a
    listener throws leaves [emit]. *)
Inductive Event : Type :=
| Finish
| DataWritten (e : DataWrittenEvent)
| HeadersSent (e : HeadersSentEvent).

Definition on_streams (f : Stream -> Outcome * Stream) : Action :=
  fun s =>
    let (o, sts) := each_stream f (streams (bridge s)) in
    (o, upd_bridge (set_streams sts) s).

Definition emit (ev : Event) : Action :=
  match ev with
  | Finish => finishHandler ;; on_streams streamFinishHandler
  | DataWritten e =>
      (fun s =>
         if listening_initial (bridge s) then initialDataWrittenHandler e s
         else (Returned, s)) ;;
      (fun s => on_streams (streamDataWrittenHandler e s) s)
  | HeadersSent e => headersSentHandler e
  end.

(** ** [FetchOutgoingMessage]: the superclass

    [./http-outgoing.js] is not among the sources.  What the class under
    study inherits from it is modelled from the specification: the header
    store (section 3, OutgoingHeaders), the header-state machine (4.1),
    the write buffer (4.2) and the header codec (4.4). *)

(** [toLowerCase] on the letters a header name may hold. *)
Definition lower_unit (c : ascii) : ascii :=
  let n := nat_of_ascii c in
  if ((65 <=? n) && (n <=? 90))%nat then ascii_of_nat (n + 32) else c.

Fixpoint toLowerCase (s : string) : string :=
  match s with
  | EmptyString => EmptyString
  | String c rest => String (lower_unit c) (toLowerCase rest)
  end.

(** Modelled from the spec: the header store of the missing superclass
    (section 3, OutgoingHeaders), "an ordered mapping from header name
    (case-insensitive identity, case-preserving display) to one or more
    values".  [out_remove], [out_set] and [out_append] act on the entry
    of a lower-cased name and keep the order of the others. *)
Definition out_remove (key : string) (h : OutHeaders) : OutHeaders :=
  filter (fun kv => negb (String.eqb (fst kv) key)) h.

(** Modelled from the spec: "set (replace)" on the header store. *)
Fixpoint out_set (key name : string) (values : list string) (h : OutHeaders)
  : OutHeaders :=
  match h with
  | [] => [(key, (name, values))]
  | (k, nv) :: rest =>
      if String.eqb k key then (k, (name, values)) :: rest
      else (k, nv) :: out_set key name values rest
  end.

(** Modelled from the spec: "append (add without removing)" on the
    header store. *)
Fixpoint out_append (key name value : string) (h : OutHeaders) : OutHeaders :=
  match h with
  | [] => [(key, (name, [value]))]
  | (k, (n, vs)) :: rest =>
      if String.eqb k key then (k, (n, vs ++ [value])) :: rest
      else (k, (n, vs)) :: out_append key name value rest
  end.

(** The header store of a message, empty while [kOutHeaders] is null. *)
Definition out_headers (s : State) : OutHeaders :=
  match kOutHeaders s with
  | Some h => h
  | None => []
  end.

(** Modelled from the spec: [setHeader] of the missing superclass.
    "Set/append/remove header operations, valid only while headers are
    mutable"; "set (replace)"; a name or value with a forbidden character
    fails validation; the name has case-insensitive identity. *)
Definition setHeader (name value : string) : Action :=
  fun s =>
    if truthy (_header s) then (Thrown (ERR_HTTP_HEADERS_SENT "set"), s)
    else if checkInvalidHeaderChar name then (Thrown (ERR_INVALID_CHAR "header name"), s)
    else if checkInvalidHeaderChar value then (Thrown (ERR_INVALID_CHAR "header content"), s)
    else (Returned,
          set_kOutHeaders
            (Some (out_set (toLowerCase name) name [value] (out_headers s))) s).

(** Modelled from the spec: [appendHeader] of the missing superclass,
    "append (add without removing)". *)
Definition appendHeader (name value : string) : Action :=
  fun s =>
    if truthy (_header s) then (Thrown (ERR_HTTP_HEADERS_SENT "append"), s)
    else if checkInvalidHeaderChar name then (Thrown (ERR_INVALID_CHAR "header name"), s)
    else if checkInvalidHeaderChar value then (Thrown (ERR_INVALID_CHAR "header content"), s)
    else (Returned,
          set_kOutHeaders
            (Some (out_append (toLowerCase name) name value (out_headers s))) s).

(** Modelled from the spec: [removeHeader] of the missing superclass. *)
Definition removeHeader (name : string) : Action :=
  fun s =>
    if truthy (_header s) then (Thrown (ERR_HTTP_HEADERS_SENT "remove"), s)
    else
      match kOutHeaders s with
      | Some h => (Returned, set_kOutHeaders (Some (out_remove (toLowerCase name) h)) s)
      | None => (Returned, s)
      end.

(** Modelled from the spec: the "ordered list of (name, value) pairs as
    they will appear in the wire header block" (section 3), read off a
    flat array; one of odd length has no such reading. *)
Fixpoint pairs_of_array (items : list string) : option (list (string * string)) :=
  match items with
  | [] => Some []
  | [_] => None
  | k :: v :: rest =>
      match pairs_of_array rest with
      | Some ps => Some ((k, v) :: ps)
      | None => None
      end
  end.

(** Modelled from the spec: the same list, read off whatever [writeHead]
    passes to [_storeHeader]. *)
Definition pairs_of_headers (h : StoredHeaders) : option (list (string * string)) :=
  match h with
  | SNull => Some []
  | SOutHeaders o =>
      Some (flat_map (fun kv => map (fun v => (fst (snd kv), v)) (snd (snd kv))) o)
  | SObject entries => Some entries
  | SArray items => pairs_of_array items
  end.

(** Modelled from the spec: the header codec (4.4), "render a header
    block from an ordered pair list". *)
Definition render_headers (ps : list (string * string)) : string :=
  String.concat ""
    (map (fun kv => (fst kv ++ ": " ++ snd kv ++ CRLF)%string) ps).

(** Modelled from the spec: [_storeHeader] of the missing superclass.
    OPEN to SENT (4.1): the status line and the header block are
    computed and become immutable; header values are validated against
    the forbidden-character set; the snapshot of status, reason and pairs
    for the header-sent event (section 3, HeaderSentEvent) is taken. *)
Definition _storeHeader (firstLine : string) (h : StoredHeaders) : Action :=
  fun s =>
    match pairs_of_headers h with
    | None => (Thrown (ERR_INVALID_ARG_VALUE "headers"), s)
    | Some ps =>
        if existsb (fun kv => checkInvalidHeaderChar (snd kv)) ps
        then (Thrown (ERR_INVALID_CHAR "header content"), s)
        else
          (Returned,
           set_headerFields
             (Some {| e_statusCode := statusCode s;
                      e_statusMessage :=
                        match statusMessage s with Some m => m | None => "" end;
                      e_headers := ps |})
             (set_header (Some (firstLine ++ render_headers ps ++ CRLF)%string) s))
    end.

(** Modelled from the spec: [_writeRaw] of the missing superclass (the
    method [writeContinue] calls).  4.2: each completed write gets the
    next index, starting at 0, and "emits a data written event carrying
    the chunk's index"; the event is delivered synchronously (section 5). *)
Definition _writeRaw (chunk : JsValue) (enc : Encoding) : Action :=
  fun s =>
    emit (DataWritten {| index := writtenEntries s;
                         entry := {| data := chunk; encoding := enc |} |})
      (set_writtenEntries (S (writtenEntries s)) s).

(** Modelled from the spec: the first transfer of a message with a
    stored header block.  The header-sent event is emitted once, when the
    block goes out (section 2: "computes the header block lazily on first
    write/first explicit flush, and emits a single immutable event");
    the block is "prepended as part of materializing index 0's bytes"
    (section 3) and its length is recorded in [writtenHeaderBytes] (4.2).
    Index 0 is text ("First chunk should be string", line 204): in front
    of a binary payload the block is a chunk of its own. *)
Definition _send (chunk : JsValue) (enc : Encoding) : Action :=
  fun s =>
    if _headerSent s then _writeRaw chunk enc s
    else
      let header := match _header s with Some h => h | None => "" end in
      let s1 := set_writtenHeaderBytes (String.length header) (set_headerSent true s) in
      ((match _headerFields s with
        | Some ev => emit (HeadersSent ev)
        | None => ret
        end) ;;
       (match chunk with
        | VString d => _writeRaw (VString (header ++ d)%string) enc
        | other => _writeRaw (VString header) EncUndefined ;; _writeRaw other enc
        end)) s1.

(** ** [FetchServerResponse]: headers *)

(** The first loop of the array case of [writeHead] (lines 333-343). *)
Fixpoint removeHeader_each (items : list string) : Action :=
  match items with
  | k :: _ :: rest => removeHeader k ;; removeHeader_each rest
  | _ => ret
  end.

(** The second loop: a pair with an empty name is skipped. *)
Fixpoint appendHeader_each (items : list string) : Action :=
  match items with
  | k :: v :: rest =>
      (match k with
       | EmptyString => ret
       | _ => appendHeader k v
       end) ;; appendHeader_each rest
  | _ => ret
  end.

(** The loop of the object case (lines 345-353). *)
Fixpoint setHeader_each (entries : list (string * string)) : Action :=
  match entries with
  | [] => ret
  | (k, v) :: rest =>
      (match k with
       | EmptyString => ret
       | _ => setHeader k v
       end) ;; setHeader_each rest
  end.

(** The status codes for which [writeHead] clears [_hasBody]
    (lines 368-372). *)
Definition noBodyStatus (statusCode : Z) : bool :=
  ((statusCode =? 204) || (statusCode =? 304)
   || ((100 <=? statusCode) && (statusCode <=? 199)))%Z.

(** The slow case of [writeHead] (lines 321-356): with header fields set
    through the progressive API, the fields passed are merged into them. *)
Definition mergeHeaders (obj : HeadersArg) : Action :=
  match obj with
  | HArray items =>
      if Nat.even (List.length items)
      then removeHeader_each items ;; appendHeader_each items
      else throw (ERR_INVALID_ARG_VALUE "headers")
  | HObject entries => setHeader_each entries
  | HUndefined => ret
  end.

(** The template literal of line 366. *)
Definition status_line (statusCode : Z) (message : string) : string :=
  ("HTTP/1.1 " ++ Number_toString statusCode ++ " " ++ message ++ CRLF)%string.

(** [writeHead(statusCode, reason, obj)] (lines 294-400). *)
Definition writeHead (statusCode0 : Z) (reason : ReasonArg) (obj0 : HeadersArg)
  : Action :=
  fun s =>
    if truthy (_header s) then (Thrown (ERR_HTTP_HEADERS_SENT "write"), s)
    else
      let originalStatusCode := statusCode0 in
      let statusCode := ToInt32 statusCode0 in
      if ((statusCode <? 100) || (statusCode >? 999))%Z
      then (Thrown (ERR_HTTP_INVALID_STATUS_CODE originalStatusCode), s)
      else
        let '(s1, obj) :=
          match reason with
          | ReasonString r => (set_statusMessage (Some r) s, obj0)
          | ReasonHeaders h =>
              (if truthy (statusMessage s) then s
               else set_statusMessage (Some (defaultStatusMessage statusCode)) s,
               match obj0 with
               | HUndefined => h
               | _ => obj0
               end)
          end in
        let s2 := set_statusCode statusCode s1 in
        let progressive :=
          match kOutHeaders s2 with Some _ => true | None => false end in
        ((if progressive then mergeHeaders obj else ret) ;;
         (fun s3 =>
            let headers :=
              if progressive then
                match kOutHeaders s3 with
                | Some o => SOutHeaders o
                | None => SNull
                end
              else
                match obj with
                | HUndefined => SNull
                | HObject entries => SObject entries
                | HArray items => SArray items
                end in
            let message := match statusMessage s3 with Some m => m | None => "" end in
            if checkInvalidHeaderChar message
            then (Thrown (ERR_INVALID_CHAR "statusMessage"), s3)
            else
              let statusLine := status_line statusCode message in
              let s4 := if noBodyStatus statusCode then set_hasBody false s3 else s3 in
              let s5 :=
                if _expect_continue s4 && negb (_sent100 s4)
                then set_shouldKeepAlive false s4 else s4 in
              _storeHeader statusLine headers s5)) s2.

(** [_implicitHeader()] (lines 290-292). *)
Definition _implicitHeader : Action :=
  fun s => writeHead (statusCode s) (ReasonHeaders HUndefined) HUndefined s.

(** [writeContinue] (lines 248-251). *)
Definition writeContinue : Action :=
  _writeRaw (VString ("HTTP/1.1 100 Continue" ++ CRLF ++ CRLF)%string) (EncName "ascii") ;;
  (fun s => (Returned, set_sent100 true s)).

(** [writeProcessing] (lines 253-255). *)
Definition writeProcessing : Action :=
  _writeRaw (VString ("HTTP/1.1 102 Processing" ++ CRLF ++ CRLF)%string) (EncName "ascii").

(** ** [FetchOutgoingMessage]: body writes *)

(** Modelled from the spec: [write] of the missing superclass.  A
    payload that "is neither text nor recognized binary" fails with
    InvalidArgumentType at the call (section 7); the first body write of a
    message in state OPEN sends the headers implicitly (4.1); a write to a
    message whose status expects no body is discarded (4.3). *)
Definition write (chunk : JsValue) (enc : Encoding) : Action :=
  match chunk with
  | VString _ | VBytes _ =>
      (fun s => if truthy (_header s) then (Returned, s) else _implicitHeader s) ;;
      (fun s => if _hasBody s then _send chunk enc s else (Returned, s))
  | other => throw (ERR_INVALID_ARG_TYPE "chunk" other)
  end.

(** Modelled from the spec: [end] of the missing superclass ([end] is a
    keyword here, hence the name), the explicit end-of-output call.  Headers not sent yet go out now (section
    8: finishing with no body writes yields a resolved response); SENT to
    FINISHED, and the finish signal fires once. *)
Definition end_ : Action :=
  fun s =>
    if writableEnded s then (Returned, s)
    else
      ((fun s => if truthy (_header s) then (Returned, s) else _implicitHeader s) ;;
       (fun s => if _headerSent s then (Returned, s)
                 else _send (VString "") EncUndefined s) ;;
       (fun s => emit Finish (set_writableEnded true s))) s.

(** Modelled from the spec: the bytes a body write contributes (4.2).
    Text is converted "to bytes using the stated encoding", UTF-8 by
    default; binary passes "through unchanged". *)
Definition payload_bytes (chunk : JsValue) (enc : Encoding) : option bytes :=
  match chunk with
  | VBytes b => Some b
  | VString d =>
      match enc with
      | EncUndefined => Some (TextEncoder_encode d)
      | EncName name =>
          if is_utf8 name then Some (TextEncoder_encode d)
          else Buffer_from host d (Some name)
      | EncNull => Buffer_from host d None
      end
  | _ => None
  end.

(** ** Construction and entry points *)

(** [x < 1] for a number that may be [undefined]. *)
Definition lt1 (x : option Z) : bool :=
  match x with
  | Some z => (z <? 1)%Z
  | None => false
  end.

(** [String(req.headers.te)] *)
Definition te_string (r : IncomingMessage) : string :=
  match find (fun kv => String.eqb (fst kv) "te") (incomingHeaders r) with
  | Some kv => snd kv
  | None => "undefined"
  end.

(** [req.method === m] *)
Definition method_is (r : IncomingMessage) (m : string) : bool :=
  match method r with
  | Some m' => String.eqb m' m
  | None => false
  end.

(** Modelled from the spec: the constructor of the missing superclass,
    followed by the field initialisers of [FetchServerResponse]
    (lines 138-144).  A new message is OPEN, has written nothing and
    expects a body; no listener is registered yet. *)
Definition FetchOutgoingMessage_new (r : IncomingMessage) : State :=
  {| req := r;
     statusCode := 200;
     statusMessage := None;
     _sent100 := false;
     _expect_continue := false;
     kOutHeaders := None;
     sendDate := false;
     shouldKeepAlive := true;
     useChunkedEncodingByDefault := true;
     _hasBody := true;
     _header := None;
     _headerSent := false;
     _headerFields := None;
     writtenHeaderBytes := 0;
     writtenEntries := 0;
     writableEnded := false;
     bridge := {| finished := false; initialDataChunks := [];
                  listening_initial := false; fetchResponse := Pending;
                  streams := [] |} |}.

(** What the executor of the promise sets up (lines 168-195): nothing
    finished, no chunk buffered, [initialDataWrittenHandler] subscribed,
    the promise pending, no stream yet. *)
Definition initial_bridge : Bridge :=
  {| finished := false; initialDataChunks := []; listening_initial := true;
     fetchResponse := Pending; streams := [] |}.

(** [new FetchServerResponse(req)] (lines 146-196). *)
Definition FetchServerResponse_new (r : IncomingMessage) : State :=
  let s := FetchOutgoingMessage_new r in
  let s := if method_is r "HEAD" then set_hasBody false s else s in
  let s := set_expect_continue false (set_sent100 false (set_sendDate true s)) in
  let s :=
    if lt1 (httpVersionMajor r) || lt1 (httpVersionMinor r)
    then set_shouldKeepAlive false
           (set_useChunkedEncodingByDefault (chunkExpression_test host (te_string r)) s)
    else s in
  set_bridge initial_bridge s.

(** A Fetch [Request], with [new URL(req.url)] already taken apart. *)
Record Request : Type := {
  request_method : string;
  request_pathname : string;
  request_search : string;
  request_headers : list (string * string);
  request_body : option bytes
}.

(** [toReqRes(req, options)] (lines 468-504), with the default
    [createServerResponse].  [incoming] is what
    [createIncomingMessage(ctx)] returned; the response is built from it
    before any of its fields is assigned, and keeps a reference to it.
    [_addHeaderLines] is a method of the missing [FetchIncomingMessage]
    and is taken to expose the header pairs. *)
Definition toReqRes (rq : Request) (incoming : IncomingMessage)
  : IncomingMessage * State :=
  let serverResponse := FetchServerResponse_new incoming in
  let incoming' :=
    {| method := Some (request_method rq);
       url := (request_pathname rq ++ request_search rq)%string;
       httpVersionMajor := Some 1%Z;
       httpVersionMinor := Some 1%Z;
       httpVersion := Some "1.1";
       upgrade := false;
       incomingHeaders := incomingHeaders incoming ++ request_headers rq;
       _stream := request_body rq |} in
  (incoming', set_req incoming' serverResponse).

(** [toFetchResponse(res)] on a [FetchServerResponse] (lines 506-514). *)
Definition toFetchResponse (res : State) : PromiseState :=
  fetchResponse (bridge res).

(** ** Call sequences *)

Inductive Call : Type :=
| CallSetHeader (name value : string)
| CallAppendHeader (name value : string)
| CallRemoveHeader (name : string)
| CallWriteHead (statusCode : Z) (reason : ReasonArg) (obj : HeadersArg)
| CallWriteContinue
| CallWriteProcessing
| CallWrite (chunk : JsValue) (enc : Encoding)
| CallEnd.

Definition call (c : Call) : Action :=
  match c with
  | CallSetHeader name value => setHeader name value
  | CallAppendHeader name value => appendHeader name value
  | CallRemoveHeader name => removeHeader name
  | CallWriteHead statusCode reason obj => writeHead statusCode reason obj
  | CallWriteContinue => writeContinue
  | CallWriteProcessing => writeProcessing
  | CallWrite chunk enc => write chunk enc
  | CallEnd => end_
  end.

(** The calls of a program, one after the other; a call that throws is
    taken to be caught by the caller, who goes on. *)
Fixpoint run (cs : list Call) (s : State) : State :=
  match cs with
  | [] => s
  | c :: rest => run rest (snd (call c s))
  end.

(** Strictly increasing indices, none below [lo]. *)
Fixpoint increasing_from (lo : nat) (l : list nat) : Prop :=
  match l with
  | [] => True
  | i :: rest => lo <= i /\ increasing_from (S i) rest
  end.

(** The events the emitter delivers, one after the other. *)
Fixpoint deliver (evs : list Event) (s : State) : State :=
  match evs with
  | [] => s
  | ev :: rest => deliver rest (snd (emit ev s))
  end.

(** ** Vocabulary of the properties *)

(** Node's [headersSent]: the header block has been stored. *)
Definition headersSent (s : State) : bool := truthy (_header s).

(** The calls that change the status or the headers. *)
Definition header_mutating (c : Call) : bool :=
  match c with
  | CallSetHeader _ _ | CallAppendHeader _ _ | CallRemoveHeader _
  | CallWriteHead _ _ _ => true
  | _ => false
  end.

(** The header store is all that has changed from [s] to [s']. *)
Definition headers_only (s s' : State) : Prop :=
  s' = set_kOutHeaders (kOutHeaders s') s.

(** The bridge is all that has changed from [s] to [s']. *)
Definition bridge_only (s s' : State) : Prop :=
  s' = set_bridge (bridge s') s.

(** The fields of the message that guard the calls are the same. *)
Definition guards_kept (s s' : State) : Prop :=
  _header s' = _header s /\ _headerSent s' = _headerSent s
  /\ _hasBody s' = _hasBody s /\ writableEnded s' = writableEnded s.

(** An element of an array that is not a hole. *)
Definition defined (v : JsValue) : bool :=
  match v with
  | VUndefined => false
  | _ => true
  end.

(** The closure variables of the bridge are out of reach of everything
    but the listeners: a state is reachable when it comes from the
    constructor by events and by changes of the message's own fields. *)
Inductive reachable : State -> Prop :=
| reach_new r : reachable (FetchServerResponse_new r)
| reach_emit s ev : reachable s -> reachable (snd (emit ev s))
| reach_fields s s' : reachable s -> bridge s' = bridge s -> reachable s'.

(** ... and the finish signal has fired on the way. *)
Inductive after_finish : State -> Prop :=
| af_finish s : reachable s -> after_finish (snd (emit Finish s))
| af_emit s ev : after_finish s -> after_finish (snd (emit ev s))
| af_fields s s' : after_finish s -> bridge s' = bridge s -> after_finish s'.

(** A stream that listens is closed only after the finish signal, and
    has seen every finish signal. *)
Definition stream_ok (fin : bool) (st : Stream) : Prop :=
  listening st = true ->
  (closed st = true -> fin = true) /\ (fin = true -> s_finished st = true).

Definition bridge_ok (b : Bridge) : Prop :=
  Forall (stream_ok (finished b)) (streams b).

(** The promise is null-bodied: pending, or settled with a response
    whose body is null. *)
Definition null_bodied (p : PromiseState) : Prop :=
  match p with
  | Fulfilled r => body r = None
  | _ => True
  end.

(** A message that expects no body and has exposed none. *)
Definition bodiless (s : State) : Prop :=
  _hasBody s = false /\ null_bodied (fetchResponse (bridge s)).

(** The headers go out only once stored, and the promise stays pending
    until they go out. *)
Definition pending_until_sent (s : State) : Prop :=
  (_headerSent s = true -> headersSent s = true)
  /\ (_headerSent s = false -> fetchResponse (bridge s) = Pending).

Definition not_rejected (p : PromiseState) : Prop :=
  match p with
  | Rejected _ => False
  | _ => True
  end.

(** The response the header-sent event [ev] is turned into. *)
Definition response_of (ev : HeadersSentEvent) (body : option nat) : Response :=
  {| status := e_statusCode ev; statusText := e_statusMessage ev;
     headers := e_headers ev; body := body |}.

(** The host takes the headers of [ev] and builds the response. *)
Definition accepted (ev : HeadersSentEvent) (hasBody : bool) : Prop :=
  forallb (fun hv => Headers_append_ok host (fst hv) (snd hv)) (e_headers ev) = true
  /\ Response_init_ok host hasBody (e_statusCode ev) (e_statusMessage ev) = true.

(** A message whose header block is stored and not sent, with nothing
    written and the bridge as the constructor left it. *)
Definition stored (s : State) (h : string) (ev : HeadersSentEvent) : Prop :=
  _header s = Some h /\ _headerSent s = false /\ _headerFields s = Some ev
  /\ _hasBody s = true /\ writtenEntries s = 0 /\ bridge s = initial_bridge.

(** What the first transfer makes of such a message, the body holding
    [q] after [n] entries. *)
Definition sent (s : State) (h : string) (ev : HeadersSentEvent)
    (q : list JsValue) (n : nat) (s' : State) : Prop :=
  s' = set_bridge
         (Build_Bridge false [] false (Fulfilled (response_of ev (Some 0)))
            [Build_Stream q false false true])
         (set_writtenEntries n
            (set_writtenHeaderBytes (String.length h) (set_headerSent true s))).

(** The header block a first write synthesizes, and the event that goes
    with it. *)
Definition implicit_header : string := (status_line 200 "OK" ++ CRLF)%string.

Definition implicit_event : HeadersSentEvent :=
  {| e_statusCode := 200; e_statusMessage := "OK"; e_headers := [] |}.

End Adapter.


(** ** Objects for the examples *)

(** What [new FetchIncomingMessage()] holds before [toReqRes] assigns
    its fields. *)
Definition blank_incoming : IncomingMessage :=
  {| method := None; url := ""; httpVersionMajor := None;
     httpVersionMinor := None; httpVersion := None; upgrade := false;
     incomingHeaders := []; _stream := None |}.

Definition latin1_bytes (s : string) : bytes :=
  map byte_of_ascii (list_ascii_of_string s).

(** The statuses for which the Fetch standard allows no body. *)
Definition null_body_status (st : Z) : bool :=
  ((st =? 101) || (st =? 103) || (st =? 204) || (st =? 205) || (st =? 304))%Z.

(** A host in the manner of the Fetch standard: [Buffer.from] knows
    UTF-8 and the one-byte encodings, a header needs a name, a response
    a status in 200..599 and no body with a null-body status. *)
Definition example_host : Host :=
  {| Buffer_from := fun d enc =>
       match enc with
       | None => Some (TextEncoder_encode d)
       | Some name =>
           if String.eqb name "latin1" || String.eqb name "binary"
              || String.eqb name "ascii"
           then Some (latin1_bytes d) else None
       end;
     Headers_append_ok := fun name value =>
       negb (String.eqb name "") && negb (checkInvalidHeaderChar value);
     Response_init_ok := fun hasBody st _ =>
       ((200 <=? st) && (st <=? 599))%Z && negb (hasBody && null_body_status st);
     chunkExpression_test := fun te => String.eqb (toLowerCase te) "chunked" |}.

Definition example_response : State :=
  FetchServerResponse_new example_host blank_incoming.

Definition text_event (i : nat) (d : string) : DataWrittenEvent :=
  {| index := i; entry := {| data := VString d; encoding := EncUndefined |} |}.

Definition ok_event : HeadersSentEvent :=
  {| e_statusCode := 200; e_statusMessage := "OK"; e_headers := [] |}.

(** [example_response] after [writeHead(200)]. *)
Definition example_sent : State :=
  snd (writeHead 200 (ReasonHeaders HUndefined) HUndefined example_response).

(** [example_response] after the finish signal. *)
Definition example_finished : State :=
  snd (emit example_host Finish example_response).

(** A HEAD request as the host hands it to [toReqRes]. *)
Definition head_request : Request :=
  {| request_method := "HEAD"; request_pathname := "/"; request_search := "";
     request_headers := []; request_body := None |}.

(** An incoming message whose method is HEAD when the response is built. *)
Definition head_incoming : IncomingMessage :=
  {| method := Some "HEAD"; url := "/"; httpVersionMajor := Some 1%Z;
     httpVersionMinor := Some 1%Z; httpVersion := Some "1.1"; upgrade := false;
     incomingHeaders := []; _stream := None |}.

(** ** Early hints *)

(** A value of the [hints] object of [writeEarlyHints].  The TypeScript
    type is [string | string[]]; [null] and [undefined] are what the
    method tests [hints.link] for. *)
Inductive HintValue : Type :=
| HintUndefined
| HintNull
| HintString (s : string)
| HintArray (items : list string).

(** A hint value inside a string concatenation: an array is joined with
    commas. *)
Definition String_of_hint (v : HintValue) : string :=
  match v with
  | HintUndefined => "undefined"
  | HintNull => "null"
  | HintString s => s
  | HintArray items => String.concat "," items
  end.

(** [hints[key]] on the own properties of the object, given in
    [Object.keys] order. *)
Definition hint (key : string) (hints : list (string * HintValue)) : HintValue :=
  match find (fun kv => String.eqb (fst kv) key) hints with
  | Some kv => snd kv
  | None => HintUndefined
  end.

(** One turn of the loop of lines 279-283. *)
Definition add_hint (hints : list (string * HintValue)) (head key : string) : string :=
  if String.eqb key "link" then head
  else (head ++ key ++ ": " ++ String_of_hint (hint key hints) ++ CRLF)%string.

Section EarlyHints.

Variable host : Host.

(** [validateLinkHeaderValue] of [../utils/types.js], a helper outside
    these sources: it returns the text of the Link header or throws. *)
Variable validateLinkHeaderValue : HintValue -> Result string.

(** [writeEarlyHints(hints)] (lines 257-288). *)
Definition writeEarlyHints (hints : list (string * HintValue)) : Action :=
  let head := ("HTTP/1.1 103 Early Hints" ++ CRLF)%string in
  match hint "link" hints with
  | HintNull | HintUndefined => ret
  | hintsLink =>
      match validateLinkHeaderValue hintsLink with
      | Throw err => throw err
      | Ok link =>
          if (String.length link =? 0)%nat then ret
          else
            let head := (head ++ "Link: " ++ link ++ CRLF)%string in
            let head := fold_left (add_hint hints) (map fst hints) head in
            let head := (head ++ CRLF)%string in
            _writeRaw host (VString head) (EncName "ascii")
      end
  end.

End EarlyHints.

(** ** Vocabulary of the further properties *)

(** The reason phrase [writeHead] settles on (lines 310-317): the one
    passed, else the [statusMessage] already set, else the default. *)
Definition reason_phrase (reason : ReasonArg) (code : Z) (s : State) : string :=
  match reason with
  | ReasonString r => r
  | ReasonHeaders _ =>
      if truthy (statusMessage s)
      then match statusMessage s with Some m => m | None => "" end
      else defaultStatusMessage (ToInt32 code)
  end.

(** The header fields [writeHead] works with: [obj ??= reason] when the
    second argument is not a string. *)
Definition headers_argument (reason : ReasonArg) (obj : HeadersArg) : HeadersArg :=
  match reason, obj with
  | ReasonHeaders h, HUndefined => h
  | _, _ => obj
  end.

(** A stream follows the finish signal: one that listens is closed
    exactly when the signal has fired, one that does not was created
    closed, after the signal. *)
Definition stream_follows (fin : bool) (st : Stream) : Prop :=
  if listening st then closed st = fin /\ s_finished st = fin
  else closed st = true /\ fin = true.

Definition bridge_follows (b : Bridge) : Prop :=
  Forall (stream_follows (finished b)) (streams b).

(** [controller.enqueue(chunk)] on an open stream. *)
Definition enqueue (chunk : JsValue) (st : Stream) : Stream :=
  {| queue := queue st ++ [chunk]; closed := closed st;
     s_finished := s_finished st; listening := listening st |}.

(** [controller.close()] by the stream's finish listener. *)
Definition close (st : Stream) : Stream :=
  {| queue := queue st; closed := true; s_finished := true;
     listening := listening st |}.

(** The lines of an early-hints block that follow the Link line: one
    for every key but [link]. *)
Definition hint_lines (hints : list (string * HintValue)) : string :=
  String.concat ""
    (map (fun key => (key ++ ": " ++ String_of_hint (hint key hints) ++ CRLF)%string)
       (filter (fun key => negb (String.eqb key "link")) (map fst hints))).

(** Objects for the examples of the further properties. *)

Definition example_hints : list (string * HintValue) :=
  [("x-trace", HintString "abc"); ("link", HintString "</style.css>; rel=preload");
   ("x-list", HintArray ["a"; "b"])].

(** A validation that lets every string through and joins an array. *)
Definition example_validate (v : HintValue) : Result string :=
  match v with
  | HintString s => Ok s
  | HintArray items => Ok (String.concat ", " items)
  | _ => Throw (ERR_INVALID_ARG_VALUE "hints")
  end.

(** The values the header store holds for a lower-cased name. *)
Definition out_values (key : string) (h : OutHeaders) : list string :=
  match find (fun kv => String.eqb (fst kv) key) h with
  | Some kv => snd (snd kv)
  | None => []
  end.

(** The names of a flat array [[name, value, ...]]. *)
Fixpoint array_names (items : list string) : list string :=
  match items with
  | k :: _ :: rest => k :: array_names rest
  | _ => []
  end.

(** The values a flat array gives for a lower-cased name, in the order
    of the array; a pair with an empty name counts for nothing. *)
Fixpoint array_values (key : string) (items : list string) : list string :=
  match items with
  | k :: v :: rest =>
      if negb (String.eqb k "") && String.eqb (toLowerCase k) key
      then v :: array_values key rest
      else array_values key rest
  | _ => []
  end.

(** A message with two header fields set, for the examples. *)
Definition example_with_headers : State :=
  snd (setHeader "X-A" "old" (snd (setHeader "X-B" "kept" example_response))).

(** [example_response] after a header-sent event: the promise is
    fulfilled and one stream is open. *)
Definition example_streaming : State :=
  snd (emit example_host (HeadersSent ok_event) example_response).

(** A message whose client expects 100 Continue. *)
Definition example_expecting : State :=
  set_expect_continue true example_response.

(** A header-sent event with status 205, which the Fetch standard
    allows no body. *)
Definition reset_event : HeadersSentEvent :=
  {| e_statusCode := 205; e_statusMessage := "Reset Content"; e_headers := [] |}.

(** * Properties *)

Section Properties.

Variable host : Host.

(** ** Sequencing and frames *)

(** A transitive relation between the state before and the state after
    that two statements maintain is maintained by their sequence. *)
Lemma seq_maintains (R : State -> State -> Prop) (a b : Action) :
  (forall s1 s2 s3, R s1 s2 -> R s2 s3 -> R s1 s3) ->
  (forall s, R s (snd (a s))) ->
  (forall s, R s (snd (b s))) ->
  forall s, R s (snd ((a ;; b) s)).
Proof.
  intros Htrans Ha Hb s. unfold seq.
  specialize (Ha s). destruct (a s) as [[|e] s1]; simpl in *.
  - apply Htrans with s1; [assumption | apply Hb].
  - assumption.
Qed.

(** Likewise for an invariant. *)
Lemma seq_keeps (I : State -> Prop) (a b : Action) :
  (forall s, I s -> I (snd (a s))) ->
  (forall s, I s -> I (snd (b s))) ->
  forall s, I s -> I (snd ((a ;; b) s)).
Proof.
  intros Ha Hb s Hs. unfold seq.
  specialize (Ha s Hs). destruct (a s) as [[|e] s1]; simpl in *; auto.
Qed.

(** Induction over a flat array, two items at a time. *)
Lemma pairwise_ind (A : Type) (P : list A -> Prop) :
  P [] -> (forall x, P [x]) -> (forall x y l, P l -> P (x :: y :: l)) ->
  forall l, P l.
Proof.
  intros Hnil Hone Hstep.
  assert (forall l, P l /\ forall x, P (x :: l)) as Hboth.
  { induction l as [|y l [IHl IHxl]]; split; auto. }
  intro l. apply Hboth.
Qed.

Lemma set_kOutHeaders_same s : set_kOutHeaders (kOutHeaders s) s = s.
Proof. now destruct s. Qed.

Lemma set_bridge_same s : set_bridge (bridge s) s = s.
Proof. now destruct s. Qed.

Lemma headers_only_refl s : headers_only s s.
Proof. unfold headers_only. now rewrite set_kOutHeaders_same. Qed.

Lemma headers_only_trans s1 s2 s3 :
  headers_only s1 s2 -> headers_only s2 s3 -> headers_only s1 s3.
Proof.
  unfold headers_only. intros H12 H23. rewrite H23 at 1. now rewrite H12.
Qed.

Lemma setHeader_headers_only name value s :
  headers_only s (snd (setHeader name value s)).
Proof.
  unfold setHeader.
  destruct (truthy (_header s)); [apply headers_only_refl|].
  destruct (checkInvalidHeaderChar name); [apply headers_only_refl|].
  destruct (checkInvalidHeaderChar value); [apply headers_only_refl|].
  reflexivity.
Qed.

Lemma appendHeader_headers_only name value s :
  headers_only s (snd (appendHeader name value s)).
Proof.
  unfold appendHeader.
  destruct (truthy (_header s)); [apply headers_only_refl|].
  destruct (checkInvalidHeaderChar name); [apply headers_only_refl|].
  destruct (checkInvalidHeaderChar value); [apply headers_only_refl|].
  reflexivity.
Qed.

Lemma removeHeader_headers_only name s :
  headers_only s (snd (removeHeader name s)).
Proof.
  unfold removeHeader.
  destruct (truthy (_header s)); [apply headers_only_refl|].
  destruct (kOutHeaders s); [reflexivity | apply headers_only_refl].
Qed.

Lemma removeHeader_each_headers_only items :
  forall s, headers_only s (snd (removeHeader_each items s)).
Proof.
  induction items as [|k|k v rest IH] using pairwise_ind;
    try (intros; apply headers_only_refl).
  simpl. apply seq_maintains.
  - apply headers_only_trans.
  - apply removeHeader_headers_only.
  - apply IH.
Qed.

Lemma appendHeader_each_headers_only items :
  forall s, headers_only s (snd (appendHeader_each items s)).
Proof.
  induction items as [|k|k v rest IH] using pairwise_ind;
    try (intros; apply headers_only_refl).
  simpl. apply seq_maintains.
  - apply headers_only_trans.
  - destruct k; intros; [apply headers_only_refl | apply appendHeader_headers_only].
  - apply IH.
Qed.

Lemma setHeader_each_headers_only entries :
  forall s, headers_only s (snd (setHeader_each entries s)).
Proof.
  induction entries as [|[k v] rest IH]; simpl.
  - intros. apply headers_only_refl.
  - apply seq_maintains.
    + apply headers_only_trans.
    + destruct k; intros; [apply headers_only_refl | apply setHeader_headers_only].
    + apply IH.
Qed.

Lemma mergeHeaders_headers_only obj s :
  headers_only s (snd (mergeHeaders obj s)).
Proof.
  destruct obj as [|entries|items]; simpl.
  - apply headers_only_refl.
  - apply setHeader_each_headers_only.
  - destruct (Nat.even (List.length items)).
    + apply seq_maintains.
      * apply headers_only_trans.
      * apply removeHeader_each_headers_only.
      * apply appendHeader_each_headers_only.
    + apply headers_only_refl.
Qed.

(** ** [writeHead]: its guards *)

Lemma writeHead_headersSent code reason obj s :
  headersSent s = true ->
  writeHead code reason obj s = (Thrown (ERR_HTTP_HEADERS_SENT "write"), s).
Proof. unfold headersSent, writeHead. now intros ->. Qed.

Lemma ToInt32_small x : (-2147483648 <= x < 2147483648)%Z -> ToInt32 x = x.
Proof.
  intros Hx. unfold ToInt32.
  destruct (Z_lt_le_dec x 0) as [Hneg|Hpos].
  - replace (x mod 4294967296)%Z with (x + 4294967296)%Z.
    + destruct (Z.leb_spec 2147483648 (x + 4294967296)); lia.
    + apply Z.mod_unique with (q := (-1)%Z); lia.
  - rewrite Z.mod_small by lia.
    destruct (Z.leb_spec 2147483648 x); lia.
Qed.

Lemma append_assoc (a b c : string) : ((a ++ b) ++ c = a ++ b ++ c)%string.
Proof. induction a as [|x a IH]; simpl; [reflexivity | now rewrite IH]. Qed.

(** The status line of line 366 at the head of a text, letter by letter:
    [HTTP/1.1], the code, the reason phrase, CR and LF. *)
Lemma status_line_head code message rest :
  (status_line code message ++ rest)%string
  = ("HTTP/1.1 " ++ Number_toString code ++ " " ++ message
     ++ String (ascii_of_nat 13) (String (ascii_of_nat 10) rest))%string.
Proof.
  unfold status_line, CRLF, CR, LF.
  now rewrite !append_assoc.
Qed.

(** What a call of [writeHead] that returns has done. *)
Lemma writeHead_returned code reason obj s s' :
  writeHead code reason obj s = (Returned, s') ->
  exists message pairs,
    headersSent s = false
    /\ (100 <= ToInt32 code <= 999)%Z
    /\ message = match reason with
                 | ReasonString r => r
                 | ReasonHeaders _ =>
                     if truthy (statusMessage s)
                     then match statusMessage s with Some m => m | None => "" end
                     else defaultStatusMessage (ToInt32 code)
                 end
    /\ checkInvalidHeaderChar message = false
    /\ statusCode s' = ToInt32 code
    /\ statusMessage s' = Some message
    /\ _header s' =
         Some (status_line (ToInt32 code) message ++ render_headers pairs ++ CRLF)%string
    /\ _headerSent s' = _headerSent s
    /\ _headerFields s' =
         Some {| e_statusCode := ToInt32 code; e_statusMessage := message;
                 e_headers := pairs |}
    /\ _hasBody s' = (if noBodyStatus (ToInt32 code) then false else _hasBody s)
    /\ bridge s' = bridge s
    /\ writtenHeaderBytes s' = writtenHeaderBytes s
    /\ writtenEntries s' = writtenEntries s
    /\ writableEnded s' = writableEnded s.
Proof.
  unfold writeHead, headersSent.
  destruct (truthy (_header s)) eqn:Hsent; [discriminate|].
  destruct ((ToInt32 code <? 100) || (ToInt32 code >? 999))%Z eqn:Hrange; [discriminate|].
  apply orb_false_elim in Hrange. destruct Hrange as [Hlo Hhi].
  apply Z.ltb_ge in Hlo. rewrite Z.gtb_ltb in Hhi. apply Z.ltb_ge in Hhi.
  set (message := match reason with
                  | ReasonString r => r
                  | ReasonHeaders _ =>
                      if truthy (statusMessage s)
                      then match statusMessage s with Some m => m | None => "" end
                      else defaultStatusMessage (ToInt32 code)
                  end).
  set (s1 := match reason with
             | ReasonString r => set_statusMessage (Some r) s
             | ReasonHeaders _ =>
                 if truthy (statusMessage s) then s
                 else set_statusMessage (Some (defaultStatusMessage (ToInt32 code))) s
             end).
  assert (Hs1 : s1 = set_statusMessage (Some message) s).
  { subst s1 message. destruct reason as [r|h]; [reflexivity|].
    destruct (statusMessage s) as [[|c m]|] eqn:Hm; simpl; try reflexivity.
    destruct s; simpl in *; now subst. }
  destruct reason as [r|h]; simpl.
  all: fold s1; rewrite Hs1; clear s1 Hs1.
  all: unfold seq.
  all: match goal with
       | |- context [(if ?p then mergeHeaders ?o else ret) ?st] =>
           pose proof (mergeHeaders_headers_only o st) as Hfr;
           assert (Hm : headers_only st (snd ((if p then mergeHeaders o else ret) st)))
             by (destruct p; [exact Hfr | apply headers_only_refl]);
           clear Hfr;
           destruct ((if p then mergeHeaders o else ret) st) as [[|err] s3]
       end; try discriminate.
  all: simpl in Hm; unfold headers_only in Hm; rewrite Hm; simpl.
  all: destruct (checkInvalidHeaderChar message) eqn:Hchar; [discriminate|].
  all: unfold _storeHeader.
  all: match goal with
       | |- context [pairs_of_headers ?h] =>
           destruct (pairs_of_headers h) as [pairs|]; [|discriminate]
       end.
  all: destruct (existsb _ pairs); [discriminate|].
  all: intros Heq; inversion Heq; subst s'; clear Heq.
  all: exists message, pairs; simpl.
  all: destruct (noBodyStatus (ToInt32 code)); simpl;
       destruct (_expect_continue s && negb (_sent100 s)); simpl;
       repeat split; auto.
Qed.

(** C4 (amended). A status code whose 32-bit coercion [statusCode | 0]
    lies outside the interval from 100 to 999 makes [writeHead] throw
    and change nothing: no field of the message, [statusCode],
    [statusMessage], the header store and the header block included, is
    touched.  The error is ERR_HTTP_INVALID_STATUS_CODE with the
    argument as it was passed, or ERR_HTTP_HEADERS_SENT when the headers
    were sent already. *)
Theorem writeHead_invalid_status_code code reason obj s :
  (ToInt32 code < 100 \/ 999 < ToInt32 code)%Z ->
  writeHead code reason obj s =
    (Thrown (if headersSent s then ERR_HTTP_HEADERS_SENT "write"
             else ERR_HTTP_INVALID_STATUS_CODE code), s).
Proof.
  intros Hrange. unfold writeHead, headersSent.
  destruct (truthy (_header s)); [reflexivity|].
  replace ((ToInt32 code <? 100) || (ToInt32 code >? 999))%Z with true; [reflexivity|].
  symmetry. apply orb_true_iff. rewrite Z.gtb_ltb, !Z.ltb_lt. exact Hrange.
Qed.

(** C5. Once the header block is stored ([this._header] is set, as after
    [writeHead]), every header-mutating call, a second [writeHead]
    included, throws ERR_HTTP_HEADERS_SENT and leaves the whole message
    as it was, the promise [fetchResponse] and what it resolved to
    included. *)
Theorem header_mutation_after_headersSent c s :
  headersSent s = true ->
  header_mutating c = true ->
  exists op, call host c s = (Thrown (ERR_HTTP_HEADERS_SENT op), s)
             /\ toFetchResponse (snd (call host c s)) = toFetchResponse s.
Proof.
  intros Hsent Hmut. unfold headersSent in Hsent.
  destruct c; try discriminate; simpl.
  - exists "set". unfold setHeader. rewrite Hsent. now split.
  - exists "append". unfold appendHeader. rewrite Hsent. now split.
  - exists "remove". unfold removeHeader. rewrite Hsent. now split.
  - exists "write". rewrite writeHead_headersSent by exact Hsent. now split.
Qed.

(** A [writeHead] that returns has stored the header block. *)
Lemma writeHead_sends_headers code reason obj s s' :
  writeHead code reason obj s = (Returned, s') -> headersSent s' = true.
Proof.
  intros H. apply writeHead_returned in H.
  destruct H as (message & pairs & _ & _ & _ & _ & _ & _ & Hheader & _).
  unfold headersSent, status_line. rewrite Hheader. reflexivity.
Qed.

(** C8. A [writeHead] without a reason phrase, on a message whose
    [statusMessage] is unset (or empty), uses the entry of [STATUS_CODES]
    for the coerced status code, and ["unknown"] when the table has none.
    That phrase becomes [statusMessage]; the header block starts with the
    status line [HTTP/1.1], the code, the phrase, CR and LF; the phrase
    is the reason of the header-sent event, and the [Response] that the
    event is turned into has it as [statusText]. *)
Theorem writeHead_default_statusMessage code headers obj s s' :
  truthy (statusMessage s) = false ->
  writeHead code (ReasonHeaders headers) obj s = (Returned, s') ->
  exists phrase,
    (STATUS_CODES (ToInt32 code) = Some phrase
     \/ (STATUS_CODES (ToInt32 code) = None /\ phrase = "unknown"))
    /\ statusCode s' = ToInt32 code
    /\ statusMessage s' = Some phrase
    /\ (exists rest,
          _header s' =
            Some ("HTTP/1.1 " ++ Number_toString (ToInt32 code) ++ " " ++ phrase
                  ++ String (ascii_of_nat 13) (String (ascii_of_nat 10) rest))%string)
    /\ (exists ev,
          _headerFields s' = Some ev
          /\ e_statusCode ev = ToInt32 code
          /\ e_statusMessage ev = phrase
          /\ (toFetchResponse s' = Pending ->
              accepted host ev (_hasBody s') ->
              exists r,
                toFetchResponse (snd (emit host (HeadersSent ev) s')) = Fulfilled r
                /\ status r = ToInt32 code /\ statusText r = phrase)).
Proof.
  intros Hunset H. apply writeHead_returned in H.
  destruct H as (message & pairs & _ & _ & Hmsg & _ & Hcode & Hmessage & Hheader
                 & _ & Hfields & _).
  rewrite Hunset in Hmsg. subst message.
  exists (defaultStatusMessage (ToInt32 code)).
  split.
  { unfold defaultStatusMessage.
    destruct (STATUS_CODES (ToInt32 code)) as [phrase|]; [now left | now right]. }
  split; [exact Hcode|]. split; [exact Hmessage|]. split.
  { eexists. rewrite Hheader, status_line_head. reflexivity. }
  eexists. split; [exact Hfields|]. split; [reflexivity|]. split; [reflexivity|].
  unfold toFetchResponse. intros Hp [Hheaders Hinit]. simpl in Hheaders, Hinit.
  simpl. unfold headersSentHandler, _toFetchResponse, upd_bridge. simpl.
  rewrite Hheaders. simpl.
  destruct (_hasBody s'); simpl; rewrite Hinit; simpl; rewrite Hp; simpl;
    eexists; repeat split; reflexivity.
Qed.

(** ** The emitter touches the bridge only *)

Lemma bridge_only_refl s : bridge_only s s.
Proof. unfold bridge_only. now rewrite set_bridge_same. Qed.

Lemma bridge_only_trans s1 s2 s3 :
  bridge_only s1 s2 -> bridge_only s2 s3 -> bridge_only s1 s3.
Proof.
  unfold bridge_only. intros H12 H23. rewrite H23 at 1. now rewrite H12.
Qed.

Lemma initialDataWrittenHandler_bridge_only e s :
  bridge_only s (snd (initialDataWrittenHandler host e s)).
Proof.
  unfold initialDataWrittenHandler.
  destruct (finished (bridge s)); [apply bridge_only_refl|].
  destruct (dataFromDataWrittenEvent host e s); simpl;
    [reflexivity | apply bridge_only_refl].
Qed.

Lemma _toFetchResponse_bridge_only st txt hs chunks fin s :
  bridge_only s (snd (_toFetchResponse host st txt hs chunks fin s)).
Proof.
  unfold _toFetchResponse.
  destruct (negb (forallb _ hs)); [apply bridge_only_refl|].
  destruct (_hasBody s); destruct (Response_init_ok host _ st txt); simpl;
    try reflexivity; apply bridge_only_refl.
Qed.

Lemma headersSentHandler_bridge_only e s :
  bridge_only s (snd (headersSentHandler host e s)).
Proof.
  unfold headersSentHandler.
  pose proof (_toFetchResponse_bridge_only (e_statusCode e) (e_statusMessage e)
                (e_headers e)
                (initialDataChunks (bridge (upd_bridge (set_listening_initial false) s)))
                (finished (bridge (upd_bridge (set_listening_initial false) s)))
                (upd_bridge (set_listening_initial false) s)) as H.
  destruct (_toFetchResponse host _ _ _ _ _ _) as [[r|err] s2]; simpl in *.
  - unfold bridge_only in *. rewrite H. reflexivity.
  - unfold bridge_only in *. rewrite H at 1. reflexivity.
Qed.

Lemma on_streams_bridge_only f s : bridge_only s (snd (on_streams f s)).
Proof.
  unfold on_streams. destruct (each_stream f (streams (bridge s))). reflexivity.
Qed.

Lemma emit_bridge_only ev s : bridge_only s (snd (emit host ev s)).
Proof.
  destruct ev as [|e|e]; simpl.
  - apply seq_maintains.
    + apply bridge_only_trans.
    + intros. reflexivity.
    + intros. apply on_streams_bridge_only.
  - apply seq_maintains.
    + apply bridge_only_trans.
    + intros s0. destruct (listening_initial (bridge s0));
        [apply initialDataWrittenHandler_bridge_only | apply bridge_only_refl].
    + intros. apply on_streams_bridge_only.
  - apply headersSentHandler_bridge_only.
Qed.

(** What [dataFromDataWrittenEvent] reads of the message is
    [writtenHeaderBytes]. *)
Lemma dataFromDataWrittenEvent_reads e s s' :
  writtenHeaderBytes s' = writtenHeaderBytes s ->
  dataFromDataWrittenEvent host e s' = dataFromDataWrittenEvent host e s.
Proof. intros H. unfold dataFromDataWrittenEvent. now rewrite H. Qed.

Lemma dataFromDataWrittenEvent_defined e s chunk :
  dataFromDataWrittenEvent host e s = Ok chunk -> defined chunk = true.
Proof.
  unfold dataFromDataWrittenEvent.
  destruct (index e =? 0)%nat; destruct (data (entry e)); simpl;
    try discriminate;
    try (intros H; inversion H; reflexivity);
    destruct (encoding (entry e)); simpl;
    try (intros H; inversion H; reflexivity);
    try (destruct (is_utf8 name));
    try (intros H; inversion H; reflexivity);
    destruct (Buffer_from host _ _); intros H; inversion H; reflexivity.
Qed.

(** ** Reachable states of the bridge *)

Lemma each_stream_finish fin l :
  Forall (stream_ok fin) l ->
  Forall (stream_ok true) (snd (each_stream streamFinishHandler l)).
Proof.
  induction l as [|st rest IH]; intros Hl; simpl; [constructor|].
  inversion Hl as [|? ? Hst Hrest]; subst.
  specialize (IH Hrest).
  unfold streamFinishHandler at 1.
  destruct (listening st) eqn:Hlis.
  - destruct (closed st) eqn:Hclosed; simpl.
    + constructor.
      * intros _. simpl. split; reflexivity.
      * destruct (Hst Hlis) as [Hfin _]. rewrite (Hfin Hclosed) in Hrest.
        exact Hrest.
    + destruct (each_stream streamFinishHandler rest) as [o rest'].
      simpl in *. constructor; [|exact IH].
      intros _. simpl. split; reflexivity.
  - destruct (each_stream streamFinishHandler rest) as [o rest'].
    simpl in *. constructor; [|exact IH].
    intros Hl'. congruence.
Qed.

Lemma each_stream_dataWritten fin e s l :
  Forall (stream_ok fin) l ->
  Forall (stream_ok fin) (snd (each_stream (streamDataWrittenHandler host e s) l)).
Proof.
  induction l as [|st rest IH]; intros Hl; simpl; [constructor|].
  inversion Hl as [|? ? Hst Hrest]; subst.
  assert (Hst' : stream_ok fin (snd (streamDataWrittenHandler host e s st))).
  { unfold streamDataWrittenHandler.
    destruct (listening st) eqn:Hlis; [|exact Hst].
    destruct (s_finished st) eqn:Hfin; [exact Hst|].
    destruct (dataFromDataWrittenEvent host e s); [|exact Hst].
    destruct (closed st) eqn:Hclosed; [exact Hst|]. simpl.
    intros _. simpl. destruct (Hst Hlis) as [_ H2]. split; [discriminate|].
    intros ->. specialize (H2 eq_refl). congruence. }
  specialize (IH Hrest).
  destruct (streamDataWrittenHandler host e s st) as [[|err] st']; simpl in *.
  - destruct (each_stream (streamDataWrittenHandler host e s) rest) as [o rest'].
    simpl in *. constructor; assumption.
  - constructor; assumption.
Qed.

Lemma stream_ok_new chunks fin : stream_ok fin (new_stream chunks fin).
Proof.
  unfold new_stream, stream_ok. destruct fin; simpl; intros H;
    [discriminate | split; discriminate].
Qed.

(** The buffering listener changes [initialDataChunks] at most. *)
Lemma initial_listener_keeps e s :
  let s1 := snd (if listening_initial (bridge s)
                 then initialDataWrittenHandler host e s else (Returned, s)) in
  finished (bridge s1) = finished (bridge s)
  /\ streams (bridge s1) = streams (bridge s)
  /\ fetchResponse (bridge s1) = fetchResponse (bridge s)
  /\ listening_initial (bridge s1) = listening_initial (bridge s).
Proof.
  simpl. destruct (listening_initial (bridge s)) eqn:Hlis;
    [|simpl; repeat split; congruence].
  unfold initialDataWrittenHandler.
  destruct (finished (bridge s)) eqn:Hfin; simpl; [repeat split; congruence|].
  destruct (dataFromDataWrittenEvent host e s); simpl; repeat split; congruence.
Qed.

Lemma emit_bridge_ok ev s :
  bridge_ok (bridge s) -> bridge_ok (bridge (snd (emit host ev s))).
Proof.
  unfold bridge_ok. intros Hok. destruct ev as [|e|e]; simpl.
  - unfold seq, finishHandler, on_streams. simpl.
    pose proof (each_stream_finish _ _ Hok) as H.
    destruct (each_stream streamFinishHandler (streams (bridge s))) as [o l].
    simpl in *. exact H.
  - unfold seq.
    pose proof (initial_listener_keeps e s) as Hini.
    destruct (if listening_initial (bridge s) then initialDataWrittenHandler host e s
              else (Returned, s)) as [[|err] s1]; simpl in Hini;
      destruct Hini as (Hfin & Hstr & _).
    + unfold on_streams.
      pose proof (each_stream_dataWritten (finished (bridge s)) e s1 (streams (bridge s1))) as H.
      rewrite Hstr in H. specialize (H Hok). rewrite Hstr.
      destruct (each_stream _ (streams (bridge s))) as [o l]. simpl in *.
      rewrite Hfin. exact H.
    + simpl. rewrite Hfin, Hstr. exact Hok.
  - unfold headersSentHandler, _toFetchResponse.
    destruct (negb (forallb _ (e_headers e))); simpl; [exact Hok|].
    destruct (_hasBody s); simpl.
    + destruct (Response_init_ok host true _ _); simpl;
        (apply Forall_app; split; [exact Hok | constructor; [apply stream_ok_new | constructor]]).
    + destruct (Response_init_ok host false _ _); simpl; exact Hok.
Qed.

Lemma reachable_bridge_ok s : reachable host s -> bridge_ok (bridge s).
Proof.
  induction 1 as [r|s ev _ IH|s s' _ IH Heq].
  - unfold FetchServerResponse_new, bridge_ok. simpl. constructor.
  - now apply emit_bridge_ok.
  - now rewrite Heq.
Qed.

Lemma emit_finished_stays ev s :
  finished (bridge s) = true -> finished (bridge (snd (emit host ev s))) = true.
Proof.
  intros Hfin. destruct ev as [|e|e]; simpl.
  - unfold seq, finishHandler, on_streams. simpl.
    destruct (each_stream _ _). reflexivity.
  - unfold seq.
    destruct (listening_initial (bridge s)).
    + unfold initialDataWrittenHandler. rewrite Hfin. unfold on_streams.
      destruct (each_stream _ _). simpl. exact Hfin.
    + unfold on_streams. destruct (each_stream _ _). simpl. exact Hfin.
  - unfold headersSentHandler, _toFetchResponse.
    destruct (negb (forallb _ (e_headers e))); simpl; [exact Hfin|].
    destruct (_hasBody s); simpl; destruct (Response_init_ok host _ _ _); simpl;
      exact Hfin.
Qed.

Lemma emit_Finish_finished s : finished (bridge (snd (emit host Finish s))) = true.
Proof.
  simpl. unfold seq, finishHandler, on_streams. simpl.
  destruct (each_stream _ _). reflexivity.
Qed.

Lemma after_finish_reachable s : after_finish host s -> reachable host s.
Proof.
  induction 1 as [s Hs|s ev _ IH|s s' _ IH Heq].
  - now apply reach_emit.
  - now apply reach_emit.
  - now apply reach_fields with s.
Qed.

Lemma after_finish_finished s : after_finish host s -> finished (bridge s) = true.
Proof.
  induction 1 as [s Hs|s ev _ IH|s s' _ IH Heq].
  - apply emit_Finish_finished.
  - now apply emit_finished_stays.
  - now rewrite Heq.
Qed.

(** A stream that has seen the finish signal ignores a data-written
    event. *)
Lemma each_stream_dataWritten_finished e s l :
  Forall (stream_ok true) l ->
  each_stream (streamDataWrittenHandler host e s) l = (Returned, l).
Proof.
  induction l as [|st rest IH]; intros Hl; simpl; [reflexivity|].
  inversion Hl as [|? ? Hst Hrest]; subst.
  unfold streamDataWrittenHandler at 1.
  destruct (listening st) eqn:Hlis.
  - destruct (Hst Hlis) as [_ Hfin]. rewrite (Hfin eq_refl).
    now rewrite (IH Hrest).
  - now rewrite (IH Hrest).
Qed.

(** C10. After the finish signal has fired, a data-written event changes
    nothing: [emit] returns, and the state, with every stream's queue and
    the array of initial chunks, is the one before.  The buffering
    listener returns at once because [finished] is set; a stream either
    never listened (it was created closed) or has seen the signal. *)
Theorem dataWritten_after_finish_is_discarded e s :
  after_finish host s ->
  emit host (DataWritten e) s = (Returned, s).
Proof.
  intros Haf.
  pose proof (after_finish_finished _ Haf) as Hfin.
  pose proof (reachable_bridge_ok _ (after_finish_reachable _ Haf)) as Hok.
  unfold bridge_ok in Hok. rewrite Hfin in Hok.
  simpl. unfold seq.
  assert (Hini : (if listening_initial (bridge s) then initialDataWrittenHandler host e s
                  else (Returned, s)) = (Returned, s)).
  { destruct (listening_initial (bridge s)); [|reflexivity].
    unfold initialDataWrittenHandler. now rewrite Hfin. }
  rewrite Hini. unfold on_streams.
  rewrite each_stream_dataWritten_finished by exact Hok.
  f_equal. destruct s as [? ? ? ? ? ? ? ? ? ? ? ? ? ? ? ? b]. destruct b. reflexivity.
Qed.

(** ** The body, chunk by chunk *)

Lemma array_set_empty i v : array_set [] i v = repeat VUndefined i ++ [v].
Proof. induction i as [|i IH]; simpl; [reflexivity | now rewrite IH]. Qed.

(** Assigning at or past the end appends, after as many holes as the
    index skips. *)
Lemma array_set_beyond a : forall i v,
  List.length a <= i ->
  array_set a i v = a ++ repeat VUndefined (i - List.length a) ++ [v].
Proof.
  induction a as [|x a IH]; intros i v Hi; simpl.
  - rewrite Nat.sub_0_r. apply array_set_empty.
  - destruct i as [|i]; simpl in *; [lia|]. rewrite IH by lia. reflexivity.
Qed.

Lemma filter_defined_holes k : filter defined (repeat VUndefined k) = [].
Proof. induction k; simpl; auto. Qed.

Lemma array_set_defined a i v :
  List.length a <= i -> defined v = true ->
  filter defined (array_set a i v) = filter defined a ++ [v].
Proof.
  intros Hi Hv. rewrite array_set_beyond by exact Hi.
  rewrite !filter_app, filter_defined_holes. simpl. now rewrite Hv.
Qed.

Lemma array_set_length a i v :
  List.length a <= i -> List.length (array_set a i v) = S i.
Proof.
  intros Hi. rewrite array_set_beyond by exact Hi.
  rewrite !length_app, repeat_length. simpl. lia.
Qed.

(** One data-written event while the promise is pending: the chunk is
    stored at its index. *)
Lemma emit_dataWritten_buffering e s a p chunk :
  bridge s = Build_Bridge false a true p [] ->
  dataFromDataWrittenEvent host e s = Ok chunk ->
  emit host (DataWritten e) s =
    (Returned, set_bridge (Build_Bridge false (array_set a (index e) chunk) true p []) s).
Proof.
  intros Hb Hchunk. simpl. unfold seq, initialDataWrittenHandler, on_streams, upd_bridge.
  rewrite Hb. simpl. rewrite Hchunk. reflexivity.
Qed.

(** One data-written event on an open stream: the chunk is enqueued,
    whatever its index. *)
Lemma emit_dataWritten_streaming e s a p q chunk :
  bridge s = Build_Bridge false a false p [Build_Stream q false false true] ->
  dataFromDataWrittenEvent host e s = Ok chunk ->
  emit host (DataWritten e) s =
    (Returned,
     set_bridge
       (Build_Bridge false a false p [Build_Stream (q ++ [chunk]) false false true]) s).
Proof.
  intros Hb Hchunk. simpl. unfold seq, on_streams, upd_bridge.
  rewrite Hb. simpl. rewrite Hb. simpl.
  unfold streamDataWrittenHandler. simpl. rewrite Hchunk. reflexivity.
Qed.

(** The header-sent event on a pending promise, for a message with a
    body and a response the host accepts: the promise is fulfilled, and
    the body starts with the buffered chunks. *)
Lemma emit_headersSent_buffered h s a :
  bridge s = Build_Bridge false a true Pending [] ->
  _hasBody s = true ->
  forallb (fun hv => Headers_append_ok host (fst hv) (snd hv)) (e_headers h) = true ->
  Response_init_ok host true (e_statusCode h) (e_statusMessage h) = true ->
  emit host (HeadersSent h) s =
    (Returned,
     set_bridge
       (Build_Bridge false a false
          (Fulfilled {| status := e_statusCode h; statusText := e_statusMessage h;
                        headers := e_headers h; body := Some 0 |})
          [Build_Stream a false false true]) s).
Proof.
  intros Hb Hbody Hheaders Hinit. simpl.
  unfold headersSentHandler, _toFetchResponse, upd_bridge. simpl.
  rewrite Hheaders, Hbody, Hb. simpl. rewrite Hinit. reflexivity.
Qed.

Lemma deliver_bridge_only evs : forall s, bridge_only s (deliver host evs s).
Proof.
  induction evs as [|ev evs IH]; intros s; simpl.
  - apply bridge_only_refl.
  - eapply bridge_only_trans; [apply emit_bridge_only | apply IH].
Qed.

Lemma bridge_only_hasBody s s' : bridge_only s s' -> _hasBody s' = _hasBody s.
Proof. intros H. rewrite H. reflexivity. Qed.

(** The chunks written while the promise is pending, indices increasing:
    the array holds them in write order, between holes where an index
    was skipped. *)
Lemma deliver_buffering pre : forall cpre s a p lo,
  bridge s = Build_Bridge false a true p [] ->
  List.length a <= lo ->
  increasing_from lo (map index pre) ->
  Forall2 (fun e c => dataFromDataWrittenEvent host e s = Ok c) pre cpre ->
  exists a',
    bridge (deliver host (map DataWritten pre) s) = Build_Bridge false a' true p []
    /\ filter defined a' = filter defined a ++ cpre
    /\ (map index pre = List.seq (List.length a) (List.length pre) -> a' = a ++ cpre).
Proof.
  induction pre as [|e pre IH]; intros cpre s a p lo Hb Ha Hinc Hmat.
  - inversion Hmat; subst. simpl. exists a. rewrite !app_nil_r. auto.
  - inversion Hmat as [|? c ? cs Hc Hcs]; subst. simpl in Hinc.
    destruct Hinc as [Hlo Hinc]. cbn [deliver map].
    rewrite (emit_dataWritten_buffering e s a p c Hb Hc). cbn [snd].
    destruct (IH cs (set_bridge (Build_Bridge false (array_set a (index e) c) true p []) s)
                (array_set a (index e) c) p (S (index e))) as (a' & Hb' & Hfilter & Hexact).
    + reflexivity.
    + rewrite array_set_length by lia. lia.
    + exact Hinc.
    + eapply Forall2_impl; [|exact Hcs]. intros e' c' He'.
      rewrite <- He'. now apply dataFromDataWrittenEvent_reads.
    + exists a'. split; [exact Hb'|]. split.
      * rewrite Hfilter, array_set_defined by
          (try lia; eapply dataFromDataWrittenEvent_defined; exact Hc).
        now rewrite <- app_assoc.
      * intros Hseq. simpl in Hseq. inversion Hseq as [[Hidx Hrest]].
        assert (Hset : array_set a (index e) c = a ++ [c]).
        { rewrite array_set_beyond by lia. now rewrite Hidx, Nat.sub_diag. }
        rewrite Hset in Hexact. rewrite Hexact.
        -- now rewrite <- app_assoc.
        -- rewrite length_app, Nat.add_1_r, <- Hidx. exact Hrest.
Qed.

(** The chunks written to an open stream are enqueued in write order. *)
Lemma deliver_streaming post : forall cpost s a p q,
  bridge s = Build_Bridge false a false p [Build_Stream q false false true] ->
  Forall2 (fun e c => dataFromDataWrittenEvent host e s = Ok c) post cpost ->
  bridge (deliver host (map DataWritten post) s) =
    Build_Bridge false a false p [Build_Stream (q ++ cpost) false false true].
Proof.
  induction post as [|e post IH]; intros cpost s a p q Hb Hmat.
  - inversion Hmat; subst. simpl. now rewrite app_nil_r.
  - inversion Hmat as [|? c ? cs Hc Hcs]; subst. cbn [deliver map].
    rewrite (emit_dataWritten_streaming e s a p q c Hb Hc). cbn [snd].
    rewrite (IH cs _ a p (q ++ [c])).
    + now rewrite <- app_assoc.
    + reflexivity.
    + eapply Forall2_impl; [|exact Hcs]. intros e' c' He'.
      rewrite <- He'. now apply dataFromDataWrittenEvent_reads.
Qed.

(** C6. The data-written events that precede the header-sent event carry
    increasing indices; none follows the finish signal.  The promise is
    fulfilled at the header-sent event with a body that holds, from its
    start, the chunks written before, in write order (with a hole where
    an index was skipped, none when the indices are 0, 1, 2, ...), and
    after them the chunks written later, in write order. *)
Theorem body_chunks_in_write_order s0 pre h w post cpre cpost :
  bridge s0 = initial_bridge ->
  _hasBody s0 = true ->
  increasing_from 0 (map index pre) ->
  Forall2 (fun e c => dataFromDataWrittenEvent host e s0 = Ok c) pre cpre ->
  Forall2 (fun e c =>
             dataFromDataWrittenEvent host e (set_writtenHeaderBytes w s0) = Ok c)
    post cpost ->
  forallb (fun hv => Headers_append_ok host (fst hv) (snd hv)) (e_headers h) = true ->
  Response_init_ok host true (e_statusCode h) (e_statusMessage h) = true ->
  exists initial,
    let s1 := deliver host (map DataWritten pre) s0 in
    let s2 := snd (emit host (HeadersSent h) (set_writtenHeaderBytes w s1)) in
    let s3 := deliver host (map DataWritten post) s2 in
    fetchResponse (bridge s2) =
      Fulfilled {| status := e_statusCode h; statusText := e_statusMessage h;
                   headers := e_headers h; body := Some 0 |}
    /\ fetchResponse (bridge s3) = fetchResponse (bridge s2)
    /\ streams (bridge s3) = [Build_Stream (initial ++ cpost) false false true]
    /\ filter defined initial = cpre
    /\ (map index pre = List.seq 0 (List.length pre) -> initial = cpre).
Proof.
  intros Hb Hbody Hinc Hpre Hpost Hheaders Hinit.
  destruct (deliver_buffering pre cpre s0 [] Pending 0 Hb (Nat.le_refl 0) Hinc Hpre)
    as (initial & Hb1 & Hfilter & Hexact).
  exists initial. cbv zeta.
  set (s1 := deliver host (map DataWritten pre) s0) in *.
  assert (Hs1 : bridge_only s0 s1) by apply deliver_bridge_only.
  rewrite (emit_headersSent_buffered h (set_writtenHeaderBytes w s1) initial);
    try assumption; [|simpl; rewrite (bridge_only_hasBody _ _ Hs1); exact Hbody].
  cbn [snd].
  erewrite (deliver_streaming post cpost _ initial _ initial); [|reflexivity|].
  - simpl in *. repeat split; assumption.
  - eapply Forall2_impl; [|exact Hpost]. intros e c He. rewrite <- He.
    apply dataFromDataWrittenEvent_reads. simpl. reflexivity.
Qed.

(** ** Call sequences: what stays *)

(** Whatever its outcome, [writeHead] leaves the bridge alone, sends
    nothing, and may clear [_hasBody] but never sets it. *)
Lemma writeHead_frame code reason obj s :
  bridge (snd (writeHead code reason obj s)) = bridge s
  /\ _headerSent (snd (writeHead code reason obj s)) = _headerSent s
  /\ (_hasBody s = false -> _hasBody (snd (writeHead code reason obj s)) = false)
  /\ (headersSent s = true -> headersSent (snd (writeHead code reason obj s)) = true).
Proof.
  unfold writeHead, headersSent.
  destruct (truthy (_header s)) eqn:Hsent; [simpl; repeat split; auto|].
  destruct ((ToInt32 code <? 100) || (ToInt32 code >? 999))%Z;
    [simpl; repeat split; auto; discriminate|].
  destruct reason as [r|h]; [|destruct (truthy (statusMessage s))]; cbv zeta.
  all: unfold seq.
  all: match goal with
       | |- context [(if ?p then mergeHeaders ?o else ret) ?st] =>
           pose proof (mergeHeaders_headers_only o st) as Hfr;
           assert (Hm : headers_only st (snd ((if p then mergeHeaders o else ret) st)))
             by (destruct p; [exact Hfr | apply headers_only_refl]);
           clear Hfr;
           destruct ((if p then mergeHeaders o else ret) st) as [[|err] s3]
       end.
  all: simpl in Hm; unfold headers_only in Hm; rewrite Hm; simpl.
  all: try (repeat split; auto; discriminate).
  all: destruct (checkInvalidHeaderChar _); simpl;
       [repeat split; auto; discriminate|].
  all: unfold _storeHeader.
  all: match goal with
       | |- context [pairs_of_headers ?h] => destruct (pairs_of_headers h) as [pairs|]
       end.
  all: try destruct (existsb _ pairs).
  all: destruct (noBodyStatus (ToInt32 code)); simpl;
       destruct (_expect_continue s && negb (_sent100 s)); simpl;
       repeat split; auto; discriminate.
Qed.

(** An event other than header-sent leaves the promise alone; the
    header-sent event settles a pending promise with a response whose
    body is null when the message has none. *)
Lemma emit_fetchResponse ev s :
  fetchResponse (bridge (snd (emit host ev s))) = fetchResponse (bridge s)
  \/ (exists h r,
        ev = HeadersSent h
        /\ fetchResponse (bridge s) = Pending
        /\ fetchResponse (bridge (snd (emit host ev s))) = Fulfilled r
        /\ status r = e_statusCode h
        /\ statusText r = e_statusMessage h
        /\ headers r = e_headers h
        /\ (_hasBody s = false -> body r = None)).
Proof.
  destruct ev as [|e|e]; simpl.
  - left. unfold seq, finishHandler, on_streams. simpl.
    destruct (each_stream _ _). reflexivity.
  - left. unfold seq.
    pose proof (initial_listener_keeps e s) as Hini.
    destruct (if listening_initial (bridge s) then initialDataWrittenHandler host e s
              else (Returned, s)) as [[|err] s1]; simpl in Hini;
      destruct Hini as (_ & _ & Hp & _).
    + unfold on_streams. destruct (each_stream _ _). simpl. exact Hp.
    + exact Hp.
  - unfold headersSentHandler, _toFetchResponse.
    destruct (negb (forallb _ (e_headers e))); simpl; [now left|].
    destruct (_hasBody s) eqn:Hbody; simpl.
    + destruct (Response_init_ok host true _ _); simpl; [|now left].
      destruct (fetchResponse (bridge s)) eqn:Hp; simpl; try now left.
      right. eexists e, _. repeat split; try reflexivity. discriminate.
    + destruct (Response_init_ok host false _ _); simpl; [|now left].
      destruct (fetchResponse (bridge s)) eqn:Hp; simpl; try now left.
      right. eexists e, _. repeat split; reflexivity.
Qed.

Lemma emit_other_fetchResponse ev s :
  (forall h, ev <> HeadersSent h) ->
  fetchResponse (bridge (snd (emit host ev s))) = fetchResponse (bridge s).
Proof.
  intros Hev. destruct (emit_fetchResponse ev s) as [H|(h & r & Heq & _)];
    [exact H | now destruct (Hev h)].
Qed.

Lemma guards_kept_refl s : guards_kept s s.
Proof. unfold guards_kept. auto. Qed.

Lemma guards_kept_trans s1 s2 s3 :
  guards_kept s1 s2 -> guards_kept s2 s3 -> guards_kept s1 s3.
Proof.
  unfold guards_kept. intros (H1 & H2 & H3 & H4) (H1' & H2' & H3' & H4').
  repeat split; congruence.
Qed.

Lemma bridge_only_guards_kept s s' : bridge_only s s' -> guards_kept s s'.
Proof. intros H. rewrite H. unfold guards_kept. simpl. auto. Qed.

Lemma emit_guards_kept ev s : guards_kept s (snd (emit host ev s)).
Proof. apply bridge_only_guards_kept, emit_bridge_only. Qed.

Lemma _writeRaw_guards_kept chunk enc s :
  guards_kept s (snd (_writeRaw host chunk enc s)).
Proof.
  unfold _writeRaw.
  eapply guards_kept_trans; [|apply emit_guards_kept].
  unfold guards_kept. simpl. auto.
Qed.

Lemma _writeRaw_fetchResponse chunk enc s :
  fetchResponse (bridge (snd (_writeRaw host chunk enc s))) = fetchResponse (bridge s).
Proof.
  unfold _writeRaw. rewrite emit_other_fetchResponse; [reflexivity | discriminate].
Qed.

(** The first transfer marks the headers as sent; nothing else of the
    guards changes. *)
Lemma _send_guards chunk enc s :
  let s' := snd (_send host chunk enc s) in
  _header s' = _header s /\ _hasBody s' = _hasBody s
  /\ writableEnded s' = writableEnded s /\ _headerSent s' = true.
Proof.
  unfold _send. destruct (_headerSent s) eqn:Hhs.
  - destruct (_writeRaw_guards_kept chunk enc s) as (H1 & H2 & H3 & H4).
    simpl. repeat split; congruence.
  - set (s1 := set_writtenHeaderBytes _ (set_headerSent true s)).
    assert (H1 : guards_kept s1
                   (snd (((match _headerFields s with
                           | Some ev => emit host (HeadersSent ev)
                           | None => ret
                           end) ;;
                          (match chunk with
                           | VString d =>
                               _writeRaw host
                                 (VString (match _header s with Some h => h | None => "" end
                                           ++ d)%string) enc
                           | other =>
                               _writeRaw host
                                 (VString match _header s with Some h => h | None => "" end)
                                 EncUndefined ;;
                               _writeRaw host other enc
                           end)) s1))).
    { apply seq_maintains.
      - apply guards_kept_trans.
      - intros s2. destruct (_headerFields s);
          [apply emit_guards_kept | apply guards_kept_refl].
      - intros s2. destruct chunk; try apply _writeRaw_guards_kept;
          (apply seq_maintains;
           [apply guards_kept_trans | intros; apply _writeRaw_guards_kept
            | intros; apply _writeRaw_guards_kept]). }
    destruct H1 as (Hh & Hhs' & Hhb & Hwe). simpl.
    subst s1. simpl in *. repeat split; assumption.
Qed.

Lemma emit_bodiless ev s : bodiless s -> bodiless (snd (emit host ev s)).
Proof.
  intros [Hbody Hnull]. split.
  - destruct (emit_guards_kept ev s) as (_ & _ & H & _). congruence.
  - destruct (emit_fetchResponse ev s) as [H|(h & r & _ & _ & H & _ & _ & _ & Hr)].
    + now rewrite H.
    + rewrite H. simpl. auto.
Qed.

Lemma bodiless_fields s s' :
  bridge s' = bridge s -> (_hasBody s = false -> _hasBody s' = false) ->
  bodiless s -> bodiless s'.
Proof. intros Hb Hh [Hbody Hnull]. split; [auto | now rewrite Hb]. Qed.

Lemma headers_only_bodiless s s' : headers_only s s' -> bodiless s -> bodiless s'.
Proof. intros H. apply bodiless_fields; rewrite H; simpl; auto. Qed.

Lemma writeHead_bodiless code reason obj s :
  bodiless s -> bodiless (snd (writeHead code reason obj s)).
Proof.
  destruct (writeHead_frame code reason obj s) as (Hb & _ & Hh & _).
  now apply bodiless_fields.
Qed.

Lemma _writeRaw_bodiless chunk enc s :
  bodiless s -> bodiless (snd (_writeRaw host chunk enc s)).
Proof.
  intros H. unfold _writeRaw. apply emit_bodiless.
  revert H. apply bodiless_fields; simpl; auto.
Qed.

Lemma _send_bodiless chunk enc s :
  bodiless s -> bodiless (snd (_send host chunk enc s)).
Proof.
  intros H. unfold _send. destruct (_headerSent s); [now apply _writeRaw_bodiless|].
  apply seq_keeps.
  - intros s1 H1. destruct (_headerFields s); [now apply emit_bodiless | exact H1].
  - intros s1 H1. destruct chunk; try now apply _writeRaw_bodiless.
    all: apply seq_keeps; [| |exact H1]; intros; now apply _writeRaw_bodiless.
  - revert H. apply bodiless_fields; simpl; auto.
Qed.

(** No call gives a body to a message that expects none. *)
Lemma call_bodiless c s : bodiless s -> bodiless (snd (call host c s)).
Proof.
  intros H. destruct c; simpl.
  - revert H. apply headers_only_bodiless, setHeader_headers_only.
  - revert H. apply headers_only_bodiless, appendHeader_headers_only.
  - revert H. apply headers_only_bodiless, removeHeader_headers_only.
  - now apply writeHead_bodiless.
  - unfold writeContinue. apply seq_keeps; [| |exact H].
    + intros; now apply _writeRaw_bodiless.
    + intros s1. apply bodiless_fields; simpl; auto.
  - now apply _writeRaw_bodiless.
  - assert (Hwrite : bodiless
              (snd (((fun s => if truthy (_header s) then (Returned, s)
                               else _implicitHeader s) ;;
                     (fun s => if _hasBody s then _send host chunk enc s
                               else (Returned, s))) s))).
    { apply seq_keeps; [| |exact H].
      - intros s1 H1; destruct (truthy (_header s1));
          [exact H1 | now apply writeHead_bodiless].
      - intros s1 H1; destruct (_hasBody s1); [now apply _send_bodiless | exact H1]. }
    unfold write. destruct chunk; simpl; try exact H; exact Hwrite.
  - unfold end_. destruct (writableEnded s); [exact H|].
    apply seq_keeps; [| |exact H].
    + intros s1 H1; destruct (truthy (_header s1));
        [exact H1 | now apply writeHead_bodiless].
    + apply seq_keeps.
      * intros s1 H1. destruct (_headerSent s1); [exact H1 | now apply _send_bodiless].
      * intros s1 H1. apply emit_bodiless. revert H1.
        apply bodiless_fields; simpl; auto.
Qed.

Lemma run_bodiless cs : forall s, bodiless s -> bodiless (run host cs s).
Proof.
  induction cs as [|c cs IH]; intros s H; simpl; [exact H|].
  apply IH. now apply call_bodiless.
Qed.

Lemma pending_until_sent_fields s s' :
  bridge s' = bridge s -> _headerSent s' = _headerSent s ->
  (headersSent s = true -> headersSent s' = true) ->
  pending_until_sent s -> pending_until_sent s'.
Proof.
  intros Hb Hhs Hh [H2 H1]. split.
  - rewrite Hhs. auto.
  - rewrite Hhs, Hb. exact H1.
Qed.

Lemma headers_only_pending s s' :
  headers_only s s' -> pending_until_sent s -> pending_until_sent s'.
Proof.
  intros H. apply pending_until_sent_fields; rewrite H; simpl; auto.
Qed.

Lemma writeHead_pending code reason obj s :
  pending_until_sent s -> pending_until_sent (snd (writeHead code reason obj s)).
Proof.
  destruct (writeHead_frame code reason obj s) as (Hb & Hhs & _ & Hh).
  now apply pending_until_sent_fields.
Qed.

Lemma _writeRaw_pending chunk enc s :
  pending_until_sent s -> pending_until_sent (snd (_writeRaw host chunk enc s)).
Proof.
  destruct (_writeRaw_guards_kept chunk enc s) as (Hh & Hhs & _ & _).
  intros [H2 H1]. split.
  - rewrite Hhs. unfold headersSent in *. rewrite Hh. exact H2.
  - rewrite Hhs, _writeRaw_fetchResponse. exact H1.
Qed.

Lemma _send_pending chunk enc s :
  headersSent s = true -> pending_until_sent (snd (_send host chunk enc s)).
Proof.
  intros Hsent. destruct (_send_guards chunk enc s) as (Hh & _ & _ & Hhs).
  split.
  - intros _. unfold headersSent in *. rewrite Hh. exact Hsent.
  - rewrite Hhs. discriminate.
Qed.

(** The first step of [write] and of [end]: the headers are stored
    afterwards, unless [_implicitHeader] threw. *)
Lemma ensure_header_pending s :
  pending_until_sent s ->
  let step := if truthy (_header s) then (Returned, s) else _implicitHeader s in
  pending_until_sent (snd step)
  /\ (fst step = Returned -> headersSent (snd step) = true).
Proof.
  intros H. simpl. destruct (truthy (_header s)) eqn:Hsent; simpl.
  - now split.
  - unfold _implicitHeader. split; [now apply writeHead_pending|].
    destruct (writeHead _ _ _ s) as [[|err] s1] eqn:Hw; simpl; [|discriminate].
    intros _. eapply writeHead_sends_headers. exact Hw.
Qed.

Lemma call_pending c s :
  pending_until_sent s -> pending_until_sent (snd (call host c s)).
Proof.
  intros H. destruct c; simpl.
  - revert H. apply headers_only_pending, setHeader_headers_only.
  - revert H. apply headers_only_pending, appendHeader_headers_only.
  - revert H. apply headers_only_pending, removeHeader_headers_only.
  - now apply writeHead_pending.
  - unfold writeContinue. apply seq_keeps; [| |exact H].
    + intros; now apply _writeRaw_pending.
    + intros s1. apply pending_until_sent_fields; simpl; auto.
  - now apply _writeRaw_pending.
  - assert (Hwrite : pending_until_sent
              (snd (((fun s => if truthy (_header s) then (Returned, s)
                               else _implicitHeader s) ;;
                     (fun s => if _hasBody s then _send host chunk enc s
                               else (Returned, s))) s))).
    { unfold seq. destruct (ensure_header_pending s H) as [Hp Hs].
      destruct (if truthy (_header s) then (Returned, s) else _implicitHeader s)
        as [[|err] s1]; simpl in *; [|exact Hp].
      destruct (_hasBody s1); [apply _send_pending; auto | exact Hp]. }
    unfold write. destruct chunk; simpl; try exact H; exact Hwrite.
  - unfold end_. destruct (writableEnded s); [exact H|].
    unfold seq. destruct (ensure_header_pending s H) as [Hp Hs].
    destruct (if truthy (_header s) then (Returned, s) else _implicitHeader s)
      as [[|err] s1]; cbn [fst snd] in *; [|exact Hp].
    assert (Hp2 : pending_until_sent
              (snd (if _headerSent s1 then (Returned, s1)
                    else _send host (VString "") EncUndefined s1))).
    { destruct (_headerSent s1); [exact Hp | apply _send_pending; auto]. }
    destruct (if _headerSent s1 then (Returned, s1)
              else _send host (VString "") EncUndefined s1) as [[|err] s2];
      cbn [fst snd] in *; [|exact Hp2].
    destruct (emit_guards_kept Finish (set_writableEnded true s2)) as (Hh & Hhs & _ & _).
    destruct Hp2 as [H2 H1]. split.
    + rewrite Hhs. unfold headersSent in *. rewrite Hh. exact H2.
    + rewrite Hhs, emit_other_fetchResponse by discriminate. exact H1.
Qed.

Lemma new_pending r : pending_until_sent (FetchServerResponse_new host r).
Proof.
  unfold FetchServerResponse_new.
  destruct (method_is r "HEAD"); destruct (lt1 (httpVersionMajor r) || lt1 (httpVersionMinor r));
    split; simpl; auto; discriminate.
Qed.

Lemma run_pending cs : forall s, pending_until_sent s -> pending_until_sent (run host cs s).
Proof.
  induction cs as [|c cs IH]; intros s H; simpl; [exact H|].
  apply IH. now apply call_pending.
Qed.

Lemma noBodyStatus_ToInt32 code :
  (code = 204 \/ code = 304 \/ 100 <= code <= 199)%Z ->
  noBodyStatus (ToInt32 code) = true.
Proof.
  intros H. rewrite ToInt32_small by lia. unfold noBodyStatus.
  destruct H as [->|[->|H]]; try reflexivity.
  apply orb_true_iff. right. apply andb_true_iff. split; apply Z.leb_le; lia.
Qed.

(** X25. After a [writeHead] that returns, with status 204, 304 or one
    of 100..199, on a message reached by any calls: whatever calls
    follow, body writes included, the promise resolves only to a response
    with a null body.  Whether it resolves at all is the host's matter. *)
Theorem no_body_status_gives_null_body r cs0 code reason obj s1 cs resp :
  (code = 204 \/ code = 304 \/ 100 <= code <= 199)%Z ->
  writeHead code reason obj (run host cs0 (FetchServerResponse_new host r))
    = (Returned, s1) ->
  toFetchResponse (run host cs s1) = Fulfilled resp ->
  body resp = None.
Proof.
  intros Hcode Hw Hresp.
  set (s := run host cs0 (FetchServerResponse_new host r)) in *.
  assert (Hs : pending_until_sent s) by (apply run_pending, new_pending).
  destruct (writeHead_frame code reason obj s) as (Hb & Hhs & _ & _).
  rewrite Hw in Hb, Hhs. simpl in Hb, Hhs.
  apply writeHead_returned in Hw.
  destruct Hw as (message & pairs & Hsent & _ & _ & _ & _ & _ & _ & _ & _ & Hbody & _).
  rewrite noBodyStatus_ToInt32 in Hbody by exact Hcode.
  assert (Hbodiless : bodiless s1).
  { split; [exact Hbody|]. rewrite Hb.
    destruct Hs as [H2 H1].
    destruct (_headerSent s) eqn:Hsent'.
    - rewrite H2 in Hsent by reflexivity. discriminate.
    - now rewrite H1. }
  destruct (run_bodiless cs s1 Hbodiless) as [_ Hnull].
  unfold toFetchResponse in Hresp. rewrite Hresp in Hnull. exact Hnull.
Qed.

(** X1. A message built for a request whose method is already HEAD
    exposes no body, whatever is called on it: a response the promise is
    fulfilled with has a null body. *)
Theorem head_at_construction_gives_null_body r cs resp :
  method_is r "HEAD" = true ->
  toFetchResponse (run host cs (FetchServerResponse_new host r)) = Fulfilled resp ->
  body resp = None.
Proof.
  intros Hhead Hresp.
  assert (Hbodiless : bodiless (FetchServerResponse_new host r)).
  { unfold FetchServerResponse_new. rewrite Hhead.
    destruct (lt1 (httpVersionMajor r) || lt1 (httpVersionMinor r));
      split; simpl; auto. }
  destruct (run_bodiless cs _ Hbodiless) as [_ Hnull].
  unfold toFetchResponse in Hresp. rewrite Hresp in Hnull. exact Hnull.
Qed.

(** X2. The executor of the promise takes [resolve] only: in no state
    reachable from the constructor is [fetchResponse] rejected. *)
Theorem fetchResponse_never_rejected s :
  reachable host s -> not_rejected (fetchResponse (bridge s)).
Proof.
  induction 1 as [r|s ev _ IH|s s' _ IH Heq].
  - unfold FetchServerResponse_new. simpl. exact I.
  - destruct (emit_fetchResponse ev s) as [H|(h & r & _ & _ & H & _)];
      rewrite H; [exact IH | exact I].
  - now rewrite Heq.
Qed.

(** Without a header-sent event the promise stays pending, whatever
    else is delivered and whatever the listeners throw. *)
Lemma deliver_without_headersSent evs : forall s,
  Forall (fun ev => forall h, ev <> HeadersSent h) evs ->
  fetchResponse (bridge s) = Pending ->
  fetchResponse (bridge (deliver host evs s)) = Pending.
Proof.
  induction evs as [|ev evs IH]; intros s Hevs Hp; simpl; [exact Hp|].
  inversion Hevs as [|? ? Hev Hrest]; subst.
  apply IH; [exact Hrest|]. now rewrite emit_other_fetchResponse.
Qed.

(** ** Whole exchanges *)

Lemma slice_app h d : slice (String.length h) (h ++ d)%string = d.
Proof. induction h as [|c h IH]; simpl; [now destruct d | exact IH]. Qed.

Lemma slice_all h : slice (String.length h) h = EmptyString.
Proof. induction h as [|c h IH]; simpl; [reflexivity | exact IH]. Qed.

(** Index 0, text behind the header block: the block is cut off, the
    rest is converted as the payload alone would be. *)
Lemma dataFromDataWrittenEvent_first h d enc b s :
  writtenHeaderBytes s = String.length h ->
  payload_bytes host (VString d) enc = Some b ->
  dataFromDataWrittenEvent host
    {| index := 0; entry := {| data := VString (h ++ d)%string; encoding := enc |} |} s
  = Ok (VBytes b).
Proof.
  intros Hw Hb. unfold dataFromDataWrittenEvent. simpl.
  rewrite Hw, slice_app. simpl in Hb.
  destruct enc as [| |name]; [congruence | now rewrite Hb |].
  destruct (is_utf8 name); [congruence | now rewrite Hb].
Qed.

(** Index 0, the header block alone: nothing is left of it. *)
Lemma dataFromDataWrittenEvent_header h s :
  writtenHeaderBytes s = String.length h ->
  dataFromDataWrittenEvent host
    {| index := 0; entry := {| data := VString h; encoding := EncUndefined |} |} s
  = Ok (VBytes []).
Proof.
  intros Hw. unfold dataFromDataWrittenEvent. simpl. now rewrite Hw, slice_all.
Qed.

(** A later index: the payload is converted as it is. *)
Lemma dataFromDataWrittenEvent_later n chunk enc b s :
  1 <= n ->
  payload_bytes host chunk enc = Some b ->
  dataFromDataWrittenEvent host
    {| index := n; entry := {| data := chunk; encoding := enc |} |} s
  = Ok (VBytes b).
Proof.
  intros Hn Hb. unfold dataFromDataWrittenEvent. simpl.
  destruct n as [|n]; [lia|]. simpl.
  destruct chunk; simpl in Hb; try discriminate; [|congruence].
  destruct enc as [| |name]; [congruence | now rewrite Hb |].
  destruct (is_utf8 name); [congruence | now rewrite Hb].
Qed.

(** X3. At index 0 [dataFromDataWrittenEvent] takes a string only: it
    drops the first [writtenHeaderBytes] code units, the header block when
    the string starts with it, and encodes the rest; any other value is
    refused with ERR_INVALID_ARG_TYPE. *)
Theorem first_chunk_loses_header_prefix d other enc s :
  dataFromDataWrittenEvent host
    {| index := 0; entry := {| data := VString d; encoding := EncUndefined |} |} s
  = Ok (VBytes (TextEncoder_encode (slice (writtenHeaderBytes s) d)))
  /\ (forall h rest,
        d = (h ++ rest)%string -> writtenHeaderBytes s = String.length h ->
        slice (writtenHeaderBytes s) d = rest)
  /\ ((forall d', other <> VString d') ->
      dataFromDataWrittenEvent host
        {| index := 0; entry := {| data := other; encoding := enc |} |} s
      = Throw (ERR_INVALID_ARG_TYPE "packet.data" other)).
Proof.
  repeat apply conj.
  - reflexivity.
  - intros h rest -> ->. apply slice_app.
  - intros Hother. unfold dataFromDataWrittenEvent. simpl.
    destruct other; try reflexivity. now destruct (Hother s0).
Qed.

(** X4. [_implicitHeader] on a new message is [writeHead(200)]: it
    returns, and leaves status 200 with the reason OK in the status
    line ["HTTP/1.1 200 OK"]. *)
Theorem implicit_header_is_writeHead_200 r :
  statusCode (FetchServerResponse_new host r) = 200%Z
  /\ _implicitHeader (FetchServerResponse_new host r)
     = writeHead 200 (ReasonHeaders HUndefined) HUndefined (FetchServerResponse_new host r)
  /\ fst (_implicitHeader (FetchServerResponse_new host r)) = Returned
  /\ statusCode (snd (_implicitHeader (FetchServerResponse_new host r))) = 200%Z
  /\ statusMessage (snd (_implicitHeader (FetchServerResponse_new host r))) = Some "OK"
  /\ status_line 200 "OK" = ("HTTP/1.1 200 OK" ++ CRLF)%string.
Proof.
  unfold FetchServerResponse_new.
  destruct (method_is r "HEAD");
    destruct (lt1 (httpVersionMajor r) || lt1 (httpVersionMinor r));
    repeat apply conj; vm_compute; reflexivity.
Qed.

Lemma _send_first_text s h ev d enc b :
  stored s h ev -> accepted host ev true ->
  payload_bytes host (VString d) enc = Some b ->
  exists s', _send host (VString d) enc s = (Returned, s')
             /\ sent s h ev [VBytes b] 1 s'.
Proof.
  intros (Hh & Hhs & Hf & Hbody & Hn & Hb) [Hheaders Hinit] Hbytes.
  eexists. split; [|reflexivity].
  unfold _send. rewrite Hhs, Hh, Hf. unfold seq.
  rewrite (emit_headersSent_buffered ev _ []);
    [| simpl; rewrite Hb; reflexivity | exact Hbody | exact Hheaders | exact Hinit ].
  unfold _writeRaw. cbn [writtenEntries set_bridge set_writtenEntries
                         set_writtenHeaderBytes set_headerSent].
  rewrite Hn.
  rewrite (emit_dataWritten_streaming _ _ []
             (Fulfilled (response_of ev (Some 0))) [] (VBytes b));
    [reflexivity | reflexivity | now apply dataFromDataWrittenEvent_first].
Qed.

Lemma _send_first_binary s h ev bin enc :
  stored s h ev -> accepted host ev true ->
  exists s', _send host (VBytes bin) enc s = (Returned, s')
             /\ sent s h ev [VBytes []; VBytes bin] 2 s'.
Proof.
  intros (Hh & Hhs & Hf & Hbody & Hn & Hb) [Hheaders Hinit].
  eexists. split; [|reflexivity].
  unfold _send. rewrite Hhs, Hh, Hf. unfold seq.
  rewrite (emit_headersSent_buffered ev _ []);
    [| simpl; rewrite Hb; reflexivity | exact Hbody | exact Hheaders | exact Hinit ].
  unfold _writeRaw. cbn [writtenEntries set_bridge set_writtenEntries
                         set_writtenHeaderBytes set_headerSent].
  rewrite Hn.
  rewrite (emit_dataWritten_streaming _ _ []
             (Fulfilled (response_of ev (Some 0))) [] (VBytes []));
    [| reflexivity | now apply dataFromDataWrittenEvent_header].
  cbn [writtenEntries set_bridge set_writtenEntries].
  rewrite (emit_dataWritten_streaming _ _ []
             (Fulfilled (response_of ev (Some 0))) [VBytes []] (VBytes bin));
    [reflexivity | reflexivity | now apply dataFromDataWrittenEvent_later].
Qed.

(** A write to a message whose headers are out and whose body is open:
    one more chunk, one more entry. *)
Lemma write_streaming s h p q n chunk enc b :
  _header s = Some h -> truthy (Some h) = true ->
  _headerSent s = true -> _hasBody s = true -> writtenEntries s = n -> 1 <= n ->
  bridge s = Build_Bridge false [] false p [Build_Stream q false false true] ->
  payload_bytes host chunk enc = Some b ->
  call host (CallWrite chunk enc) s =
    (Returned,
     set_bridge
       (Build_Bridge false [] false p [Build_Stream (q ++ [VBytes b]) false false true])
       (set_writtenEntries (S n) s)).
Proof.
  intros Hh Htruthy Hhs Hbody Hn Hn1 Hb Hbytes.
  assert (Hsend : ((fun s => if truthy (_header s) then (Returned, s)
                           else _implicitHeader s) ;;
                   (fun s => if _hasBody s then _send host chunk enc s
                             else (Returned, s))) s
                  = (Returned,
                     set_bridge
                       (Build_Bridge false [] false p
                          [Build_Stream (q ++ [VBytes b]) false false true])
                       (set_writtenEntries (S n) s))).
  { unfold seq. rewrite Hh, Htruthy, Hbody. unfold _send. rewrite Hhs.
    unfold _writeRaw. rewrite Hn.
    rewrite (emit_dataWritten_streaming _ _ [] p q (VBytes b));
      [reflexivity | exact Hb | now apply dataFromDataWrittenEvent_later]. }
  simpl. unfold write.
  destruct chunk; simpl in Hbytes; try discriminate; exact Hsend.
Qed.

(** The finish signal on an open body: the stream is closed. *)
Lemma emit_finish_streaming s a p q :
  bridge s = Build_Bridge false a false p [Build_Stream q false false true] ->
  emit host Finish s =
    (Returned,
     set_bridge (Build_Bridge true a false p [Build_Stream q true true true]) s).
Proof.
  intros Hb. simpl. unfold seq, finishHandler, on_streams, upd_bridge. simpl.
  rewrite Hb. reflexivity.
Qed.

(** The first body write of a message whose header block is stored. *)
Lemma write_stored s h ev chunk enc b :
  stored s h ev -> truthy (Some h) = true -> accepted host ev true ->
  payload_bytes host chunk enc = Some b ->
  exists s',
    call host (CallWrite chunk enc) s = (Returned, s')
    /\ sent s h ev
         (match chunk with VString _ => [] | _ => [VBytes []] end ++ [VBytes b])
         (match chunk with VString _ => 1 | _ => 2 end) s'.
Proof.
  intros Hst Htruthy Hacc Hbytes.
  pose proof Hst as (Hh & _ & _ & Hbody & _).
  destruct chunk as [| |d|bin|]; simpl in Hbytes; try discriminate.
  - destruct (_send_first_text s h ev d enc b Hst Hacc Hbytes) as (s' & Hsend & Hsent).
    exists s'. split; [|exact Hsent].
    simpl. unfold write, seq. rewrite Hh, Htruthy, Hbody. exact Hsend.
  - destruct (_send_first_binary s h ev bin enc Hst Hacc) as (s' & Hsend & Hsent).
    exists s'. inversion Hbytes; subst b. split; [|exact Hsent].
    simpl. unfold write, seq. rewrite Hh, Htruthy, Hbody. exact Hsend.
Qed.

(** The first body write of a message in state OPEN. *)
Lemma write_open s s1 h ev chunk enc b :
  truthy (_header s) = false ->
  _implicitHeader s = (Returned, s1) ->
  stored s1 h ev -> accepted host ev true ->
  payload_bytes host chunk enc = Some b ->
  exists s',
    call host (CallWrite chunk enc) s = (Returned, s')
    /\ sent s1 h ev
         (match chunk with VString _ => [] | _ => [VBytes []] end ++ [VBytes b])
         (match chunk with VString _ => 1 | _ => 2 end) s'.
Proof.
  intros Hopen Himplicit Hst Hacc Hbytes.
  pose proof Hst as (Hh & _ & _ & Hbody & _).
  destruct chunk as [| |d|bin|]; simpl in Hbytes; try discriminate.
  - destruct (_send_first_text s1 h ev d enc b Hst Hacc Hbytes) as (s' & Hsend & Hsent).
    exists s'. split; [|exact Hsent].
    simpl. unfold write, seq. rewrite Hopen, Himplicit, Hbody. exact Hsend.
  - destruct (_send_first_binary s1 h ev bin enc Hst Hacc) as (s' & Hsend & Hsent).
    exists s'. inversion Hbytes; subst b. split; [|exact Hsent].
    simpl. unfold write, seq. rewrite Hopen, Himplicit, Hbody. exact Hsend.
Qed.

Lemma _implicitHeader_new r :
  method_is r "HEAD" = false ->
  exists s1,
    _implicitHeader (FetchServerResponse_new host r) = (Returned, s1)
    /\ stored s1 implicit_header implicit_event
    /\ statusCode s1 = 200%Z /\ statusMessage s1 = Some "OK"
    /\ writableEnded s1 = false.
Proof.
  intros Hmethod.
  exists (snd (_implicitHeader (FetchServerResponse_new host r))).
  unfold FetchServerResponse_new. rewrite Hmethod.
  destruct (lt1 (httpVersionMajor r) || lt1 (httpVersionMinor r));
    unfold stored; repeat apply conj; vm_compute; reflexivity.
Qed.

(** The later writes, one chunk each. *)
Lemma run_writes_streaming ws : forall bs s h p q n,
  _header s = Some h -> truthy (Some h) = true ->
  _headerSent s = true -> _hasBody s = true -> writtenEntries s = n -> 1 <= n ->
  bridge s = Build_Bridge false [] false p [Build_Stream q false false true] ->
  Forall2 (fun w b => payload_bytes host (fst w) (snd w) = Some b) ws bs ->
  let s' := run host (map (fun w => CallWrite (fst w) (snd w)) ws) s in
  bridge s' =
    Build_Bridge false [] false p [Build_Stream (q ++ map VBytes bs) false false true]
  /\ writtenEntries s' = n + List.length ws
  /\ statusCode s' = statusCode s /\ statusMessage s' = statusMessage s
  /\ _header s' = _header s /\ _headerSent s' = true
  /\ writtenHeaderBytes s' = writtenHeaderBytes s.
Proof.
  induction ws as [|[chunk enc] ws IH]; intros bs s h p q n Hh Ht Hhs Hbody Hn Hn1 Hb Hall.
  - inversion Hall; subst. simpl. rewrite app_nil_r, Nat.add_0_r. auto 10.
  - inversion Hall as [|? b ? bs' Hbytes Hrest]; subst. simpl in Hbytes.
    cbn [map run fst snd].
    rewrite (write_streaming s h p q (writtenEntries s) chunk enc b); auto.
    cbn [snd].
    destruct (IH bs' (set_bridge
                        (Build_Bridge false [] false p
                           [Build_Stream (q ++ [VBytes b]) false false true])
                        (set_writtenEntries (S (writtenEntries s)) s))
                h p (q ++ [VBytes b]) (S (writtenEntries s)))
      as (H1 & H2 & H3 & H4 & H5 & H6 & H7); auto; try lia.
    cbv zeta. rewrite H1, H2, H3, H4, H5, H6, H7. simpl.
    rewrite <- app_assoc. simpl. repeat split; auto; lia.
Qed.

(** C2. Body writes, text or binary, on a new message whose headers were
    not sent explicitly (the message is not for a HEAD request, and the
    host accepts a 200 response with a body): the headers go out
    implicitly with status 200 and reason OK, the promise is fulfilled
    with that response, and the body holds the bytes of the payloads in
    write order and nothing of the header block: chunk 0, the block
    followed by the first text payload, has lost its first
    [writtenHeaderBytes] units (before a binary payload the block is a
    chunk of its own, of which nothing is left). *)
Theorem implicit_headers_on_first_write r w ws b bs :
  method_is r "HEAD" = false ->
  Response_init_ok host true 200 "OK" = true ->
  Forall2 (fun w b => payload_bytes host (fst w) (snd w) = Some b) (w :: ws) (b :: bs) ->
  let s := run host (map (fun w => CallWrite (fst w) (snd w)) (w :: ws))
             (FetchServerResponse_new host r) in
  statusCode s = 200%Z /\ statusMessage s = Some "OK"
  /\ _header s = Some implicit_header /\ _headerSent s = true
  /\ writtenHeaderBytes s = String.length implicit_header
  /\ toFetchResponse s =
       Fulfilled {| status := 200; statusText := "OK"; headers := [];
                    body := Some 0 |}
  /\ streams (bridge s) =
       [{| queue := match fst w with VString _ => [] | _ => [VBytes []] end
                    ++ map VBytes (b :: bs);
           closed := false; s_finished := false; listening := true |}].
Proof.
  intros Hmethod Hinit Hall.
  inversion Hall as [|? ? ? ? Hbytes Hrest]; subst.
  destruct w as [chunk enc]. simpl in Hbytes.
  destruct (_implicitHeader_new r Hmethod) as (s1 & Himplicit & Hst & Hcode & Hmsg & _).
  assert (Hopen : truthy (_header (FetchServerResponse_new host r)) = false).
  { unfold FetchServerResponse_new.
    destruct (method_is r "HEAD");
      destruct (lt1 (httpVersionMajor r) || lt1 (httpVersionMinor r)); reflexivity. }
  assert (Hacc : accepted host implicit_event true) by (split; [reflexivity | exact Hinit]).
  destruct (write_open _ s1 implicit_header implicit_event chunk enc b
              Hopen Himplicit Hst Hacc Hbytes) as (s2 & Hcall & Hsent).
  cbv zeta. cbn [map run fst snd]. rewrite Hcall. cbn [snd].
  destruct Hst as (Hh & _ & _ & Hbody & _).
  unfold sent in Hsent. subst s2.
  destruct (run_writes_streaming ws bs
              (set_bridge
                 (Build_Bridge false [] false
                    (Fulfilled (response_of implicit_event (Some 0)))
                    [Build_Stream
                       (match chunk with VString _ => [] | _ => [VBytes []] end
                        ++ [VBytes b]) false false true])
                 (set_writtenEntries (match chunk with VString _ => 1 | _ => 2 end)
                    (set_writtenHeaderBytes (String.length implicit_header)
                       (set_headerSent true s1))))
              implicit_header
              (Fulfilled (response_of implicit_event (Some 0)))
              (match chunk with VString _ => [] | _ => [VBytes []] end ++ [VBytes b])
              (match chunk with VString _ => 1 | _ => 2 end))
    as (H1 & H2 & H3 & H4 & H5 & H6 & H7);
    try first [exact Hrest | reflexivity | (simpl; assumption)
               | (destruct chunk; simpl; lia)].
  unfold toFetchResponse. rewrite H1, H3, H4, H5, H6, H7. simpl.
  rewrite Hcode, Hmsg, Hh, <- app_assoc. repeat apply conj; reflexivity.
Qed.

(** C7. [writeHead(200, {"content-type": "text/plain"})], [write("hello")],
    [end()] on a new message (not for a HEAD request), on a host that
    accepts the header and a 200 response with a body: the promise is
    fulfilled with status 200, reason OK, the header content-type:
    text/plain and a body that is closed and holds one chunk, the five
    bytes of "hello" in UTF-8. *)
Theorem writeHead_write_end_hello r :
  method_is r "HEAD" = false ->
  Headers_append_ok host "content-type" "text/plain" = true ->
  Response_init_ok host true 200 "OK" = true ->
  let s :=
    run host
      [CallWriteHead 200 (ReasonHeaders (HObject [("content-type", "text/plain")]))
         HUndefined;
       CallWrite (VString "hello") EncUndefined;
       CallEnd]
      (FetchServerResponse_new host r) in
  toFetchResponse s =
    Fulfilled {| status := 200; statusText := "OK";
                 headers := [("content-type", "text/plain")]; body := Some 0 |}
  /\ streams (bridge s) =
       [{| queue := [VBytes [x68; x65; x6c; x6c; x6f]]; closed := true;
           s_finished := true; listening := true |}]
  /\ TextEncoder_encode "hello" = [x68; x65; x6c; x6c; x6f].
Proof.
  intros Hmethod Hheader Hinit.
  set (ev := {| e_statusCode := 200; e_statusMessage := "OK";
                e_headers := [("content-type", "text/plain")] |}).
  set (h := (status_line 200 "OK" ++ render_headers [("content-type", "text/plain")]
             ++ CRLF)%string).
  assert (H1 : exists s1,
             writeHead 200 (ReasonHeaders (HObject [("content-type", "text/plain")]))
               HUndefined (FetchServerResponse_new host r) = (Returned, s1)
             /\ stored s1 h ev /\ writableEnded s1 = false).
  { exists (snd (writeHead 200
                   (ReasonHeaders (HObject [("content-type", "text/plain")]))
                   HUndefined (FetchServerResponse_new host r))).
    unfold FetchServerResponse_new. rewrite Hmethod.
    destruct (lt1 (httpVersionMajor r) || lt1 (httpVersionMinor r));
      unfold stored; repeat apply conj; vm_compute; reflexivity. }
  destruct H1 as (s1 & Hw & Hst & Hended).
  assert (Hacc : accepted host ev true).
  { split; [simpl; rewrite Hheader; reflexivity | exact Hinit]. }
  destruct (write_stored s1 h ev (VString "hello") EncUndefined
              (TextEncoder_encode "hello") Hst eq_refl Hacc eq_refl)
    as (s2 & Hcall & Hsent).
  cbv zeta. cbn [run call]. rewrite Hw. cbn [snd].
  change (write host (VString "hello") EncUndefined s1)
    with (call host (CallWrite (VString "hello") EncUndefined) s1).
  rewrite Hcall. cbn [snd].
  destruct Hst as (Hh & _).
  unfold sent in Hsent.
  assert (Hend : end_ host s2 =
                 (Returned,
                  set_bridge
                    (Build_Bridge true [] false (Fulfilled (response_of ev (Some 0)))
                       [Build_Stream [VBytes (TextEncoder_encode "hello")] true true true])
                    (set_writableEnded true s2))).
  { assert (He : writableEnded s2 = false) by (rewrite Hsent; exact Hended).
    assert (Hh2 : truthy (_header s2) = true)
      by (rewrite Hsent; simpl; rewrite Hh; reflexivity).
    assert (Hhs2 : _headerSent s2 = true) by (rewrite Hsent; reflexivity).
    unfold end_, seq. rewrite He, Hh2, Hhs2.
    apply emit_finish_streaming. rewrite Hsent. reflexivity. }
  rewrite Hend. simpl. repeat split; reflexivity.
Qed.

(** ** [writeHead]: the status line *)

(** What [writeHead] has assigned once its two guards are passed,
    whether it returns or throws later. *)
Lemma writeHead_open code reason obj s :
  headersSent s = false -> (100 <= ToInt32 code <= 999)%Z ->
  statusCode (snd (writeHead code reason obj s)) = ToInt32 code
  /\ statusMessage (snd (writeHead code reason obj s))
     = Some (reason_phrase reason code s)
  /\ _expect_continue (snd (writeHead code reason obj s)) = _expect_continue s
  /\ _sent100 (snd (writeHead code reason obj s)) = _sent100 s
  /\ (fst (writeHead code reason obj s) = Returned ->
      shouldKeepAlive (snd (writeHead code reason obj s))
      = shouldKeepAlive s && negb (_expect_continue s && negb (_sent100 s)))
  /\ (forall err, fst (writeHead code reason obj s) = Thrown err ->
      _header (snd (writeHead code reason obj s)) = _header s
      /\ _headerFields (snd (writeHead code reason obj s)) = _headerFields s).
Proof.
  intros Hsent [Hlo Hhi]. unfold writeHead, headersSent in *. rewrite Hsent.
  replace ((ToInt32 code <? 100) || (ToInt32 code >? 999))%Z with false
    by (symmetry; apply orb_false_iff; rewrite Z.gtb_ltb, !Z.ltb_ge; lia).
  set (s1 := match reason with
             | ReasonString r => set_statusMessage (Some r) s
             | ReasonHeaders _ =>
                 if truthy (statusMessage s) then s
                 else set_statusMessage (Some (defaultStatusMessage (ToInt32 code))) s
             end).
  assert (Hs1 : s1 = set_statusMessage (Some (reason_phrase reason code s)) s).
  { subst s1. unfold reason_phrase. destruct reason as [r|h]; [reflexivity|].
    destruct (statusMessage s) as [[|c m]|] eqn:Hm; simpl; try reflexivity.
    destruct s; simpl in *; now subst. }
  set (message := reason_phrase reason code s) in *.
  clearbody message.
  destruct reason as [r|h]; simpl.
  all: fold s1; rewrite Hs1; clear s1 Hs1.
  all: unfold seq.
  all: match goal with
       | |- context [(if ?p then mergeHeaders ?o else ret) ?st] =>
           pose proof (mergeHeaders_headers_only o st) as Hfr;
           assert (Hm : headers_only st (snd ((if p then mergeHeaders o else ret) st)))
             by (destruct p; [exact Hfr | apply headers_only_refl]);
           clear Hfr;
           destruct ((if p then mergeHeaders o else ret) st) as [[|err] s3]
       end.
  all: simpl in Hm; unfold headers_only in Hm; rewrite Hm; simpl.
  all: try (repeat split; auto; discriminate).
  all: destruct (checkInvalidHeaderChar message); simpl;
       [repeat split; auto; discriminate|].
  all: unfold _storeHeader.
  all: match goal with
       | |- context [pairs_of_headers ?h] => destruct (pairs_of_headers h) as [pairs|]
       end.
  all: try destruct (existsb _ pairs).
  all: destruct (noBodyStatus (ToInt32 code)); simpl;
       destruct (_expect_continue s && negb (_sent100 s)); simpl;
       repeat split; auto; try discriminate;
       try (intros _; destruct (shouldKeepAlive s); reflexivity).
Qed.

(** With the headers sent or the status code out of range, [writeHead]
    changes nothing. *)
Lemma writeHead_closed code reason obj s :
  headersSent s = true \/ ~ (100 <= ToInt32 code <= 999)%Z ->
  snd (writeHead code reason obj s) = s
  /\ exists err, fst (writeHead code reason obj s) = Thrown err.
Proof.
  intros H. unfold writeHead, headersSent in *.
  destruct (truthy (_header s)); [simpl; eauto|].
  destruct H as [H|H]; [discriminate|].
  replace ((ToInt32 code <? 100) || (ToInt32 code >? 999))%Z with true; [simpl; eauto|].
  symmetry. apply orb_true_iff. rewrite Z.gtb_ltb, !Z.ltb_lt. lia.
Qed.

(** A [writeHead] that throws has stored no header block. *)
Lemma writeHead_thrown_header code reason obj s err :
  fst (writeHead code reason obj s) = Thrown err ->
  _header (snd (writeHead code reason obj s)) = _header s.
Proof.
  intros Herr.
  destruct (headersSent s) eqn:Hsent.
  - destruct (writeHead_closed code reason obj s) as [-> _]; auto.
  - destruct (Z_le_dec 100 (ToInt32 code)) as [Hlo|Hlo];
      [destruct (Z_le_dec (ToInt32 code) 999) as [Hhi|Hhi]|].
    + destruct (writeHead_open code reason obj s Hsent (conj Hlo Hhi))
        as (_ & _ & _ & _ & _ & H).
      now destruct (H err Herr).
    + destruct (writeHead_closed code reason obj s) as [-> _]; [right; lia | reflexivity].
    + destruct (writeHead_closed code reason obj s) as [-> _]; [right; lia | reflexivity].
Qed.

Lemma ToInt32_period x k : ToInt32 (x + 4294967296 * k) = ToInt32 x.
Proof.
  unfold ToInt32. now rewrite (Z.mul_comm 4294967296 k), Z_mod_plus_full.
Qed.

(** Past the range check, the status code counts through its coercion
    only. *)
Lemma writeHead_by_coercion c c' reason obj s :
  ToInt32 c = ToInt32 c' -> (100 <= ToInt32 c' <= 999)%Z ->
  writeHead c reason obj s = writeHead c' reason obj s.
Proof.
  intros Heq Hrange. unfold writeHead. rewrite Heq.
  destruct (truthy (_header s)); [reflexivity|].
  replace ((ToInt32 c' <? 100) || (ToInt32 c' >? 999))%Z with false; [reflexivity|].
  symmetry. apply orb_false_iff. rewrite Z.gtb_ltb, !Z.ltb_ge. lia.
Qed.

(** X5. [statusCode |= 0] (line 305): a status code counts modulo 2^32.
    Whenever the coerced code lies in 100..999, [writeHead] does with the
    code as passed, and with the code moved by any multiple of 2^32,
    exactly what it does with the coerced code. *)
Theorem writeHead_coerces_status_code code k reason obj s :
  (100 <= ToInt32 code <= 999)%Z ->
  writeHead code reason obj s = writeHead (ToInt32 code) reason obj s
  /\ writeHead (code + 4294967296 * k) reason obj s
     = writeHead (ToInt32 code) reason obj s.
Proof.
  intros Hrange.
  assert (Hidem : ToInt32 (ToInt32 code) = ToInt32 code)
    by (apply ToInt32_small; lia).
  split; apply writeHead_by_coercion.
  - now rewrite Hidem.
  - now rewrite Hidem.
  - now rewrite ToInt32_period, Hidem.
  - now rewrite Hidem.
Qed.

Lemma checkInvalidHeaderChar_app a b :
  checkInvalidHeaderChar (a ++ b)
  = checkInvalidHeaderChar a || checkInvalidHeaderChar b.
Proof.
  induction a as [|c a IH]; simpl; [reflexivity|].
  now rewrite IH, orb_assoc.
Qed.

(** X6. A reason phrase that holds, anywhere, a code unit outside the
    class of line 38 (a CR or an LF, for one) never gets into a header
    block: [writeHead] throws and stores nothing.  With the headers
    unsent, the status code in range and no header set before, the error
    is ERR_INVALID_CHAR for [statusMessage], and [statusCode] and
    [statusMessage] have been assigned all the same. *)
Theorem writeHead_refuses_reason_phrase code a c b obj s :
  field_vchar c = false ->
  (exists err, fst (writeHead code (ReasonString (a ++ String c b)) obj s) = Thrown err)
  /\ _header (snd (writeHead code (ReasonString (a ++ String c b)) obj s)) = _header s
  /\ (headersSent s = false -> (100 <= ToInt32 code <= 999)%Z -> kOutHeaders s = None ->
      writeHead code (ReasonString (a ++ String c b)) obj s
      = (Thrown (ERR_INVALID_CHAR "statusMessage"),
         set_statusCode (ToInt32 code)
           (set_statusMessage (Some (a ++ String c b)%string) s)))
  /\ field_vchar CR = false /\ field_vchar LF = false.
Proof.
  intros Hc.
  assert (Hbad : checkInvalidHeaderChar (a ++ String c b) = true).
  { rewrite checkInvalidHeaderChar_app. simpl. rewrite Hc. simpl.
    apply orb_true_r. }
  assert (Hthrown : exists err,
             fst (writeHead code (ReasonString (a ++ String c b)) obj s) = Thrown err).
  { destruct (writeHead code (ReasonString (a ++ String c b)) obj s)
      as [[|err] s'] eqn:Hw; [|simpl; eauto].
    apply writeHead_returned in Hw.
    destruct Hw as (message & pairs & _ & _ & -> & Hok & _). congruence. }
  split; [exact Hthrown|]. split.
  - destruct Hthrown as [err Herr]. eapply writeHead_thrown_header. exact Herr.
  - split; [|split; reflexivity].
    intros Hsent Hrange Hk. unfold writeHead, headersSent in *. rewrite Hsent.
    replace ((ToInt32 code <? 100) || (ToInt32 code >? 999))%Z with false
      by (symmetry; apply orb_false_iff; rewrite Z.gtb_ltb, !Z.ltb_ge; lia).
    simpl. rewrite Hk. unfold seq, ret. simpl. rewrite Hbad. reflexivity.
Qed.

(** X7. [statusMessage ||= ...] (line 315): a [writeHead] without a
    reason phrase keeps a [statusMessage] that is set, whatever the
    status code.  When it returns, the header block starts with the
    status line [HTTP/1.1], the code, that message, CR and LF, and the
    message is the reason of the header-sent event. *)
Theorem writeHead_keeps_statusMessage code h obj s m :
  statusMessage s = Some m -> m <> EmptyString ->
  statusMessage (snd (writeHead code (ReasonHeaders h) obj s)) = Some m
  /\ (forall s', writeHead code (ReasonHeaders h) obj s = (Returned, s') ->
      (exists rest,
         _header s' =
           Some ("HTTP/1.1 " ++ Number_toString (ToInt32 code) ++ " " ++ m
                 ++ String (ascii_of_nat 13) (String (ascii_of_nat 10) rest))%string)
      /\ (exists ev,
            _headerFields s' = Some ev
            /\ e_statusCode ev = ToInt32 code /\ e_statusMessage ev = m)).
Proof.
  intros Hm Hne.
  assert (Hphrase : reason_phrase (ReasonHeaders h) code s = m).
  { unfold reason_phrase. rewrite Hm. destruct m; [now destruct Hne | reflexivity]. }
  split.
  - destruct (headersSent s) eqn:Hsent.
    { destruct (writeHead_closed code (ReasonHeaders h) obj s) as [-> _]; auto. }
    destruct (Z_le_dec 100 (ToInt32 code)) as [Hlo|Hlo];
      [destruct (Z_le_dec (ToInt32 code) 999) as [Hhi|Hhi]|].
    + destruct (writeHead_open code (ReasonHeaders h) obj s Hsent (conj Hlo Hhi))
        as (_ & H & _).
      now rewrite H, Hphrase.
    + destruct (writeHead_closed code (ReasonHeaders h) obj s) as [-> _];
        [right; lia | exact Hm].
    + destruct (writeHead_closed code (ReasonHeaders h) obj s) as [-> _];
        [right; lia | exact Hm].
  - intros s' Hw. apply writeHead_returned in Hw.
    destruct Hw as (message & pairs & _ & _ & Hmsg & _ & _ & _ & Hheader & _ & Hfields & _).
    fold (reason_phrase (ReasonHeaders h) code s) in Hmsg. rewrite Hphrase in Hmsg.
    subst message. split.
    + eexists. rewrite Hheader, status_line_head. reflexivity.
    + eexists. split; [exact Hfields | split; reflexivity].
Qed.

(** X8. A [writeHead] refused for its reason phrase has assigned the
    phrase to [statusMessage] before throwing, and line 315 keeps what
    is set: from then on every [writeHead] without a reason phrase,
    [_implicitHeader] included, throws as well, and no header block is
    ever stored that way. *)
Theorem rejected_reason_phrase_sticks code r obj s code' h obj' :
  headersSent s = false -> (100 <= ToInt32 code <= 999)%Z ->
  checkInvalidHeaderChar r = true ->
  statusMessage (snd (writeHead code (ReasonString r) obj s)) = Some r
  /\ (exists err,
        fst (writeHead code' (ReasonHeaders h) obj'
               (snd (writeHead code (ReasonString r) obj s))) = Thrown err)
  /\ (exists err,
        fst (_implicitHeader (snd (writeHead code (ReasonString r) obj s))) = Thrown err)
  /\ headersSent (snd (_implicitHeader (snd (writeHead code (ReasonString r) obj s))))
     = false.
Proof.
  intros Hsent Hrange Hbad.
  destruct (writeHead_open code (ReasonString r) obj s Hsent Hrange)
    as (_ & Hmsg & _). simpl in Hmsg.
  assert (Hfirst : exists err, fst (writeHead code (ReasonString r) obj s) = Thrown err).
  { destruct (writeHead code (ReasonString r) obj s) as [[|err] s0] eqn:Hw; [|simpl; eauto].
    apply writeHead_returned in Hw.
    destruct Hw as (message & pairs & _ & _ & -> & Hok & _). congruence. }
  destruct Hfirst as [err1 Herr1].
  pose proof (writeHead_thrown_header _ _ _ _ _ Herr1) as Hheader.
  set (s1 := snd (writeHead code (ReasonString r) obj s)) in *.
  assert (Hne : truthy (statusMessage s1) = true).
  { rewrite Hmsg. destruct r; [discriminate | reflexivity]. }
  assert (Hagain : forall c hh oo,
             exists err, fst (writeHead c (ReasonHeaders hh) oo s1) = Thrown err).
  { intros c hh oo.
    destruct (writeHead c (ReasonHeaders hh) oo s1) as [[|err] s2] eqn:Hw; [|simpl; eauto].
    apply writeHead_returned in Hw.
    destruct Hw as (message & pairs & _ & _ & Hm & Hok & _).
    rewrite Hne, Hmsg in Hm. subst message. congruence. }
  split; [exact Hmsg|]. split; [apply Hagain|].
  unfold _implicitHeader. split; [apply Hagain|].
  destruct (Hagain (statusCode s1) HUndefined HUndefined) as [err Herr].
  unfold headersSent in *.
  rewrite (writeHead_thrown_header _ _ _ _ _ Herr), Hheader. exact Hsent.
Qed.

(** X9. With header fields set before (the slow case, lines 321-327), a
    flat array of odd length makes [writeHead] throw
    ERR_INVALID_ARG_VALUE before it touches a header: the header store
    and the header block are as before, [statusCode] and [statusMessage]
    are assigned already. *)
Theorem writeHead_odd_header_array code reason obj items o s :
  headersSent s = false -> (100 <= ToInt32 code <= 999)%Z ->
  kOutHeaders s = Some o ->
  headers_argument reason obj = HArray items ->
  Nat.even (List.length items) = false ->
  writeHead code reason obj s
  = (Thrown (ERR_INVALID_ARG_VALUE "headers"),
     set_statusCode (ToInt32 code)
       (set_statusMessage (Some (reason_phrase reason code s)) s)).
Proof.
  intros Hsent Hrange Hk Hobj Hodd. unfold writeHead, headersSent in *. rewrite Hsent.
  replace ((ToInt32 code <? 100) || (ToInt32 code >? 999))%Z with false
    by (symmetry; apply orb_false_iff; rewrite Z.gtb_ltb, !Z.ltb_ge; lia).
  set (s1 := match reason with
             | ReasonString r => set_statusMessage (Some r) s
             | ReasonHeaders _ =>
                 if truthy (statusMessage s) then s
                 else set_statusMessage (Some (defaultStatusMessage (ToInt32 code))) s
             end).
  assert (Hs1 : s1 = set_statusMessage (Some (reason_phrase reason code s)) s).
  { subst s1. unfold reason_phrase. destruct reason as [r|h]; [reflexivity|].
    destruct (statusMessage s) as [[|c m]|] eqn:Hm; simpl; try reflexivity.
    destruct s; simpl in *; now subst. }
  set (message := reason_phrase reason code s) in *. clearbody message.
  destruct reason as [r|h]; simpl in *.
  - fold s1. rewrite Hs1. simpl. rewrite Hk. subst obj. unfold seq. simpl.
    rewrite Hodd. reflexivity.
  - fold s1. rewrite Hs1. simpl. rewrite Hk.
    replace (match obj with HUndefined => h | _ => obj end) with (HArray items)
      by (destruct obj; congruence).
    unfold seq. simpl. rewrite Hodd. reflexivity.
Qed.

(** X10. [writeHead] never gives a message a body it did not expect,
    and takes the body away exactly for the coerced status codes 204,
    304 and 100..199: after a [writeHead] that returns, [_hasBody] holds
    if and only if it held before and the code is none of those. *)
Theorem writeHead_hasBody code reason obj s s' :
  writeHead code reason obj s = (Returned, s') ->
  (_hasBody s' = true <->
   _hasBody s = true /\ ToInt32 code <> 204%Z /\ ToInt32 code <> 304%Z
   /\ (200 <= ToInt32 code)%Z).
Proof.
  intros Hw. apply writeHead_returned in Hw.
  destruct Hw as (message & pairs & _ & Hrange & _ & _ & _ & _ & _ & _ & _ & Hbody & _).
  rewrite Hbody. unfold noBodyStatus.
  destruct (Z.eqb_spec (ToInt32 code) 204) as [H204|H204];
    [simpl; split; [discriminate | lia]|].
  destruct (Z.eqb_spec (ToInt32 code) 304) as [H304|H304];
    [simpl; split; [discriminate | lia]|].
  simpl.
  destruct (Z.leb_spec 100 (ToInt32 code)); [|lia].
  destruct (Z.leb_spec (ToInt32 code) 199); simpl.
  - split; [discriminate | lia].
  - split; [intros Hb; repeat split; auto; lia | now intros [Hb _]].
Qed.

(** What a [writeHead] that returns has done to the connection flags. *)
Lemma writeHead_returned_flags code reason obj s s' :
  writeHead code reason obj s = (Returned, s') ->
  shouldKeepAlive s'
  = (if _expect_continue s && negb (_sent100 s) then false else shouldKeepAlive s)
  /\ _expect_continue s' = _expect_continue s
  /\ _sent100 s' = _sent100 s.
Proof.
  intros Hw. pose proof Hw as Hret. apply writeHead_returned in Hret.
  destruct Hret as (message & pairs & Hsent & Hrange & _).
  destruct (writeHead_open code reason obj s Hsent Hrange)
    as (_ & _ & Hexpect & H100 & Hkeep & _).
  rewrite Hw in *. simpl in *. rewrite (Hkeep eq_refl).
  split; [|split; assumption].
  destruct (_expect_continue s && negb (_sent100 s)); simpl;
    [apply andb_false_r | apply andb_true_r].
Qed.

(** X11. Lines 386-390: a [writeHead] that returns clears
    [shouldKeepAlive] when the client expects 100 Continue and none was
    sent, and in no other case changes it; the two flags it reads are
    left as they were. *)
Theorem writeHead_shouldKeepAlive code reason obj s s' :
  writeHead code reason obj s = (Returned, s') ->
  (_expect_continue s = true -> _sent100 s = false -> shouldKeepAlive s' = false)
  /\ (_expect_continue s = false \/ _sent100 s = true ->
      shouldKeepAlive s' = shouldKeepAlive s)
  /\ _expect_continue s' = _expect_continue s
  /\ _sent100 s' = _sent100 s.
Proof.
  intros Hw. destruct (writeHead_returned_flags _ _ _ _ _ Hw) as (Hkeep & He & H100).
  repeat apply conj; try assumption.
  - intros H1 H2. now rewrite Hkeep, H1, H2.
  - intros [H|H]; rewrite Hkeep, H; [reflexivity|].
    now rewrite andb_false_r.
Qed.

(** The raw write of the superclass changes the write counter and the
    bridge at most. *)
Lemma _writeRaw_fields chunk enc s :
  snd (_writeRaw host chunk enc s)
  = set_bridge (bridge (snd (_writeRaw host chunk enc s)))
      (set_writtenEntries (S (writtenEntries s)) s).
Proof. unfold _writeRaw. apply emit_bridge_only. Qed.

(** X12. [writeContinue] before [writeHead] (lines 248-251 and 386-390),
    with the raw write of the superclass as the specification describes
    it: once [writeContinue] has returned, [_sent100] is set, and the
    [writeHead] that follows leaves [shouldKeepAlive] as it was before
    both, also for a client that expects 100 Continue. *)
Theorem writeContinue_keeps_connection_alive code reason obj s s1 s2 :
  writeContinue host s = (Returned, s1) ->
  writeHead code reason obj s1 = (Returned, s2) ->
  _sent100 s1 = true
  /\ shouldKeepAlive s2 = shouldKeepAlive s
  /\ _sent100 s2 = true.
Proof.
  intros Hc Hw. unfold writeContinue, seq in Hc.
  pose proof (_writeRaw_fields
                (VString ("HTTP/1.1 100 Continue" ++ CRLF ++ CRLF)%string)
                (EncName "ascii") s) as Hraw.
  destruct (_writeRaw host _ _ s) as [[|err] s0]; [|discriminate].
  simpl in Hraw. inversion Hc; subst s1; clear Hc.
  destruct (writeHead_returned_flags _ _ _ _ _ Hw) as (Hkeep & _ & H100).
  simpl in *. rewrite andb_false_r in Hkeep.
  split; [reflexivity|]. split; [|exact H100].
  rewrite Hkeep, Hraw. reflexivity.
Qed.

(** ** The table of reason phrases *)

(** Every entry of [STATUS_CODES] has a key from 100 to 511 and a phrase
    that is not empty and passes [checkInvalidHeaderChar]. *)
Lemma STATUS_CODES_entry code phrase :
  STATUS_CODES code = Some phrase ->
  (100 <= code <= 511)%Z /\ phrase <> EmptyString
  /\ checkInvalidHeaderChar phrase = false.
Proof.
  destruct code as [|p|p]; try discriminate.
  do 10 (try (destruct p as [p|p|]; try discriminate)).
  all: intros H; inversion H; subst phrase; clear H.
  all: split; [lia|]; split; [discriminate | reflexivity].
Qed.

(** X13. The reason phrase [writeHead] falls back on,
    [STATUS_CODES[statusCode] || "unknown"], is never empty and never
    fails the check of line 362, whatever the status code; the table has
    entries for codes from 100 to 511 only, none of them empty. *)
Theorem default_reason_phrase_is_valid code :
  checkInvalidHeaderChar (defaultStatusMessage code) = false
  /\ defaultStatusMessage code <> EmptyString
  /\ (forall phrase,
        STATUS_CODES code = Some phrase ->
        (100 <= code <= 511)%Z /\ phrase <> EmptyString
        /\ defaultStatusMessage code = phrase)
  /\ (STATUS_CODES code = None -> defaultStatusMessage code = "unknown").
Proof.
  unfold defaultStatusMessage.
  destruct (STATUS_CODES code) as [phrase|] eqn:Hcode.
  - destruct (STATUS_CODES_entry code phrase Hcode) as (Hrange & Hne & Hok).
    repeat apply conj; try assumption.
    + intros p Hp. inversion Hp; subst p. auto.
    + discriminate.
  - repeat apply conj; try reflexivity; discriminate.
Qed.

(** ** [dataFromDataWrittenEvent]: what it hands on *)

(** X14. Whatever [dataFromDataWrittenEvent] returns is binary, with one
    exception: the type of the data is checked at index 0 only, so a
    number at a later index is handed on as it is.  At a later index
    binary data passes unchanged whatever the encoding says, and missing
    data ([undefined] or [null]) becomes an empty buffer; only index 0
    reads the message. *)
Theorem dataFromDataWrittenEvent_result e s :
  (forall v, dataFromDataWrittenEvent host e s = Ok v ->
     (exists b, v = VBytes b)
     \/ (exists n, index e <> 0 /\ data (entry e) = VNumber n /\ v = VNumber n))
  /\ (index e <> 0 -> forall b, data (entry e) = VBytes b ->
      dataFromDataWrittenEvent host e s = Ok (VBytes b))
  /\ (index e <> 0 -> data (entry e) = VUndefined \/ data (entry e) = VNull ->
      dataFromDataWrittenEvent host e s = Ok (VBytes []))
  /\ (index e <> 0 -> forall s',
      dataFromDataWrittenEvent host e s' = dataFromDataWrittenEvent host e s).
Proof.
  unfold dataFromDataWrittenEvent.
  destruct (Nat.eqb_spec (index e) 0) as [H0|H0].
  - repeat apply conj; try (intros H; now destruct H).
    intros v. destruct (data (entry e)); try discriminate.
    destruct (encoding (entry e)) as [| |name];
      [|destruct (Buffer_from host _ None)
       |destruct (is_utf8 name); [|destruct (Buffer_from host _ (Some name))]];
      intros H; inversion H; eauto.
  - repeat apply conj.
    + intros v. destruct (data (entry e)) eqn:Hd;
        try (intros H; inversion H; eauto; fail).
      destruct (encoding (entry e)) as [| |name];
        [|destruct (Buffer_from host _ None)
         |destruct (is_utf8 name); [|destruct (Buffer_from host _ (Some name))]];
        intros H; inversion H; eauto.
    + intros _ b ->. reflexivity.
    + intros _ [-> | ->]; reflexivity.
    + intros _ s'. reflexivity.
Qed.

(** ** The promise and the streams *)

(** X15. The promise is settled once: when it is fulfilled, no event,
    a second header-sent event included, changes the response it was
    fulfilled with. *)
Theorem fetchResponse_settles_once evs : forall s r,
  toFetchResponse s = Fulfilled r ->
  toFetchResponse (deliver host evs s) = Fulfilled r.
Proof.
  unfold toFetchResponse.
  induction evs as [|ev evs IH]; intros s r Hr; simpl; [exact Hr|].
  apply IH.
  destruct (emit_fetchResponse ev s) as [H|(h & r' & _ & Hp & _)];
    [now rewrite H | congruence].
Qed.

(** X16. The header-sent event on a pending promise, when the host takes
    the headers and builds the response: [emit] returns, the buffering
    listener is unsubscribed, and the promise is fulfilled with the
    status, the reason and the header pairs of the event.  A message
    without a body gets a null body and no stream.  One with a body gets
    one new stream: it holds the chunks buffered so far, and it is
    created closed and without listeners exactly when the finish signal
    has fired before. *)
Theorem headersSent_fulfils h s :
  toFetchResponse s = Pending ->
  accepted host h (_hasBody s) ->
  fst (emit host (HeadersSent h) s) = Returned
  /\ listening_initial (bridge (snd (emit host (HeadersSent h) s))) = false
  /\ (exists r,
        toFetchResponse (snd (emit host (HeadersSent h) s)) = Fulfilled r
        /\ status r = e_statusCode h /\ statusText r = e_statusMessage h
        /\ headers r = e_headers h
        /\ body r = if _hasBody s then Some (List.length (streams (bridge s)))
                    else None)
  /\ (_hasBody s = false ->
      streams (bridge (snd (emit host (HeadersSent h) s))) = streams (bridge s))
  /\ (_hasBody s = true ->
      exists st,
        streams (bridge (snd (emit host (HeadersSent h) s)))
        = streams (bridge s) ++ [st]
        /\ queue st = initialDataChunks (bridge s)
        /\ closed st = finished (bridge s)
        /\ listening st = negb (finished (bridge s))).
Proof.
  unfold toFetchResponse. intros Hp [Hheaders Hinit]. simpl.
  unfold headersSentHandler, _toFetchResponse, upd_bridge. simpl.
  rewrite Hheaders. simpl.
  destruct (_hasBody s) eqn:Hbody; simpl; rewrite Hinit; simpl; rewrite Hp; simpl.
  - repeat apply conj; try reflexivity; try discriminate.
    + eexists. repeat split; reflexivity.
    + intros _. eexists. split; [reflexivity|].
      unfold new_stream. destruct (finished (bridge s)); simpl; repeat split.
  - repeat apply conj; try reflexivity; try discriminate.
    eexists. repeat split; reflexivity.
Qed.

(** X17. The header-sent event when the host refuses a header pair or
    the response ([Headers.append] or [new Response] throws): [emit]
    throws the host's error, the promise is left as it was, and the
    buffering listener is unsubscribed all the same.  A promise that was
    pending stays pending through every later event but another
    header-sent event. *)
Theorem headersSent_refused h s :
  forallb (fun hv => Headers_append_ok host (fst hv) (snd hv)) (e_headers h) = false
  \/ Response_init_ok host (_hasBody s) (e_statusCode h) (e_statusMessage h) = false ->
  (exists api, fst (emit host (HeadersSent h) s) = Thrown (HostError api))
  /\ toFetchResponse (snd (emit host (HeadersSent h) s)) = toFetchResponse s
  /\ listening_initial (bridge (snd (emit host (HeadersSent h) s))) = false
  /\ initialDataChunks (bridge (snd (emit host (HeadersSent h) s)))
     = initialDataChunks (bridge s)
  /\ (toFetchResponse s = Pending ->
      forall evs,
        Forall (fun ev => forall h', ev <> HeadersSent h') evs ->
        toFetchResponse (deliver host evs (snd (emit host (HeadersSent h) s)))
        = Pending).
Proof.
  intros Hrefused.
  assert (Hmain :
    (exists api, fst (emit host (HeadersSent h) s) = Thrown (HostError api))
    /\ toFetchResponse (snd (emit host (HeadersSent h) s)) = toFetchResponse s
    /\ listening_initial (bridge (snd (emit host (HeadersSent h) s))) = false
    /\ initialDataChunks (bridge (snd (emit host (HeadersSent h) s)))
       = initialDataChunks (bridge s)).
  { unfold toFetchResponse. simpl.
    unfold headersSentHandler, _toFetchResponse, upd_bridge. simpl.
    destruct (forallb _ (e_headers h)) eqn:Hheaders; simpl.
    - destruct Hrefused as [Hr|Hr]; [discriminate|].
      destruct (_hasBody s); simpl; rewrite Hr; simpl; eauto 10.
    - eauto 10. }
  destruct Hmain as (H1 & H2 & H3 & H4).
  repeat apply conj; try assumption.
  intros Hp evs Hevs. unfold toFetchResponse in *.
  apply deliver_without_headersSent; [exact Hevs | now rewrite H2].
Qed.

(** ** The streams follow the finish signal *)

Lemma stream_follows_new chunks fin : stream_follows fin (new_stream chunks fin).
Proof. unfold new_stream, stream_follows. destruct fin; simpl; auto. Qed.

(** Before the finish signal every stream listens and is open: the
    signal closes them all, and no [close()] throws. *)
Lemma each_stream_first_finish l :
  Forall (stream_follows false) l ->
  each_stream streamFinishHandler l = (Returned, map close l)
  /\ Forall (stream_follows true) (map close l).
Proof.
  induction l as [|st rest IH]; intros Hl; simpl; [split; [reflexivity | constructor]|].
  inversion Hl as [|? ? Hst Hrest]; subst.
  destruct (IH Hrest) as [Heach Hfollows]. rewrite Heach.
  unfold streamFinishHandler, stream_follows, close in *.
  destruct (listening st) eqn:Hlis.
  - destruct Hst as [Hclosed _]. rewrite Hclosed. split; [reflexivity|].
    constructor; [simpl; auto | exact Hfollows].
  - destruct Hst as [_ Hfin]. discriminate.
Qed.

Lemma each_stream_later_finish l :
  Forall (stream_follows true) l ->
  Forall (stream_follows true) (snd (each_stream streamFinishHandler l)).
Proof.
  induction l as [|st rest IH]; intros Hl; simpl; [constructor|].
  inversion Hl as [|? ? Hst Hrest]; subst. specialize (IH Hrest).
  unfold streamFinishHandler at 1.
  destruct (listening st) eqn:Hlis.
  - destruct (closed st) eqn:Hclosed; simpl.
    + constructor; [|exact Hrest]. unfold stream_follows. simpl. auto.
    + destruct (each_stream streamFinishHandler rest) as [o rest']. simpl in *.
      constructor; [|exact IH]. unfold stream_follows. simpl. auto.
  - destruct (each_stream streamFinishHandler rest) as [o rest']. simpl in *.
    constructor; assumption.
Qed.

(** Before the finish signal a chunk is enqueued on every stream. *)
Lemma each_stream_open_dataWritten e s chunk l :
  dataFromDataWrittenEvent host e s = Ok chunk ->
  Forall (stream_follows false) l ->
  each_stream (streamDataWrittenHandler host e s) l = (Returned, map (enqueue chunk) l)
  /\ Forall (stream_follows false) (map (enqueue chunk) l).
Proof.
  intros Hchunk.
  induction l as [|st rest IH]; intros Hl; simpl; [split; [reflexivity | constructor]|].
  inversion Hl as [|? ? Hst Hrest]; subst.
  destruct (IH Hrest) as [Heach Hfollows]. rewrite Heach.
  unfold streamDataWrittenHandler, stream_follows, enqueue in *.
  destruct (listening st) eqn:Hlis.
  - destruct Hst as [Hclosed Hfin]. rewrite Hfin, Hchunk, Hclosed.
    split; [reflexivity|].
    constructor; [simpl; auto | exact Hfollows].
  - destruct Hst as [_ Hfin]. discriminate.
Qed.

Lemma each_stream_dataWritten_follows fin e s l :
  Forall (stream_follows fin) l ->
  Forall (stream_follows fin) (snd (each_stream (streamDataWrittenHandler host e s) l)).
Proof.
  induction l as [|st rest IH]; intros Hl; simpl; [constructor|].
  inversion Hl as [|? ? Hst Hrest]; subst. specialize (IH Hrest).
  assert (Hst' : stream_follows fin (snd (streamDataWrittenHandler host e s st))).
  { unfold streamDataWrittenHandler.
    destruct (listening st) eqn:Hlis; [|exact Hst].
    destruct (s_finished st) eqn:Hfin; [exact Hst|].
    destruct (dataFromDataWrittenEvent host e s); [|exact Hst].
    destruct (closed st) eqn:Hclosed; [exact Hst|]. simpl.
    unfold stream_follows in *. rewrite Hlis in Hst. simpl.
    rewrite Hclosed, Hfin in Hst. exact Hst. }
  destruct (streamDataWrittenHandler host e s st) as [[|err] st']; simpl in *.
  - destruct (each_stream (streamDataWrittenHandler host e s) rest) as [o rest'].
    simpl in *. constructor; assumption.
  - constructor; assumption.
Qed.

Lemma emit_bridge_follows ev s :
  bridge_follows (bridge s) -> bridge_follows (bridge (snd (emit host ev s))).
Proof.
  unfold bridge_follows. intros Hok. destruct ev as [|e|e]; simpl.
  - unfold seq, finishHandler, on_streams. simpl.
    destruct (finished (bridge s)) eqn:Hfin.
    + pose proof (each_stream_later_finish _ Hok) as H.
      destruct (each_stream streamFinishHandler (streams (bridge s))) as [o l].
      simpl in *. exact H.
    + destruct (each_stream_first_finish _ Hok) as [Heach H].
      rewrite Heach. simpl. exact H.
  - unfold seq.
    pose proof (initial_listener_keeps e s) as Hini.
    destruct (if listening_initial (bridge s) then initialDataWrittenHandler host e s
              else (Returned, s)) as [[|err] s1]; simpl in Hini;
      destruct Hini as (Hfin & Hstr & _).
    + unfold on_streams.
      pose proof (each_stream_dataWritten_follows (finished (bridge s)) e s1
                    (streams (bridge s1))) as H.
      rewrite Hstr in H. specialize (H Hok). rewrite Hstr.
      destruct (each_stream _ (streams (bridge s))) as [o l]. simpl in *.
      rewrite Hfin. exact H.
    + simpl. rewrite Hfin, Hstr. exact Hok.
  - unfold headersSentHandler, _toFetchResponse.
    destruct (negb (forallb _ (e_headers e))); simpl; [exact Hok|].
    destruct (_hasBody s); simpl.
    + destruct (Response_init_ok host true _ _); simpl;
        (apply Forall_app; split;
         [exact Hok | constructor; [apply stream_follows_new | constructor]]).
    + destruct (Response_init_ok host false _ _); simpl; exact Hok.
Qed.

Lemma reachable_bridge_follows s : reachable host s -> bridge_follows (bridge s).
Proof.
  induction 1 as [r|s ev _ IH|s s' _ IH Heq].
  - unfold FetchServerResponse_new, bridge_follows. simpl. constructor.
  - now apply emit_bridge_follows.
  - now rewrite Heq.
Qed.

(** X18. The first finish signal, in any state reached from the
    constructor (the streams being closed by these listeners only):
    [emit] returns (no [controller.close()] throws), [finished] is set,
    every stream created so far is closed with its queue as it was, and
    the promise is not touched. *)
Theorem first_finish_closes_every_stream s :
  reachable host s ->
  finished (bridge s) = false ->
  fst (emit host Finish s) = Returned
  /\ finished (bridge (snd (emit host Finish s))) = true
  /\ streams (bridge (snd (emit host Finish s))) = map close (streams (bridge s))
  /\ Forall (fun st => closed st = true) (streams (bridge (snd (emit host Finish s))))
  /\ map queue (streams (bridge (snd (emit host Finish s))))
     = map queue (streams (bridge s))
  /\ toFetchResponse (snd (emit host Finish s)) = toFetchResponse s.
Proof.
  intros Hreach Hfin.
  pose proof (reachable_bridge_follows s Hreach) as Hok.
  unfold bridge_follows in Hok. rewrite Hfin in Hok.
  destruct (each_stream_first_finish _ Hok) as [Heach _].
  unfold toFetchResponse. simpl. unfold seq, finishHandler, on_streams. simpl.
  rewrite Heach. simpl.
  repeat apply conj; try reflexivity.
  - apply Forall_forall. intros st Hin. apply in_map_iff in Hin.
    destruct Hin as (st0 & <- & _). reflexivity.
  - rewrite map_map. reflexivity.
Qed.

(** X19. A data-written event before the finish signal, in any state
    reached from the constructor, when the chunk can be materialized:
    [emit] returns, the chunk is enqueued on every stream created so
    far, and it is stored at its index in the array of initial chunks as
    long as the buffering listener is subscribed, that is, until the
    header-sent event. *)
Theorem dataWritten_reaches_every_stream e chunk s :
  reachable host s ->
  finished (bridge s) = false ->
  dataFromDataWrittenEvent host e s = Ok chunk ->
  fst (emit host (DataWritten e) s) = Returned
  /\ streams (bridge (snd (emit host (DataWritten e) s)))
     = map (enqueue chunk) (streams (bridge s))
  /\ initialDataChunks (bridge (snd (emit host (DataWritten e) s)))
     = (if listening_initial (bridge s)
        then array_set (initialDataChunks (bridge s)) (index e) chunk
        else initialDataChunks (bridge s))
  /\ toFetchResponse (snd (emit host (DataWritten e) s)) = toFetchResponse s.
Proof.
  intros Hreach Hfin Hchunk.
  pose proof (reachable_bridge_follows s Hreach) as Hok.
  unfold bridge_follows in Hok. rewrite Hfin in Hok.
  unfold toFetchResponse. simpl. unfold seq, initialDataWrittenHandler.
  rewrite Hfin, Hchunk.
  destruct (listening_initial (bridge s)) eqn:Hlis.
  - unfold on_streams. simpl.
    assert (Hchunk' : dataFromDataWrittenEvent host e
              (upd_bridge
                 (fun b => set_initialDataChunks
                             (array_set (initialDataChunks b) (index e) chunk) b) s)
            = Ok chunk)
      by (rewrite <- Hchunk; now apply dataFromDataWrittenEvent_reads).
    destruct (each_stream_open_dataWritten e _ chunk _ Hchunk' Hok) as [Heach _].
    rewrite Heach. simpl. repeat apply conj; reflexivity.
  - unfold on_streams.
    destruct (each_stream_open_dataWritten e s chunk _ Hchunk Hok) as [Heach _].
    rewrite Heach. simpl. repeat apply conj; reflexivity.
Qed.

(** ** Early hints *)

Lemma append_nil_r (a : string) : (a ++ "" = a)%string.
Proof. induction a as [|x a IH]; simpl; [reflexivity | now rewrite IH]. Qed.

Lemma concat_empty_cons x l :
  String.concat "" (x :: l) = (x ++ String.concat "" l)%string.
Proof. destruct l; simpl; [now rewrite append_nil_r | reflexivity]. Qed.

(** The loop of lines 279-283 appends one line for every key but
    [link], in the order of the keys. *)
Lemma fold_add_hint hints keys : forall head,
  fold_left (add_hint hints) keys head
  = (head
     ++ String.concat ""
          (map (fun key => key ++ ": " ++ String_of_hint (hint key hints) ++ CRLF)
             (filter (fun key => negb (String.eqb key "link")) keys)))%string.
Proof.
  induction keys as [|key keys IH]; intros head.
  - simpl. now rewrite append_nil_r.
  - cbn [fold_left filter]. rewrite IH. unfold add_hint.
    destruct (String.eqb key "link"); cbn [negb map]; [reflexivity|].
    now rewrite concat_empty_cons, append_assoc.
Qed.

Lemma hint_missing key hints :
  ~ In key (map fst hints) -> hint key hints = HintUndefined.
Proof.
  intros Hnot. unfold hint.
  destruct (find (fun kv => String.eqb (fst kv) key) hints) as [kv|] eqn:Hfind;
    [|reflexivity].
  apply find_some in Hfind. destruct Hfind as [Hin Heq].
  apply String.eqb_eq in Heq. destruct Hnot. rewrite <- Heq. now apply in_map.
Qed.

(** X20. [writeEarlyHints] writes nothing and returns, the message
    untouched, whatever other hints are given, when the hints have no
    key [link] (the key is case-sensitive), when [hints.link] is [null]
    or [undefined], and when the validated link is the empty string;
    what the validation throws is thrown on, nothing written. *)
Theorem writeEarlyHints_without_link validate hints s :
  (~ In "link" (map fst hints) ->
   writeEarlyHints host validate hints s = (Returned, s))
  /\ (hint "link" hints = HintNull \/ hint "link" hints = HintUndefined ->
      writeEarlyHints host validate hints s = (Returned, s))
  /\ (validate (hint "link" hints) = Ok EmptyString ->
      writeEarlyHints host validate hints s = (Returned, s))
  /\ (forall err,
        hint "link" hints <> HintNull -> hint "link" hints <> HintUndefined ->
        validate (hint "link" hints) = Throw err ->
        writeEarlyHints host validate hints s = (Thrown err, s)).
Proof.
  unfold writeEarlyHints. repeat apply conj.
  - intros Hnot. now rewrite (hint_missing _ _ Hnot).
  - intros [-> | ->]; reflexivity.
  - intros Hv. destruct (hint "link" hints); try reflexivity; now rewrite Hv.
  - intros err Hnull Hundef Hv.
    destruct (hint "link" hints); try (now rewrite Hv); congruence.
Qed.

(** X21. With a link that validation turns into a text that is not
    empty, [writeEarlyHints] makes one raw write, in ASCII, of one block:
    the status line of 103 Early Hints, the Link line with the validated
    text, one line [key: value] for every other key of the hints in the
    order of the keys (an array value joined with commas, the values
    unchecked), and the empty line that ends the block.  The key [link]
    gives no second line. *)
Theorem writeEarlyHints_block validate hints link s :
  hint "link" hints <> HintNull -> hint "link" hints <> HintUndefined ->
  validate (hint "link" hints) = Ok link -> link <> EmptyString ->
  writeEarlyHints host validate hints s
  = _writeRaw host
      (VString ("HTTP/1.1 103 Early Hints" ++ CRLF
                ++ "Link: " ++ link ++ CRLF
                ++ hint_lines hints ++ CRLF)%string)
      (EncName "ascii") s.
Proof.
  intros Hnull Hundef Hv Hlink. unfold writeEarlyHints.
  assert (Hlen : (String.length link =? 0)%nat = false)
    by (destruct link; [now destruct Hlink | reflexivity]).
  assert (Hhead :
    (fold_left (add_hint hints) (map fst hints)
       (("HTTP/1.1 103 Early Hints" ++ CRLF) ++ "Link: " ++ link ++ CRLF) ++ CRLF
     = "HTTP/1.1 103 Early Hints" ++ CRLF
       ++ "Link: " ++ link ++ CRLF ++ hint_lines hints ++ CRLF)%string).
  { rewrite fold_add_hint. fold (hint_lines hints).
    now rewrite !append_assoc. }
  destruct (hint "link" hints); try congruence; rewrite Hv, Hlen; cbv zeta;
    now rewrite Hhead.
Qed.

(** ** [checkInvalidHeaderChar] *)

Lemma field_vchar_spec c :
  field_vchar c = true <->
  nat_of_ascii c = 9 \/ 32 <= nat_of_ascii c <= 126 \/ 128 <= nat_of_ascii c.
Proof.
  unfold field_vchar. pose proof (nat_ascii_bounded c) as Hb.
  destruct (Nat.eqb_spec (nat_of_ascii c) 9);
    destruct (Nat.leb_spec 32 (nat_of_ascii c));
    destruct (Nat.leb_spec (nat_of_ascii c) 126);
    destruct (Nat.leb_spec 128 (nat_of_ascii c));
    destruct (Nat.leb_spec (nat_of_ascii c) 255);
    simpl; split; intros Hc; try reflexivity; try discriminate; lia.
Qed.

(** X22. [checkInvalidHeaderChar] (lines 38-47) accepts a string exactly
    when each of its code units is a tab, lies in 0x20..0x7e or is 0x80
    or above: the other control characters (CR and LF among them) and
    DEL are what it refuses.  A concatenation is refused exactly when one
    of its parts is, and the empty string is accepted. *)
Theorem checkInvalidHeaderChar_accepts val :
  (checkInvalidHeaderChar val = false <->
   Forall (fun c => nat_of_ascii c = 9 \/ 32 <= nat_of_ascii c <= 126
                    \/ 128 <= nat_of_ascii c)
     (list_ascii_of_string val))
  /\ (forall a b,
        checkInvalidHeaderChar (a ++ b)
        = checkInvalidHeaderChar a || checkInvalidHeaderChar b)
  /\ checkInvalidHeaderChar "" = false.
Proof.
  split; [|split; [apply checkInvalidHeaderChar_app | reflexivity]].
  induction val as [|c val IH]; simpl.
  - split; [constructor | reflexivity].
  - rewrite orb_false_iff, negb_false_iff, IH, field_vchar_spec. split.
    + intros [Hc Hval]. now constructor.
    + intros H. inversion H; subst. now split.
Qed.

(** ** The slow case of [writeHead]: a flat array *)

Lemma out_values_remove key k h :
  out_values key (out_remove k h)
  = if String.eqb k key then [] else out_values key h.
Proof.
  unfold out_values, out_remove.
  induction h as [|[k0 nv] rest IH]; simpl.
  - now destruct (String.eqb k key).
  - destruct (String.eqb_spec k0 k) as [Hk|Hk]; simpl.
    + rewrite IH. subst k0.
      destruct (String.eqb_spec k key) as [Hkey|Hkey]; [reflexivity|].
      reflexivity.
    + destruct (String.eqb_spec k0 key) as [Hkey|Hkey].
      * subst k0. destruct (String.eqb_spec k key); [congruence | reflexivity].
      * exact IH.
Qed.

Lemma out_values_append key k name v h :
  out_values key (out_append k name v h)
  = if String.eqb k key then out_values key h ++ [v] else out_values key h.
Proof.
  unfold out_values.
  induction h as [|[k0 [n vs]] rest IH]; simpl.
  - now destruct (String.eqb k key).
  - destruct (String.eqb_spec k0 k) as [Hk|Hk]; simpl.
    + subst k0. now destruct (String.eqb k key).
    + destruct (String.eqb_spec k0 key) as [Hkey|Hkey].
      * subst k0. destruct (String.eqb_spec k key); [congruence | reflexivity].
      * exact IH.
Qed.

Lemma set_kOutHeaders_twice v w s :
  set_kOutHeaders v (set_kOutHeaders w s) = set_kOutHeaders v s.
Proof. reflexivity. Qed.

(** The first loop: every name of the array is removed from the store,
    and no call throws. *)
Lemma removeHeader_each_values items : forall s o,
  truthy (_header s) = false -> kOutHeaders s = Some o ->
  exists o',
    removeHeader_each items s = (Returned, set_kOutHeaders (Some o') s)
    /\ forall key,
         out_values key o'
         = if existsb (fun k => String.eqb (toLowerCase k) key) (array_names items)
           then [] else out_values key o.
Proof.
  induction items as [|k|k v rest IH] using pairwise_ind; intros s o Hsent Hk.
  - exists o. split; [|reflexivity]. simpl. unfold ret.
    now rewrite <- Hk, set_kOutHeaders_same.
  - exists o. split; [|reflexivity]. simpl. unfold ret.
    now rewrite <- Hk, set_kOutHeaders_same.
  - simpl. unfold seq, removeHeader at 1. rewrite Hsent, Hk.
    destruct (IH (set_kOutHeaders (Some (out_remove (toLowerCase k) o)) s)
                (out_remove (toLowerCase k) o)) as (o' & Heach & Hvalues);
      [exact Hsent | reflexivity |].
    exists o'. split; [rewrite Heach; now rewrite set_kOutHeaders_twice|].
    intros key. rewrite Hvalues, out_values_remove.
    destruct (String.eqb (toLowerCase k) key); simpl;
      now destruct (existsb _ (array_names rest)).
Qed.

(** The second loop: every pair with a name is appended. *)
Lemma appendHeader_each_values items : forall s s',
  appendHeader_each items s = (Returned, s') ->
  forall key,
    out_values key (out_headers s')
    = out_values key (out_headers s) ++ array_values key items.
Proof.
  induction items as [|k|k v rest IH] using pairwise_ind; intros s s' Hrun key.
  - inversion Hrun. simpl. now rewrite app_nil_r.
  - inversion Hrun. simpl. now rewrite app_nil_r.
  - simpl in Hrun. unfold seq in Hrun. destruct k as [|c k].
    + unfold ret in Hrun. simpl. now apply IH.
    + unfold appendHeader in Hrun.
      destruct (truthy (_header s)); [discriminate|].
      destruct (checkInvalidHeaderChar (String c k)); [discriminate|].
      destruct (checkInvalidHeaderChar v); [discriminate|].
      rewrite (IH _ _ Hrun key). cbn [array_values].
      unfold out_headers at 1. cbn [kOutHeaders set_kOutHeaders].
      rewrite out_values_append.
      replace (negb (String.eqb (String c k) "")) with true by reflexivity.
      cbn [andb].
      destruct (String.eqb (toLowerCase (String c k)) key);
        [now rewrite <- app_assoc | reflexivity].
Qed.

Lemma array_values_absent key items :
  existsb (fun k => String.eqb (toLowerCase k) key) (array_names items) = false ->
  array_values key items = [].
Proof.
  induction items as [|k|k v rest IH] using pairwise_ind; try reflexivity.
  simpl. intros H. apply orb_false_iff in H. destruct H as [Hk Hrest].
  rewrite Hk, andb_false_r. now apply IH.
Qed.

(** What a [writeHead] that returns on a message with header fields set
    has gone through. *)
Lemma writeHead_slow_case code reason obj o s s' :
  kOutHeaders s = Some o ->
  writeHead code reason obj s = (Returned, s') ->
  truthy (_header s) = false
  /\ exists s3,
       mergeHeaders (headers_argument reason obj)
         (set_statusCode (ToInt32 code)
            (set_statusMessage (Some (reason_phrase reason code s)) s))
       = (Returned, s3)
       /\ kOutHeaders s' = kOutHeaders s3.
Proof.
  intros Hk. unfold writeHead.
  destruct (truthy (_header s)) eqn:Hsent; [discriminate|].
  destruct ((ToInt32 code <? 100) || (ToInt32 code >? 999))%Z; [discriminate|].
  set (s1 := match reason with
             | ReasonString r => set_statusMessage (Some r) s
             | ReasonHeaders _ =>
                 if truthy (statusMessage s) then s
                 else set_statusMessage (Some (defaultStatusMessage (ToInt32 code))) s
             end).
  assert (Hs1 : s1 = set_statusMessage (Some (reason_phrase reason code s)) s).
  { subst s1. unfold reason_phrase. destruct reason as [r|h]; [reflexivity|].
    destruct (statusMessage s) as [[|c m]|] eqn:Hm; simpl; try reflexivity.
    destruct s; simpl in *; now subst. }
  set (message := reason_phrase reason code s) in *. clearbody message.
  assert (Hobj : match reason with
                 | ReasonString _ => obj
                 | ReasonHeaders h => match obj with HUndefined => h | _ => obj end
                 end = headers_argument reason obj)
    by (destruct reason, obj; reflexivity).
  destruct reason as [r|h]; simpl in Hobj |- *.
  all: fold s1; rewrite Hs1; clear s1 Hs1; simpl; rewrite Hk.
  all: try rewrite Hobj.
  all: unfold seq.
  all: destruct (mergeHeaders _ _) as [[|err] s3]; [|discriminate].
  all: destruct (checkInvalidHeaderChar _); [discriminate|].
  all: unfold _storeHeader.
  all: destruct (pairs_of_headers _) as [pairs|]; [|discriminate].
  all: destruct (existsb _ pairs); [discriminate|].
  all: intros Heq; inversion Heq; subst s'; clear Heq.
  all: split; [reflexivity|]; exists s3; split; [reflexivity|].
  all: destruct (noBodyStatus (ToInt32 code)); simpl;
       destruct (_expect_continue s3 && negb (_sent100 s3)); reflexivity.
Qed.

(** X23. Lines 329-343, with the header store as the specification
    describes it: when header fields were set before and [writeHead] is
    given a flat array, a name of the array (compared without case)
    loses the values it had and gets those of the array, all of them and
    in the order of the array; a name the array does not mention keeps
    its values. *)
Theorem writeHead_array_overrides code reason obj items o s s' :
  kOutHeaders s = Some o ->
  headers_argument reason obj = HArray items ->
  writeHead code reason obj s = (Returned, s') ->
  forall key,
    out_values key (out_headers s')
    = if existsb (fun k => String.eqb (toLowerCase k) key) (array_names items)
      then array_values key items
      else out_values key o.
Proof.
  intros Hk Hobj Hw key.
  destruct (writeHead_slow_case _ _ _ _ _ _ Hk Hw) as (Hsent & s3 & Hmerge & Hout).
  rewrite Hobj in Hmerge. unfold out_headers at 1. rewrite Hout.
  fold (out_headers s3).
  simpl in Hmerge. destruct (Nat.even (List.length items)); [|discriminate].
  unfold seq in Hmerge.
  destruct (removeHeader_each_values items
              (set_statusCode (ToInt32 code)
                 (set_statusMessage (Some (reason_phrase reason code s)) s)) o)
    as (o' & Heach & Hvalues); [exact Hsent | exact Hk |].
  rewrite Heach in Hmerge.
  rewrite (appendHeader_each_values _ _ _ Hmerge key).
  unfold out_headers. cbn [kOutHeaders set_kOutHeaders]. rewrite Hvalues.
  destruct (existsb _ (array_names items)) eqn:Hnames; [reflexivity|].
  now rewrite (array_values_absent _ _ Hnames), app_nil_r.
Qed.

(** ** [writeHead]: which header fields count *)

(** X24. [obj ??= reason] (line 316): header fields passed as second
    argument count only when there is no third argument.  With a third
    argument the second, when it is not a reason phrase, is ignored
    altogether; without one, [writeHead(code, headers)] is
    [writeHead(code, undefined, headers)]. *)
Theorem writeHead_second_argument code h h' obj s :
  writeHead code (ReasonHeaders h) HUndefined s
  = writeHead code (ReasonHeaders HUndefined) h s
  /\ (obj <> HUndefined ->
      writeHead code (ReasonHeaders h) obj s
      = writeHead code (ReasonHeaders h') obj s).
Proof.
  split.
  - unfold writeHead. destruct h; reflexivity.
  - intros Hobj. unfold writeHead.
    destruct obj; [now destruct Hobj | reflexivity | reflexivity].
Qed.

(** ** No-body statuses: what the promise comes to *)

Lemma new_fields r :
  _headerSent (FetchServerResponse_new host r) = false
  /\ writableEnded (FetchServerResponse_new host r) = false
  /\ bridge (FetchServerResponse_new host r) = initial_bridge.
Proof.
  unfold FetchServerResponse_new.
  destruct (method_is r "HEAD");
    destruct (lt1 (httpVersionMajor r) || lt1 (httpVersionMinor r));
    repeat split.
Qed.

(** A body write on a message whose headers are stored and which expects
    no body changes nothing. *)
Lemma write_without_body chunk enc s :
  headersSent s = true -> _hasBody s = false ->
  snd (write host chunk enc s) = s.
Proof.
  unfold headersSent, write. intros Hsent Hbody.
  destruct chunk; try reflexivity; unfold seq; rewrite Hsent; cbv beta iota;
    rewrite Hbody; reflexivity.
Qed.

Lemma run_writes_without_body ws : forall s,
  headersSent s = true -> _hasBody s = false ->
  run host (map (fun w => CallWrite (fst w) (snd w)) ws) s = s.
Proof.
  induction ws as [|[chunk enc] ws IH]; intros s Hsent Hbody; simpl; [reflexivity|].
  rewrite write_without_body by assumption. now apply IH.
Qed.

(** [end()] on a message without a body whose headers are stored and
    not sent, when the host refuses a header pair or the response: the
    header-sent listener throws out of [end()], which has sent nothing
    else and has not finished. *)
Lemma end_refused s h ev :
  _header s = Some h -> truthy (Some h) = true -> _headerSent s = false ->
  _headerFields s = Some ev -> _hasBody s = false -> writableEnded s = false ->
  forallb (fun hv => Headers_append_ok host (fst hv) (snd hv)) (e_headers ev) = false
  \/ Response_init_ok host false (e_statusCode ev) (e_statusMessage ev) = false ->
  exists api,
    (api = "Headers.append" \/ api = "Response")
    /\ end_ host s
       = (Thrown (HostError api),
          upd_bridge (set_listening_initial false)
            (set_writtenHeaderBytes (String.length h) (set_headerSent true s))).
Proof.
  intros Hh Htruthy Hhs Hf Hbody Hwe Hrefused.
  unfold end_. rewrite Hwe. unfold seq. rewrite Hh, Htruthy. cbv beta iota.
  rewrite Hhs. unfold _send. rewrite Hhs, Hf, Hh. unfold seq.
  cbn [emit]. unfold headersSentHandler, _toFetchResponse.
  cbn [_hasBody upd_bridge set_bridge set_writtenHeaderBytes set_headerSent].
  rewrite Hbody.
  destruct (forallb (fun hv => Headers_append_ok host (fst hv) (snd hv)) (e_headers ev))
    eqn:Hheaders; cbn [negb].
  - destruct Hrefused as [Hr|Hr]; [discriminate|]. rewrite Hr.
    exists "Response". split; [now right | reflexivity].
  - exists "Headers.append". split; [now left | reflexivity].
Qed.

(** Once the headers are marked as sent, no call emits the header-sent
    event again: a promise that is pending then stays pending. *)
Lemma call_keeps_unresolved c s :
  _headerSent s = true -> toFetchResponse s = Pending ->
  _headerSent (snd (call host c s)) = true
  /\ toFetchResponse (snd (call host c s)) = Pending.
Proof.
  unfold toFetchResponse. intros Hhs Hp.
  assert (Hraw : forall chunk enc s0,
             _headerSent s0 = true -> fetchResponse (bridge s0) = Pending ->
             _headerSent (snd (_writeRaw host chunk enc s0)) = true
             /\ fetchResponse (bridge (snd (_writeRaw host chunk enc s0))) = Pending).
  { intros chunk enc s0 H1 H2.
    destruct (_writeRaw_guards_kept chunk enc s0) as (_ & Hk & _).
    rewrite Hk, _writeRaw_fetchResponse. now split. }
  assert (Hhead : forall s0,
             _headerSent s0 = true -> fetchResponse (bridge s0) = Pending ->
             let step := if truthy (_header s0) then (Returned, s0)
                         else _implicitHeader s0 in
             _headerSent (snd step) = true
             /\ fetchResponse (bridge (snd step)) = Pending).
  { intros s0 H1 H2. simpl. destruct (truthy (_header s0)); [now split|].
    unfold _implicitHeader.
    destruct (writeHead_frame (statusCode s0) (ReasonHeaders HUndefined) HUndefined s0)
      as (Hb & Hk & _).
    rewrite Hb, Hk. now split. }
  destruct c; simpl.
  - pose proof (setHeader_headers_only name value s) as H. rewrite H. now split.
  - pose proof (appendHeader_headers_only name value s) as H. rewrite H. now split.
  - pose proof (removeHeader_headers_only name s) as H. rewrite H. now split.
  - destruct (writeHead_frame statusCode0 reason obj s) as (Hb & Hk & _).
    rewrite Hb, Hk. now split.
  - unfold writeContinue, seq.
    destruct (Hraw (VString ("HTTP/1.1 100 Continue" ++ CRLF ++ CRLF)%string)
                (EncName "ascii") s Hhs Hp) as [H1 H2].
    destruct (_writeRaw host _ _ s) as [[|err] s1]; simpl in *; now split.
  - now apply Hraw.
  - assert (Hwrite :
      _headerSent
        (snd (((fun s => if truthy (_header s) then (Returned, s)
                         else _implicitHeader s) ;;
               (fun s => if _hasBody s then _send host chunk enc s
                         else (Returned, s))) s)) = true
      /\ fetchResponse
           (bridge
              (snd (((fun s => if truthy (_header s) then (Returned, s)
                               else _implicitHeader s) ;;
                     (fun s => if _hasBody s then _send host chunk enc s
                               else (Returned, s))) s))) = Pending).
    { unfold seq. destruct (Hhead s Hhs Hp) as [H1 H2]. cbv zeta in H1, H2.
      destruct (if truthy (_header s) then (Returned, s) else _implicitHeader s)
        as [[|err] s1]; cbn [snd] in *; [|now split].
      destruct (_hasBody s1); [|now split].
      unfold _send. rewrite H1. now apply Hraw. }
    unfold write. destruct chunk; simpl; try (now split); exact Hwrite.
  - unfold end_. destruct (writableEnded s); [now split|].
    unfold seq. destruct (Hhead s Hhs Hp) as [H1 H2]. cbv zeta in H1, H2.
    destruct (if truthy (_header s) then (Returned, s) else _implicitHeader s)
      as [[|err] s1]; cbn [snd] in *; [|now split].
    rewrite H1.
    destruct (emit_guards_kept Finish (set_writableEnded true s1)) as (_ & Hk & _).
    rewrite Hk, emit_other_fetchResponse by discriminate. now split.
Qed.

Lemma run_keeps_unresolved cs : forall s,
  _headerSent s = true -> toFetchResponse s = Pending ->
  toFetchResponse (run host cs s) = Pending.
Proof.
  induction cs as [|c cs IH]; intros s Hhs Hp; simpl; [exact Hp|].
  destruct (call_keeps_unresolved c s Hhs Hp) as [H1 H2]. now apply IH.
Qed.

(** C3 (the code at the failing input). A status code from 100 to 199
    passed to a [writeHead] that returns, on a new message, on a host
    whose [Response] refuses such a status (the Fetch standard allows
    200 to 599): [_hasBody] is cleared and every body write afterwards
    changes nothing, but no [Response] is resolved.  [end()] delivers
    the header-sent event, [new Response] throws in the listener and out
    of [end()], and the promise is pending and stays pending, whatever
    calls follow and whatever events short of another header-sent
    event. *)
Theorem informational_status_never_resolves r code reason obj s1 :
  (100 <= code <= 199)%Z ->
  (forall text, Response_init_ok host false code text = false) ->
  writeHead code reason obj (FetchServerResponse_new host r) = (Returned, s1) ->
  _hasBody s1 = false
  /\ (forall chunk enc, snd (write host chunk enc s1) = s1)
  /\ (forall text pairs,
        exists api,
          fst (emit host
                 (HeadersSent {| e_statusCode := code; e_statusMessage := text;
                                 e_headers := pairs |}) s1)
          = Thrown (HostError api)
          /\ toFetchResponse
               (snd (emit host
                       (HeadersSent {| e_statusCode := code; e_statusMessage := text;
                                       e_headers := pairs |}) s1))
             = Pending)
  /\ exists api s2,
       end_ host s1 = (Thrown (HostError api), s2)
       /\ (api = "Headers.append" \/ api = "Response")
       /\ toFetchResponse s2 = Pending
       /\ (forall cs, toFetchResponse (run host cs s2) = Pending)
       /\ (forall evs,
             Forall (fun ev => forall h, ev <> HeadersSent h) evs ->
             toFetchResponse (deliver host evs s2) = Pending).
Proof.
  intros Hcode Hrefuses Hw.
  assert (Hint : ToInt32 code = code) by (apply ToInt32_small; lia).
  pose proof (writeHead_sends_headers _ _ _ _ _ Hw) as Hsent.
  destruct (new_fields r) as (Hhs0 & Hwe0 & Hb0).
  apply writeHead_returned in Hw.
  destruct Hw as (message & pairs & _ & _ & _ & _ & _ & _ & Hheader & Hhs & Hfields
                  & Hbody & Hb & _ & _ & Hwe).
  rewrite Hint in *.
  assert (Hno : noBodyStatus code = true).
  { rewrite <- Hint. apply noBodyStatus_ToInt32. right. right. exact Hcode. }
  rewrite Hno in Hbody. rewrite Hhs0 in Hhs. rewrite Hwe0 in Hwe. rewrite Hb0 in Hb.
  split; [exact Hbody|].
  split; [intros chunk enc; now apply write_without_body|].
  split.
  { intros text ps. unfold toFetchResponse. cbn [emit].
    unfold headersSentHandler, _toFetchResponse.
    cbn [_hasBody upd_bridge set_bridge e_statusCode e_statusMessage e_headers].
    rewrite Hbody.
    destruct (forallb (fun hv => Headers_append_ok host (fst hv) (snd hv)) ps);
      cbn [negb].
    - rewrite Hrefuses. eexists. split; [reflexivity|]. simpl. now rewrite Hb.
    - eexists. split; [reflexivity|]. simpl. now rewrite Hb. }
  unfold headersSent in Hsent. rewrite Hheader in Hsent.
  destruct (end_refused s1 _ _ Hheader Hsent Hhs Hfields Hbody Hwe) as (api & Hapi & Hend).
  { right. simpl. apply Hrefuses. }
  eexists api, _. split; [exact Hend|]. split; [exact Hapi|].
  assert (Hp : toFetchResponse
                 (upd_bridge (set_listening_initial false)
                    (set_writtenHeaderBytes
                       (String.length
                          (status_line code message ++ render_headers pairs ++ CRLF))
                       (set_headerSent true s1))) = Pending).
  { unfold toFetchResponse. simpl. now rewrite Hb. }
  split; [exact Hp|]. split.
  - intros cs. apply run_keeps_unresolved; [reflexivity | exact Hp].
  - intros evs Hevs. unfold toFetchResponse in *.
    apply deliver_without_headersSent; assumption.
Qed.

(** [end()] on a message without a body whose headers are stored and
    not sent, when the host takes the headers and builds the response:
    the promise is fulfilled with a response that has a null body, and
    no stream is made. *)
Lemma end_accepted s h ev :
  _header s = Some h -> truthy (Some h) = true -> _headerSent s = false ->
  _headerFields s = Some ev -> _hasBody s = false -> writableEnded s = false ->
  bridge s = initial_bridge ->
  accepted host ev false ->
  fst (end_ host s) = Returned
  /\ toFetchResponse (snd (end_ host s)) = Fulfilled (response_of ev None)
  /\ streams (bridge (snd (end_ host s))) = []
  /\ finished (bridge (snd (end_ host s))) = true
  /\ writableEnded (snd (end_ host s)) = true.
Proof.
  intros Hh Htruthy Hhs Hf Hbody Hwe Hb [Hheaders Hinit].
  unfold toFetchResponse, end_. rewrite Hwe. unfold seq. rewrite Hh, Htruthy.
  cbv beta iota. rewrite Hhs. unfold _send. rewrite Hhs, Hf, Hh. unfold seq.
  cbn [emit]. unfold headersSentHandler, _toFetchResponse.
  cbn [_hasBody upd_bridge set_bridge set_writtenHeaderBytes set_headerSent bridge].
  rewrite Hbody, Hheaders. cbn [negb]. rewrite Hinit.
  unfold _writeRaw, upd_bridge. simpl. rewrite !Hb. simpl. repeat split.
Qed.

Lemma run_app cs1 : forall cs2 s,
  run host (cs1 ++ cs2) s = run host cs2 (run host cs1 s).
Proof. induction cs1 as [|c cs1 IH]; intros cs2 s; simpl; [reflexivity | apply IH]. Qed.

(** X26. A [writeHead] with a status for which it clears [_hasBody]
    (204, 304, 100..199) that returns on a new message, then any body
    writes, then [end()], on a host that takes the headers and builds a
    response of that status without a body: the writes are discarded,
    the promise is fulfilled with the status, the reason and the header
    pairs of the header-sent event and a null body, and no stream is
    made. *)
Theorem no_body_status_resolves r code reason obj s1 ws :
  noBodyStatus (ToInt32 code) = true ->
  writeHead code reason obj (FetchServerResponse_new host r) = (Returned, s1) ->
  (forall ev, _headerFields s1 = Some ev -> accepted host ev false) ->
  exists ev,
    _headerFields s1 = Some ev
    /\ e_statusCode ev = ToInt32 code
    /\ run host (map (fun w => CallWrite (fst w) (snd w)) ws) s1 = s1
    /\ toFetchResponse
         (run host (map (fun w => CallWrite (fst w) (snd w)) ws ++ [CallEnd]) s1)
       = Fulfilled {| status := ToInt32 code; statusText := e_statusMessage ev;
                      headers := e_headers ev; body := None |}
    /\ streams
         (bridge
            (run host (map (fun w => CallWrite (fst w) (snd w)) ws ++ [CallEnd]) s1))
       = [].
Proof.
  intros Hno Hw Haccepted.
  pose proof (writeHead_sends_headers _ _ _ _ _ Hw) as Hsent.
  destruct (new_fields r) as (Hhs0 & Hwe0 & Hb0).
  apply writeHead_returned in Hw.
  destruct Hw as (message & pairs & _ & _ & _ & _ & _ & _ & Hheader & Hhs & Hfields
                  & Hbody & Hb & _ & _ & Hwe).
  rewrite Hno in Hbody. rewrite Hhs0 in Hhs. rewrite Hwe0 in Hwe. rewrite Hb0 in Hb.
  assert (Hwrites : run host (map (fun w => CallWrite (fst w) (snd w)) ws) s1 = s1)
    by (now apply run_writes_without_body).
  eexists. split; [exact Hfields|]. split; [reflexivity|]. split; [exact Hwrites|].
  rewrite run_app, Hwrites. cbn [run call].
  unfold headersSent in Hsent. rewrite Hheader in Hsent.
  destruct (end_accepted s1 _ _ Hheader Hsent Hhs Hfields Hbody Hwe Hb
              (Haccepted _ Hfields)) as (_ & Hp & Hstreams & _).
  split; [exact Hp | exact Hstreams].
Qed.

End Properties.

(** C1 (the code at the failing input). A number written as the first
    body chunk of a new message, with no [writeHead] before, on any host:
    the write throws ERR_INVALID_ARG_TYPE to its caller and changes
    nothing; a data-written event carrying the number at index 0 makes
    [dataFromDataWrittenEvent] throw out of [emit] likewise; and the
    promise [fetchResponse] is pending and stays pending whatever is
    delivered after, short of a header-sent event: it is neither rejected
    nor resolved to an error response. *)
Theorem invalid_first_chunk_leaves_promise_pending host r n enc :
  call host (CallWrite (VNumber n) enc) (FetchServerResponse_new host r)
    = (Thrown (ERR_INVALID_ARG_TYPE "chunk" (VNumber n)), FetchServerResponse_new host r)
  /\ emit host
       (DataWritten {| index := 0; entry := {| data := VNumber n; encoding := enc |} |})
       (FetchServerResponse_new host r)
     = (Thrown (ERR_INVALID_ARG_TYPE "packet.data" (VNumber n)),
        FetchServerResponse_new host r)
  /\ toFetchResponse (FetchServerResponse_new host r) = Pending
  /\ (forall evs,
        Forall (fun ev => forall h, ev <> HeadersSent h) evs ->
        toFetchResponse (deliver host evs (FetchServerResponse_new host r)) = Pending).
Proof.
  assert (Hb : bridge (FetchServerResponse_new host r) = initial_bridge) by reflexivity.
  repeat apply conj.
  - reflexivity.
  - simpl. unfold seq, initialDataWrittenHandler. rewrite Hb. reflexivity.
  - unfold toFetchResponse. now rewrite Hb.
  - intros evs Hevs. unfold toFetchResponse.
    apply deliver_without_headersSent; [exact Hevs | now rewrite Hb].
Qed.

(** C9 (the code at the failing input). [toReqRes] for a HEAD request,
    with the incoming message as [new FetchIncomingMessage()] leaves it:
    the response is built before [incoming.method] is assigned, so
    [_hasBody] stays set although the paired request has method HEAD, and
    after [writeHead(200)], [write("hello")], [end()] the promise is
    fulfilled with a body that holds the bytes of "hello". *)
Theorem head_request_through_toReqRes_has_body :
  method (fst (toReqRes example_host head_request blank_incoming)) = Some "HEAD"
  /\ method (req (snd (toReqRes example_host head_request blank_incoming))) = Some "HEAD"
  /\ _hasBody (snd (toReqRes example_host head_request blank_incoming)) = true
  /\ toFetchResponse
       (run example_host
          [CallWriteHead 200 (ReasonHeaders HUndefined) HUndefined;
           CallWrite (VString "hello") EncUndefined; CallEnd]
          (snd (toReqRes example_host head_request blank_incoming)))
     = Fulfilled {| status := 200; statusText := "OK"; headers := [];
                    body := Some 0 |}
  /\ streams
       (bridge
          (run example_host
             [CallWriteHead 200 (ReasonHeaders HUndefined) HUndefined;
              CallWrite (VString "hello") EncUndefined; CallEnd]
             (snd (toReqRes example_host head_request blank_incoming))))
     = [{| queue := [VBytes [x68; x65; x6c; x6c; x6f]]; closed := true;
           s_finished := true; listening := true |}].
Proof. repeat apply conj; vm_compute; reflexivity. Qed.

(** C4 (the claim as stated fails). 4294967596 lies outside the interval
    from 100 to 999, yet [writeHead(4294967596)] on a new message returns
    and sets the status to 300, its 32-bit coercion; and once the headers
    are sent, [writeHead(999999)] throws ERR_HTTP_HEADERS_SENT, not the
    invalid-status-code error. *)
Lemma writeHead_wrapped_status_code_accepted :
  ~ (100 <= 4294967596 <= 999)%Z
  /\ fst (writeHead 4294967596 (ReasonHeaders HUndefined) HUndefined example_response)
     = Returned
  /\ statusCode
       (snd (writeHead 4294967596 (ReasonHeaders HUndefined) HUndefined example_response))
     = 300%Z
  /\ statusMessage
       (snd (writeHead 4294967596 (ReasonHeaders HUndefined) HUndefined example_response))
     = Some "Multiple Choices"
  /\ statusCode example_response = 200%Z
  /\ writeHead 999999 (ReasonHeaders HUndefined) HUndefined example_sent
     = (Thrown (ERR_HTTP_HEADERS_SENT "write"), example_sent).
Proof.
  split; [lia|]. repeat apply conj; vm_compute; reflexivity.
Qed.

(** C4 at [writeHead(999999)] on a new message. *)
Lemma writeHead_invalid_status_code_witness :
  (ToInt32 999999 < 100 \/ 999 < ToInt32 999999)%Z
  /\ writeHead 999999 (ReasonHeaders HUndefined) HUndefined example_response
     = (Thrown (ERR_HTTP_INVALID_STATUS_CODE 999999), example_response).
Proof.
  assert (H : (ToInt32 999999 < 100 \/ 999 < ToInt32 999999)%Z)
    by (right; vm_compute; reflexivity).
  split; [exact H|].
  exact (writeHead_invalid_status_code 999999 (ReasonHeaders HUndefined) HUndefined
           example_response H).
Defined.

(** C5 at a second [writeHead], after [writeHead(200)]. *)
Lemma header_mutation_after_headersSent_witness :
  headersSent example_sent = true
  /\ exists op,
       call example_host (CallWriteHead 404 (ReasonHeaders HUndefined) HUndefined)
         example_sent
       = (Thrown (ERR_HTTP_HEADERS_SENT op), example_sent)
       /\ toFetchResponse
            (snd (call example_host
                    (CallWriteHead 404 (ReasonHeaders HUndefined) HUndefined)
                    example_sent))
          = toFetchResponse example_sent.
Proof.
  assert (H : headersSent example_sent = true) by (vm_compute; reflexivity).
  split; [exact H|].
  exact (header_mutation_after_headersSent example_host
           (CallWriteHead 404 (ReasonHeaders HUndefined) HUndefined) example_sent
           H eq_refl).
Defined.

(** C8 at [writeHead(404)] and at [writeHead(299)] on a new message. *)
Lemma writeHead_default_statusMessage_witness :
  truthy (statusMessage example_response) = false
  /\ statusMessage
       (snd (writeHead 404 (ReasonHeaders HUndefined) HUndefined example_response))
     = Some "Not Found"
  /\ (exists rest,
        _header
          (snd (writeHead 404 (ReasonHeaders HUndefined) HUndefined example_response))
        = Some ("HTTP/1.1 404 Not Found"
                ++ String (ascii_of_nat 13) (String (ascii_of_nat 10) rest))%string)
  /\ (exists ev r,
        _headerFields
          (snd (writeHead 404 (ReasonHeaders HUndefined) HUndefined example_response))
        = Some ev
        /\ toFetchResponse
             (snd (emit example_host (HeadersSent ev)
                     (snd (writeHead 404 (ReasonHeaders HUndefined) HUndefined
                             example_response))))
           = Fulfilled r
        /\ status r = 404%Z /\ statusText r = "Not Found")
  /\ statusMessage
       (snd (writeHead 299 (ReasonHeaders HUndefined) HUndefined example_response))
     = Some "unknown"
  /\ (exists rest,
        _header
          (snd (writeHead 299 (ReasonHeaders HUndefined) HUndefined example_response))
        = Some ("HTTP/1.1 299 unknown"
                ++ String (ascii_of_nat 13) (String (ascii_of_nat 10) rest))%string).
Proof.
  assert (H : truthy (statusMessage example_response) = false)
    by (vm_compute; reflexivity).
  assert (Hw : writeHead 404 (ReasonHeaders HUndefined) HUndefined example_response
               = (Returned,
                  snd (writeHead 404 (ReasonHeaders HUndefined) HUndefined
                         example_response)))
    by (vm_compute; reflexivity).
  assert (Hw' : writeHead 299 (ReasonHeaders HUndefined) HUndefined example_response
                = (Returned,
                   snd (writeHead 299 (ReasonHeaders HUndefined) HUndefined
                          example_response)))
    by (vm_compute; reflexivity).
  split; [exact H|].
  destruct (writeHead_default_statusMessage example_host 404 HUndefined HUndefined
              example_response _ H Hw)
    as (phrase & Htable & _ & Hmessage & [rest Hheader] & ev & Hfields & _ & _ & Hresp).
  assert (Hphrase : phrase = "Not Found").
  { destruct Htable as [Hsome|[Hnone _]]; vm_compute in Hsome || vm_compute in Hnone.
    - now inversion Hsome.
    - discriminate Hnone. }
  subst phrase.
  destruct (writeHead_default_statusMessage example_host 299 HUndefined HUndefined
              example_response _ H Hw')
    as (phrase & Htable' & _ & Hmessage' & [rest' Hheader'] & _).
  assert (Hphrase : phrase = "unknown").
  { destruct Htable' as [Hsome|[_ Hunknown]]; [|exact Hunknown].
    vm_compute in Hsome. discriminate Hsome. }
  subst phrase.
  split; [exact Hmessage|]. split; [exists rest; exact Hheader|].
  split; [|split; [exact Hmessage' | exists rest'; exact Hheader']].
  assert (Hev : ev = {| e_statusCode := 404; e_statusMessage := "Not Found";
                        e_headers := [] |}).
  { vm_compute in Hfields. now inversion Hfields. }
  destruct Hresp as (r & Hr & Hstatus & Htext).
  - reflexivity.
  - subst ev. split; reflexivity.
  - exists ev, r. repeat split; assumption.
Defined.

(** C10 at a chunk written after the finish signal. *)
Lemma dataWritten_after_finish_is_discarded_witness :
  emit example_host (DataWritten (text_event 0 "late")) example_finished
  = (Returned, example_finished).
Proof.
  apply dataWritten_after_finish_is_discarded.
  apply af_finish. apply reach_new.
Defined.

(** C6 at two chunks before the header-sent event and one after. *)
Lemma body_chunks_in_write_order_witness :
  exists initial,
    let s1 := deliver example_host
                (map DataWritten [text_event 0 "a"; text_event 1 "b"]) example_response in
    let s2 := snd (emit example_host (HeadersSent ok_event)
                     (set_writtenHeaderBytes 0 s1)) in
    let s3 := deliver example_host (map DataWritten [text_event 2 "c"]) s2 in
    fetchResponse (bridge s2) =
      Fulfilled {| status := 200; statusText := "OK"; headers := []; body := Some 0 |}
    /\ fetchResponse (bridge s3) = fetchResponse (bridge s2)
    /\ streams (bridge s3) =
         [Build_Stream (initial ++ [VBytes [x63]]) false false true]
    /\ filter defined initial = [VBytes [x61]; VBytes [x62]]
    /\ (map index [text_event 0 "a"; text_event 1 "b"] = List.seq 0 2 ->
        initial = [VBytes [x61]; VBytes [x62]]).
Proof.
  apply (body_chunks_in_write_order example_host example_response
           [text_event 0 "a"; text_event 1 "b"] ok_event 0 [text_event 2 "c"]
           [VBytes [x61]; VBytes [x62]] [VBytes [x63]]).
  - reflexivity.
  - reflexivity.
  - simpl. repeat split; lia.
  - repeat constructor.
  - repeat constructor.
  - reflexivity.
  - reflexivity.
Defined.

(** X25 at [writeHead(204)], [write("hello")], [end()]. *)
Lemma no_body_status_gives_null_body_witness :
  (204 = 204 \/ 204 = 304 \/ 100 <= 204 <= 199)%Z
  /\ toFetchResponse
       (run example_host [CallWrite (VString "hello") EncUndefined; CallEnd]
          (snd (writeHead 204 (ReasonHeaders HUndefined) HUndefined example_response)))
     = Fulfilled {| status := 204; statusText := "No Content"; headers := [];
                    body := None |}
  /\ body {| status := 204; statusText := "No Content"; headers := [];
             body := None |} = None.
Proof.
  assert (Hcode : (204 = 204 \/ 204 = 304 \/ 100 <= 204 <= 199)%Z) by (left; reflexivity).
  assert (Hw : writeHead 204 (ReasonHeaders HUndefined) HUndefined
                 (run example_host [] (FetchServerResponse_new example_host blank_incoming))
               = (Returned,
                  snd (writeHead 204 (ReasonHeaders HUndefined) HUndefined
                         example_response)))
    by (vm_compute; reflexivity).
  assert (Hresp : toFetchResponse
                    (run example_host [CallWrite (VString "hello") EncUndefined; CallEnd]
                       (snd (writeHead 204 (ReasonHeaders HUndefined) HUndefined
                               example_response)))
                  = Fulfilled {| status := 204; statusText := "No Content";
                                 headers := []; body := None |})
    by (vm_compute; reflexivity).
  split; [exact Hcode|]. split; [exact Hresp|].
  exact (no_body_status_gives_null_body example_host blank_incoming [] 204
           (ReasonHeaders HUndefined) HUndefined _
           [CallWrite (VString "hello") EncUndefined; CallEnd] _ Hcode Hw Hresp).
Defined.

(** C2 at [write("hello")] followed by a binary write. *)
Lemma implicit_headers_on_first_write_witness :
  let s := run example_host
             [CallWrite (VString "hello") EncUndefined; CallWrite (VBytes [x21]) EncUndefined]
             (FetchServerResponse_new example_host blank_incoming) in
  statusCode s = 200%Z /\ statusMessage s = Some "OK"
  /\ _header s = Some implicit_header /\ _headerSent s = true
  /\ writtenHeaderBytes s = String.length implicit_header
  /\ toFetchResponse s =
       Fulfilled {| status := 200; statusText := "OK"; headers := [];
                    body := Some 0 |}
  /\ streams (bridge s) =
       [{| queue := [VBytes [x68; x65; x6c; x6c; x6f]; VBytes [x21]];
           closed := false; s_finished := false; listening := true |}].
Proof.
  apply (implicit_headers_on_first_write example_host blank_incoming
           (VString "hello", EncUndefined) [(VBytes [x21], EncUndefined)]
           [x68; x65; x6c; x6c; x6f] [[x21]]).
  - reflexivity.
  - reflexivity.
  - repeat constructor.
Defined.

(** C7 on the example host. *)
Lemma writeHead_write_end_hello_witness :
  toFetchResponse
    (run example_host
       [CallWriteHead 200 (ReasonHeaders (HObject [("content-type", "text/plain")]))
          HUndefined;
        CallWrite (VString "hello") EncUndefined;
        CallEnd]
       (FetchServerResponse_new example_host blank_incoming))
  = Fulfilled {| status := 200; statusText := "OK";
                 headers := [("content-type", "text/plain")]; body := Some 0 |}.
Proof.
  apply (writeHead_write_end_hello example_host blank_incoming); reflexivity.
Defined.

(** X1 at a message built for a HEAD request. *)
Lemma head_at_construction_gives_null_body_witness :
  method_is head_incoming "HEAD" = true
  /\ toFetchResponse
       (run example_host
          [CallWriteHead 200 (ReasonHeaders HUndefined) HUndefined;
           CallWrite (VString "hello") EncUndefined; CallEnd]
          (FetchServerResponse_new example_host head_incoming))
     = Fulfilled {| status := 200; statusText := "OK"; headers := []; body := None |}
  /\ body {| status := 200; statusText := "OK"; headers := []; body := None |} = None.
Proof.
  assert (Hhead : method_is head_incoming "HEAD" = true) by reflexivity.
  assert (Hresp : toFetchResponse
                    (run example_host
                       [CallWriteHead 200 (ReasonHeaders HUndefined) HUndefined;
                        CallWrite (VString "hello") EncUndefined; CallEnd]
                       (FetchServerResponse_new example_host head_incoming))
                  = Fulfilled {| status := 200; statusText := "OK"; headers := [];
                                 body := None |})
    by (vm_compute; reflexivity).
  split; [exact Hhead|]. split; [exact Hresp|].
  exact (head_at_construction_gives_null_body example_host head_incoming _ _
           Hhead Hresp).
Defined.

(** X2 after the finish signal. *)
Lemma fetchResponse_never_rejected_witness :
  not_rejected (fetchResponse (bridge example_finished)).
Proof.
  apply (fetchResponse_never_rejected example_host).
  apply reach_emit. apply reach_new.
Defined.

(** ** Instances of the further properties *)

(** X5 at [writeHead(4294967596)], which is [writeHead(300)]. *)
Lemma writeHead_coerces_status_code_witness :
  (100 <= ToInt32 4294967596 <= 999)%Z
  /\ writeHead 4294967596 (ReasonHeaders HUndefined) HUndefined example_response
     = writeHead (ToInt32 4294967596) (ReasonHeaders HUndefined) HUndefined
         example_response
  /\ writeHead (4294967596 + 4294967296 * 2) (ReasonHeaders HUndefined) HUndefined
       example_response
     = writeHead (ToInt32 4294967596) (ReasonHeaders HUndefined) HUndefined
         example_response.
Proof.
  assert (H : (100 <= ToInt32 4294967596 <= 999)%Z)
    by (vm_compute; split; intros Hc; discriminate Hc).
  split; [exact H|].
  exact (writeHead_coerces_status_code 4294967596 2 (ReasonHeaders HUndefined)
           HUndefined example_response H).
Defined.

(** X6 at a reason phrase with a line feed in it. *)
Lemma writeHead_refuses_reason_phrase_witness :
  field_vchar LF = false
  /\ writeHead 200 (ReasonString ("OK" ++ String LF "Set-Cookie: a=b")) HUndefined
       example_response
     = (Thrown (ERR_INVALID_CHAR "statusMessage"),
        set_statusCode (ToInt32 200)
          (set_statusMessage (Some ("OK" ++ String LF "Set-Cookie: a=b")%string)
             example_response)).
Proof.
  assert (H : field_vchar LF = false) by reflexivity.
  split; [exact H|].
  destruct (writeHead_refuses_reason_phrase 200 "OK" LF "Set-Cookie: a=b"
              HUndefined example_response H) as (_ & _ & Hexact & _).
  apply Hexact;
    [reflexivity | vm_compute; split; intros Hc; discriminate Hc | reflexivity].
Defined.

(** X7 at [res.statusMessage = "Custom"] followed by [writeHead(404)]. *)
Lemma writeHead_keeps_statusMessage_witness :
  statusMessage (set_statusMessage (Some "Custom") example_response) = Some "Custom"
  /\ writeHead 404 (ReasonHeaders HUndefined) HUndefined
       (set_statusMessage (Some "Custom") example_response)
     = (Returned,
        snd (writeHead 404 (ReasonHeaders HUndefined) HUndefined
               (set_statusMessage (Some "Custom") example_response)))
  /\ statusMessage
       (snd (writeHead 404 (ReasonHeaders HUndefined) HUndefined
               (set_statusMessage (Some "Custom") example_response)))
     = Some "Custom"
  /\ (exists rest,
        _header
          (snd (writeHead 404 (ReasonHeaders HUndefined) HUndefined
                  (set_statusMessage (Some "Custom") example_response)))
        = Some ("HTTP/1.1 404 Custom"
                ++ String (ascii_of_nat 13) (String (ascii_of_nat 10) rest))%string)
  /\ (exists ev,
        _headerFields
          (snd (writeHead 404 (ReasonHeaders HUndefined) HUndefined
                  (set_statusMessage (Some "Custom") example_response)))
        = Some ev
        /\ e_statusCode ev = ToInt32 404 /\ e_statusMessage ev = "Custom").
Proof.
  assert (Hne : "Custom" <> EmptyString) by discriminate.
  assert (Hw : writeHead 404 (ReasonHeaders HUndefined) HUndefined
                 (set_statusMessage (Some "Custom") example_response)
               = (Returned,
                  snd (writeHead 404 (ReasonHeaders HUndefined) HUndefined
                         (set_statusMessage (Some "Custom") example_response))))
    by (vm_compute; reflexivity).
  destruct (writeHead_keeps_statusMessage 404 HUndefined HUndefined
              (set_statusMessage (Some "Custom") example_response) "Custom"
              eq_refl Hne) as [Hkept Hreturned].
  destruct (Hreturned _ Hw) as [[rest Hheader] Hevent].
  split; [reflexivity|]. split; [exact Hw|]. split; [exact Hkept|].
  split; [exists rest; exact Hheader | exact Hevent].
Defined.

(** X8 at a reason phrase that ends in a line feed. *)
Lemma rejected_reason_phrase_sticks_witness :
  checkInvalidHeaderChar ("ok" ++ String LF "")%string = true
  /\ exists err,
       fst (_implicitHeader
              (snd (writeHead 200
                      (ReasonString ("ok" ++ String LF "")%string)
                      HUndefined example_response)))
       = Thrown err.
Proof.
  assert (Hbad : checkInvalidHeaderChar ("ok" ++ String LF "")%string = true)
    by reflexivity.
  assert (Hrange : (100 <= ToInt32 200 <= 999)%Z)
    by (vm_compute; split; intros Hc; discriminate Hc).
  split; [exact Hbad|].
  destruct (rejected_reason_phrase_sticks 200
              ("ok" ++ String LF "")%string HUndefined example_response
              404 HUndefined HUndefined eq_refl Hrange Hbad) as (_ & _ & H & _).
  exact H.
Defined.

(** X9 at an array of one item, on a message with two fields set. *)
Lemma writeHead_odd_header_array_witness :
  Nat.even (List.length ["x-a"]) = false
  /\ writeHead 200 (ReasonHeaders HUndefined) (HArray ["x-a"]) example_with_headers
     = (Thrown (ERR_INVALID_ARG_VALUE "headers"),
        set_statusCode (ToInt32 200)
          (set_statusMessage
             (Some (reason_phrase (ReasonHeaders HUndefined) 200 example_with_headers))
             example_with_headers)).
Proof.
  assert (Hrange : (100 <= ToInt32 200 <= 999)%Z)
    by (vm_compute; split; intros Hc; discriminate Hc).
  split; [reflexivity|].
  apply (writeHead_odd_header_array 200 (ReasonHeaders HUndefined)
           (HArray ["x-a"]) ["x-a"] (out_headers example_with_headers)
           example_with_headers);
    [reflexivity | exact Hrange | reflexivity | reflexivity | reflexivity].
Defined.

(** X10 at [writeHead(205)]: the message keeps its body. *)
Lemma writeHead_hasBody_witness :
  writeHead 205 (ReasonHeaders HUndefined) HUndefined example_response
  = (Returned, snd (writeHead 205 (ReasonHeaders HUndefined) HUndefined example_response))
  /\ _hasBody (snd (writeHead 205 (ReasonHeaders HUndefined) HUndefined example_response))
     = true.
Proof.
  assert (Hw : writeHead 205 (ReasonHeaders HUndefined) HUndefined example_response
               = (Returned,
                  snd (writeHead 205 (ReasonHeaders HUndefined) HUndefined
                         example_response)))
    by (vm_compute; reflexivity).
  split; [exact Hw|].
  apply (proj2 (writeHead_hasBody 205 (ReasonHeaders HUndefined) HUndefined
                  example_response _ Hw)).
  repeat apply conj; vm_compute; try reflexivity; intros Hc; discriminate Hc.
Defined.

(** X11 at a client that expects 100 Continue and gets a final status. *)
Lemma writeHead_shouldKeepAlive_witness :
  shouldKeepAlive example_expecting = true
  /\ shouldKeepAlive
       (snd (writeHead 200 (ReasonHeaders HUndefined) HUndefined example_expecting))
     = false.
Proof.
  assert (Hw : writeHead 200 (ReasonHeaders HUndefined) HUndefined example_expecting
               = (Returned,
                  snd (writeHead 200 (ReasonHeaders HUndefined) HUndefined
                         example_expecting)))
    by (vm_compute; reflexivity).
  split; [reflexivity|].
  exact (proj1 (writeHead_shouldKeepAlive 200 (ReasonHeaders HUndefined)
                  HUndefined example_expecting _ Hw) eq_refl eq_refl).
Defined.

(** X12 at the same client, [writeContinue] first. *)
Lemma writeContinue_keeps_connection_alive_witness :
  shouldKeepAlive example_expecting = true
  /\ shouldKeepAlive
       (snd (writeHead 200 (ReasonHeaders HUndefined) HUndefined
               (snd (writeContinue example_host example_expecting))))
     = shouldKeepAlive example_expecting.
Proof.
  assert (Hc : writeContinue example_host example_expecting
               = (Returned, snd (writeContinue example_host example_expecting)))
    by (vm_compute; reflexivity).
  assert (Hw : writeHead 200 (ReasonHeaders HUndefined) HUndefined
                 (snd (writeContinue example_host example_expecting))
               = (Returned,
                  snd (writeHead 200 (ReasonHeaders HUndefined) HUndefined
                         (snd (writeContinue example_host example_expecting)))))
    by (vm_compute; reflexivity).
  split; [reflexivity|].
  exact (proj1 (proj2 (writeContinue_keeps_connection_alive example_host 200
                         (ReasonHeaders HUndefined) HUndefined example_expecting _ _
                         Hc Hw))).
Defined.

(** X15 at a second header-sent event and the finish signal. *)
Lemma fetchResponse_settles_once_witness :
  toFetchResponse example_streaming
  = Fulfilled {| status := 200; statusText := "OK"; headers := []; body := Some 0 |}
  /\ toFetchResponse
       (deliver example_host [HeadersSent reset_event; Finish] example_streaming)
     = Fulfilled {| status := 200; statusText := "OK"; headers := []; body := Some 0 |}.
Proof.
  assert (H : toFetchResponse example_streaming
              = Fulfilled {| status := 200; statusText := "OK"; headers := [];
                             body := Some 0 |})
    by (vm_compute; reflexivity).
  split; [exact H|].
  exact (fetchResponse_settles_once example_host [HeadersSent reset_event; Finish]
           example_streaming _ H).
Defined.

(** X16 at a header-sent event that follows the finish signal. *)
Lemma headersSent_fulfils_witness :
  toFetchResponse example_finished = Pending
  /\ fst (emit example_host (HeadersSent ok_event) example_finished) = Returned
  /\ exists st,
       streams (bridge (snd (emit example_host (HeadersSent ok_event) example_finished)))
       = streams (bridge example_finished) ++ [st]
       /\ queue st = initialDataChunks (bridge example_finished)
       /\ closed st = finished (bridge example_finished)
       /\ listening st = negb (finished (bridge example_finished)).
Proof.
  assert (Hp : toFetchResponse example_finished = Pending) by reflexivity.
  assert (Ha : accepted example_host ok_event (_hasBody example_finished))
    by (split; reflexivity).
  split; [exact Hp|].
  destruct (headersSent_fulfils example_host ok_event example_finished Hp Ha)
    as (Hret & _ & _ & _ & Hstream).
  split; [exact Hret | exact (Hstream eq_refl)].
Defined.

(** X17 at status 205 on a message with a body. *)
Lemma headersSent_refused_witness :
  Response_init_ok example_host (_hasBody example_response) (e_statusCode reset_event)
    (e_statusMessage reset_event) = false
  /\ (exists api,
        fst (emit example_host (HeadersSent reset_event) example_response)
        = Thrown (HostError api))
  /\ toFetchResponse (snd (emit example_host (HeadersSent reset_event) example_response))
     = toFetchResponse example_response.
Proof.
  assert (H : Response_init_ok example_host (_hasBody example_response)
                (e_statusCode reset_event) (e_statusMessage reset_event) = false)
    by reflexivity.
  split; [exact H|].
  destruct (headersSent_refused example_host reset_event example_response (or_intror H))
    as (Hthrown & Hsame & _).
  split; [exact Hthrown | exact Hsame].
Defined.

(** X18 at the finish signal on an open stream. *)
Lemma first_finish_closes_every_stream_witness :
  finished (bridge example_streaming) = false
  /\ fst (emit example_host Finish example_streaming) = Returned
  /\ Forall (fun st => closed st = true)
       (streams (bridge (snd (emit example_host Finish example_streaming)))).
Proof.
  assert (Hr : reachable example_host example_streaming)
    by (apply reach_emit, reach_new).
  split; [reflexivity|].
  destruct (first_finish_closes_every_stream example_host example_streaming Hr eq_refl)
    as (Hret & _ & _ & Hclosed & _).
  split; [exact Hret | exact Hclosed].
Defined.

(** X19 at a chunk written to an open stream. *)
Lemma dataWritten_reaches_every_stream_witness :
  dataFromDataWrittenEvent example_host (text_event 1 "a") example_streaming
  = Ok (VBytes [x61])
  /\ streams (bridge (snd (emit example_host (DataWritten (text_event 1 "a"))
                             example_streaming)))
     = map (enqueue (VBytes [x61])) (streams (bridge example_streaming)).
Proof.
  assert (Hr : reachable example_host example_streaming)
    by (apply reach_emit, reach_new).
  split; [reflexivity|].
  exact (proj1 (proj2 (dataWritten_reaches_every_stream example_host
                         (text_event 1 "a") (VBytes [x61]) example_streaming
                         Hr eq_refl eq_refl))).
Defined.

(** X21 at hints with a link and two more keys. *)
Lemma writeEarlyHints_block_witness :
  example_validate (hint "link" example_hints) = Ok "</style.css>; rel=preload"
  /\ writeEarlyHints example_host example_validate example_hints example_response
     = _writeRaw example_host
         (VString ("HTTP/1.1 103 Early Hints" ++ CRLF
                   ++ "Link: " ++ "</style.css>; rel=preload" ++ CRLF
                   ++ hint_lines example_hints ++ CRLF)%string)
         (EncName "ascii") example_response.
Proof.
  assert (Hnull : hint "link" example_hints <> HintNull) by discriminate.
  assert (Hundef : hint "link" example_hints <> HintUndefined) by discriminate.
  assert (Hne : "</style.css>; rel=preload" <> EmptyString) by discriminate.
  split; [reflexivity|].
  exact (writeEarlyHints_block example_host example_validate example_hints
           "</style.css>; rel=preload" example_response Hnull Hundef eq_refl Hne).
Defined.

(** X23 at an array that names one of two fields twice. *)
Lemma writeHead_array_overrides_witness :
  out_values "x-a" (out_headers example_with_headers) = ["old"]
  /\ out_values "x-a"
       (out_headers
          (snd (writeHead 200 (ReasonHeaders (HArray ["x-a"; "1"; "X-A"; "2"]))
                  HUndefined example_with_headers)))
     = ["1"; "2"]
  /\ out_values "x-b"
       (out_headers
          (snd (writeHead 200 (ReasonHeaders (HArray ["x-a"; "1"; "X-A"; "2"]))
                  HUndefined example_with_headers)))
     = ["kept"].
Proof.
  assert (Hw : writeHead 200 (ReasonHeaders (HArray ["x-a"; "1"; "X-A"; "2"]))
                 HUndefined example_with_headers
               = (Returned,
                  snd (writeHead 200 (ReasonHeaders (HArray ["x-a"; "1"; "X-A"; "2"]))
                         HUndefined example_with_headers)))
    by (vm_compute; reflexivity).
  pose proof (writeHead_array_overrides 200
                (ReasonHeaders (HArray ["x-a"; "1"; "X-A"; "2"])) HUndefined
                ["x-a"; "1"; "X-A"; "2"] (out_headers example_with_headers)
                example_with_headers _ eq_refl eq_refl Hw) as H.
  split; [reflexivity|].
  split; [exact (H "x-a") | exact (H "x-b")].
Defined.

(** X20 at hints whose only link is spelled [Link]. *)
Lemma writeEarlyHints_without_link_witness :
  writeEarlyHints example_host example_validate
    [("Link", HintString "</style.css>; rel=preload"); ("x-trace", HintString "abc")]
    example_response
  = (Returned, example_response).
Proof.
  apply (proj1 (writeEarlyHints_without_link example_host example_validate
                  [("Link", HintString "</style.css>; rel=preload");
                   ("x-trace", HintString "abc")] example_response)).
  simpl. intros [H|[H|[]]]; discriminate H.
Defined.

(** C3 at [writeHead(100)], [write("hello")], [end()]. *)
Lemma informational_status_never_resolves_witness :
  (100 <= 100 <= 199)%Z
  /\ _hasBody (snd (writeHead 100 (ReasonHeaders HUndefined) HUndefined example_response))
     = false
  /\ snd (write example_host (VString "hello") EncUndefined
            (snd (writeHead 100 (ReasonHeaders HUndefined) HUndefined example_response)))
     = snd (writeHead 100 (ReasonHeaders HUndefined) HUndefined example_response)
  /\ fst (end_ example_host
            (snd (writeHead 100 (ReasonHeaders HUndefined) HUndefined example_response)))
     = Thrown (HostError "Response")
  /\ toFetchResponse
       (snd (end_ example_host
               (snd (writeHead 100 (ReasonHeaders HUndefined) HUndefined
                       example_response))))
     = Pending
  /\ toFetchResponse
       (run example_host [CallWrite (VString "late") EncUndefined; CallEnd]
          (snd (end_ example_host
                  (snd (writeHead 100 (ReasonHeaders HUndefined) HUndefined
                          example_response)))))
     = Pending.
Proof.
  assert (Hcode : (100 <= 100 <= 199)%Z) by lia.
  assert (Hrefuses : forall text, Response_init_ok example_host false 100 text = false)
    by (intros text; reflexivity).
  assert (Hw : writeHead 100 (ReasonHeaders HUndefined) HUndefined
                 (FetchServerResponse_new example_host blank_incoming)
               = (Returned,
                  snd (writeHead 100 (ReasonHeaders HUndefined) HUndefined
                         example_response)))
    by (vm_compute; reflexivity).
  assert (Hfst : fst (end_ example_host
                        (snd (writeHead 100 (ReasonHeaders HUndefined) HUndefined
                                example_response)))
                 = Thrown (HostError "Response"))
    by (vm_compute; reflexivity).
  destruct (informational_status_never_resolves example_host blank_incoming 100
              (ReasonHeaders HUndefined) HUndefined _ Hcode Hrefuses Hw)
    as (Hbody & Hwrite & _ & api & s2 & Hend & _ & Hp & Hcs & _).
  split; [exact Hcode|]. split; [exact Hbody|]. split; [apply Hwrite|].
  split; [exact Hfst|]. rewrite Hend. cbn [snd].
  split; [exact Hp | apply Hcs].
Defined.

(** X26 at [writeHead(304)], two body writes and [end()]. *)
Lemma no_body_status_resolves_witness :
  noBodyStatus (ToInt32 304) = true
  /\ toFetchResponse
       (run example_host
          (map (fun w => CallWrite (fst w) (snd w))
             [(VString "hello", EncUndefined); (VBytes [x61], EncUndefined)]
           ++ [CallEnd])
          (snd (writeHead 304 (ReasonHeaders HUndefined) HUndefined example_response)))
     = Fulfilled {| status := 304; statusText := "Not Modified"; headers := [];
                    body := None |}.
Proof.
  assert (Hno : noBodyStatus (ToInt32 304) = true) by reflexivity.
  assert (Hw : writeHead 304 (ReasonHeaders HUndefined) HUndefined
                 (FetchServerResponse_new example_host blank_incoming)
               = (Returned,
                  snd (writeHead 304 (ReasonHeaders HUndefined) HUndefined
                         example_response)))
    by (vm_compute; reflexivity).
  assert (Haccepted : forall ev,
             _headerFields
               (snd (writeHead 304 (ReasonHeaders HUndefined) HUndefined
                       example_response)) = Some ev ->
             accepted example_host ev false).
  { intros ev Hev. vm_compute in Hev. inversion Hev. split; reflexivity. }
  split; [exact Hno|].
  destruct (no_body_status_resolves example_host blank_incoming 304
              (ReasonHeaders HUndefined) HUndefined _
              [(VString "hello", EncUndefined); (VBytes [x61], EncUndefined)]
              Hno Hw Haccepted) as (ev & Hfields & _ & _ & Hresp & _).
  vm_compute in Hfields. inversion Hfields; subst ev. exact Hresp.
Defined.
